(** * Business Manager back office: payroll, roster and time arithmetic

    A shallow embedding of [src/app.py].  Python [float]s are IEEE 754
    binary64 numbers and are modelled by Rocq's primitive floats, so every
    amount below is computed bit for bit as the program computes it.
    Exceptions are values of [error]; a handler that may raise returns a
    [result].  A handler is modelled as the Python function it is: the
    value it returns or the exception it raises, together with the stored
    rows after the call where it writes; turning the returned value into a
    JSON response is not part of it.  Dictionaries keep insertion order
    (sums of floats depend on it) and are association lists. *)

From Stdlib Require Import ZArith Floats Bool List String Ascii Lia.
Import ListNotations.

Set Warnings "-inexact-float".

Open Scope Z_scope.

(** ** Exceptions *)

Inductive error : Type :=
| ValueError          (* strptime: malformed time or date *)
| KeyError            (* employees[emp_id] on an absent id *)
| AttributeError      (* attribute access on the None that s.get returned *)
| IntegrityError      (* commit: NOT NULL constraint failed *)
| HTTP400 (detail : string).

Definition result (A : Type) : Type := (A + error)%type.

Definition ret {A} (a : A) : result A := inl a.
Definition raise {A} (e : error) : result A := inr e.
Definition bind {A B} (m : result A) (k : A -> result B) : result B :=
  match m with
  | inl a => k a
  | inr e => inr e
  end.

Notation "x <- m ;; k" := (bind m (fun x => k))
  (at level 61, m at next level, right associativity).

(** A [for] loop whose body may raise: the accumulator is threaded from
    left to right and the first exception stops the loop. *)
Fixpoint for_each {A S} (body : S -> A -> result S) (l : list A) (s : S)
  : result S :=
  match l with
  | [] => ret s
  | a :: l' => s' <- body s a ;; for_each body l' s'
  end.

(** ** Python floats *)

Module PyFloat.

(** [int] to [float]; exact for the integers used here (below 2^53). *)
Definition of_Z (n : Z) : float :=
  match n with
  | Zneg p => (- PrimFloat.of_uint63 (Uint63.of_Z (Zpos p)))%float
  | _ => PrimFloat.of_uint63 (Uint63.of_Z n)
  end.

(** Nearest integer to [n / d], ties to the even one ([0 <= n], [0 < d]). *)
Definition round_half_even_div (n d : Z) : Z :=
  let q := n / d in
  let r := n mod d in
  match 2 * r ?= d with
  | Lt => q
  | Gt => q + 1
  | Eq => if Z.even q then q else q + 1
  end.

(** The exact value [m * 2^e] in hundredths, rounded half to even. *)
Definition scaled_hundredths (m : positive) (e : Z) : Z :=
  if 0 <=? e then Zpos m * 2 ^ e * 100
  else round_half_even_div (Zpos m * 100) (2 ^ (- e)).

(** [round(x, 2)].  CPython prints the exact binary value of [x] with two
    decimals, correctly rounded (half to even), and reads the decimal
    string back as the nearest double; infinities and NaN are returned
    as they are, and the sign of a result that rounds to zero is kept. *)
Definition round2 (x : float) : float :=
  match Prim2SF x with
  | S754_finite s m e =>
      match scaled_hundredths m e with
      | Zpos n =>
          SF2Prim (SFdiv prec emax (S754_finite s n 0)
                                   (S754_finite false 100 0))
      | _ => SF2Prim (S754_zero s)
      end
  | _ => x
  end.

End PyFloat.

Abbreviation round2 := PyFloat.round2.

(** ** The part of [datetime] that the helpers use *)

Module DateTime.

Record datetime : Type := mk
  { year : Z; month : Z; day : Z; hour : Z; minute : Z; second : Z }.

Record timedelta : Type := mk_delta { days : Z; seconds : Z }.

Definition is_leap (y : Z) : bool :=
  (y mod 4 =? 0) && (negb (y mod 100 =? 0) || (y mod 400 =? 0)).

Definition days_in_month (y m : Z) : Z :=
  if m =? 2 then (if is_leap y then 29 else 28)
  else if (m =? 4) || (m =? 6) || (m =? 9) || (m =? 11) then 30
  else 31.

Definition days_before_year (y : Z) : Z :=
  let y' := y - 1 in
  y' * 365 + y' / 4 - y' / 100 + y' / 400.

Fixpoint days_before_month_aux (y : Z) (n : nat) : Z :=
  match n with
  | O => 0
  | S n' => days_before_month_aux y n' + days_in_month y (Z.of_nat n)
  end.

(** Days of year [y] before the first of month [m]. *)
Definition days_before_month (y m : Z) : Z :=
  days_before_month_aux y (Z.to_nat (m - 1)).

Definition toordinal (d : datetime) : Z :=
  days_before_year (year d) + days_before_month (year d) (month d) + day d.

Definition second_of_day (d : datetime) : Z :=
  second d + minute d * 60 + hour d * 3600.

(** The constructor check: [datetime(y, m, d)] raises [ValueError]
    outside these ranges. *)
Definition valid_date (y m d : Z) : bool :=
  (1 <=? y) && (y <=? 9999) && (1 <=? m) && (m <=? 12) &&
  (1 <=? d) && (d <=? days_in_month y m).

(** Datetimes compare as the tuples of their fields. *)
Definition compare (a b : datetime) : comparison :=
  match year a ?= year b with
  | Eq =>
      match month a ?= month b with
      | Eq =>
          match day a ?= day b with
          | Eq => second_of_day a ?= second_of_day b
          | c => c
          end
      | c => c
      end
  | c => c
  end.

Definition ltb (a b : datetime) : bool :=
  match compare a b with Lt => true | _ => false end.

Definition leb (a b : datetime) : bool :=
  match compare a b with Gt => false | _ => true end.

(** [d + timedelta(days=1)] (the overflow past year 9999 cannot arise
    from a date of the year 1900). *)
Definition add_one_day (d : datetime) : datetime :=
  if day d <? days_in_month (year d) (month d)
  then mk (year d) (month d) (day d + 1) (hour d) (minute d) (second d)
  else if month d <? 12
  then mk (year d) (month d + 1) 1 (hour d) (minute d) (second d)
  else mk (year d + 1) 1 1 (hour d) (minute d) (second d).

(** [a - b]: the [timedelta] constructor normalises the seconds into
    [0, 86400) and carries into the days. *)
Definition sub (a b : datetime) : timedelta :=
  let s := second_of_day a - second_of_day b in
  mk_delta (toordinal a - toordinal b + s / 86400) (s mod 86400).

End DateTime.

Import DateTime.

(** ** [strptime]

    The format is compiled to a regular expression that must match the
    whole string; each directive is an ordered alternation, so a two-digit
    reading is tried before a one-digit one.  Strings are ASCII here
    (Python also accepts other Unicode decimal digits). *)

Module Strptime.

Definition digit (c : ascii) : option Z :=
  let n := Z.of_N (N_of_ascii c) in
  if (48 <=? n) && (n <=? 57) then Some (n - 48) else None.

Definition chars (s : string) : list ascii := list_ascii_of_string s.

(** One directive: the value it reads and the rest of the input. *)
Definition directive : Type := list ascii -> option (Z * list ascii).

(** Two digits whose value [accept]s. *)
Definition two_digits (accept : Z -> Z -> bool) : directive :=
  fun l =>
    match l with
    | a :: b :: rest =>
        match digit a, digit b with
        | Some x, Some y =>
            if accept x y then Some (10 * x + y, rest) else None
        | _, _ => None
        end
    | _ => None
    end.

Definition one_digit (accept : Z -> bool) : directive :=
  fun l =>
    match l with
    | a :: rest =>
        match digit a with
        | Some x => if accept x then Some (x, rest) else None
        | None => None
        end
    | [] => None
    end.

(** A literal character of the format. *)
Definition literal (c : ascii) (l : list ascii) : option (list ascii) :=
  match l with
  | a :: rest => if Ascii.eqb a c then Some rest else None
  | [] => None
  end.

(** [alts ps k]: the ordered alternation of [ps] followed by the rest
    [k] of the pattern; the matcher backtracks into the next alternative
    when [k] fails after an earlier one. *)
Fixpoint alts {A} (ps : list directive)
         (k : Z -> list ascii -> option A) (l : list ascii) : option A :=
  match ps with
  | [] => None
  | p :: ps' =>
      match p l with
      | Some (v, rest) =>
          match k v rest with
          | Some r => Some r
          | None => alts ps' k l
          end
      | None => alts ps' k l
      end
  end.

(** [%H]: [2[0-3]|[0-1]\d|\d] *)
Definition H_two : directive :=
  two_digits (fun x y => (x <=? 1) || ((x =? 2) && (y <=? 3))).
Definition H_one : directive := one_digit (fun _ => true).

(** [%M]: [[0-5]\d|\d] *)
Definition M_two : directive := two_digits (fun x _ => x <=? 5).
Definition M_one : directive := one_digit (fun _ => true).

(** [%m]: [1[0-2]|0[1-9]|[1-9]] *)
Definition m_two : directive :=
  two_digits (fun x y => ((x =? 1) && (y <=? 2)) || ((x =? 0) && (1 <=? y))).
Definition m_one : directive := one_digit (fun x => 1 <=? x).

(** [%d]: [3[01]|[12]\d|0[1-9]|[1-9]| [1-9]] *)
Definition d_two : directive :=
  two_digits (fun x y =>
    ((x =? 3) && (y <=? 1)) || (x =? 1) || (x =? 2) ||
    ((x =? 0) && (1 <=? y))).
Definition d_one : directive := one_digit (fun x => 1 <=? x).
Definition d_padded : directive :=
  fun l =>
    match l with
    | a :: rest => if Ascii.eqb a " " then d_one rest else None
    | [] => None
    end.

(** [%Y]: [\d\d\d\d] *)
Definition Y_four : directive :=
  fun l =>
    match l with
    | a :: b :: c :: d :: rest =>
        match digit a, digit b, digit c, digit d with
        | Some w, Some x, Some y, Some z =>
            Some (1000 * w + 100 * x + 10 * y + z, rest)
        | _, _, _, _ => None
        end
    | _ => None
    end.

(** The compiled patterns: the values read and the unmatched rest. *)
Definition regex_HM : list ascii -> option (Z * Z * list ascii) :=
  alts [H_two; H_one] (fun h rest =>
    match literal ":" rest with
    | Some rest' => alts [M_two; M_one] (fun m r => Some (h, m, r)) rest'
    | None => None
    end).

(** The part of ["%Y-%m-%d"] after the year. *)
Definition regex_md (l : list ascii) : option (Z * Z * list ascii) :=
  match literal "-" l with
  | Some rest1 =>
      alts [m_two; m_one] (fun m rest2 =>
        match literal "-" rest2 with
        | Some rest3 =>
            alts [d_two; d_one; d_padded] (fun d r => Some (m, d, r)) rest3
        | None => None
        end) rest1
  | None => None
  end.

Definition regex_Ymd (l : list ascii) : option (Z * Z * Z * list ascii) :=
  match Y_four l with
  | Some (y, rest) =>
      match regex_md rest with
      | Some (m, d, r) => Some (y, m, d, r)
      | None => None
      end
  | None => None
  end.

(** [datetime.strptime(s, "%H:%M")]: no match, or a match that leaves
    data unconverted, is a [ValueError]; the date defaults to
    1900-01-01. *)
Definition strptime_HM (s : string) : result datetime :=
  match regex_HM (chars s) with
  | Some (h, m, []) => ret (mk 1900 1 1 h m 0)
  | _ => raise ValueError
  end.

(** [datetime.strptime(s, "%Y-%m-%d")]: midnight of the date, which the
    [datetime] constructor validates. *)
Definition strptime_Ymd (s : string) : result datetime :=
  match regex_Ymd (chars s) with
  | Some (y, m, d, []) =>
      if valid_date y m d then ret (mk y m d 0 0 0) else raise ValueError
  | _ => raise ValueError
  end.

End Strptime.

(** ** Helpers *)

Definition parse_time (hhmm : string) : result datetime :=
  Strptime.strptime_HM hhmm.

Definition hours_between (start end_ : string) : result float :=
  s <- parse_time start ;;
  e <- parse_time end_ ;;
  let e := if DateTime.ltb e s then add_one_day e else e in
  ret (PyFloat.of_Z (seconds (DateTime.sub e s)) / 3600)%float.

Definition within_period (day_str start end_ : string) : result bool :=
  d <- Strptime.strptime_Ymd day_str ;;
  s <- Strptime.strptime_Ymd start ;;
  e <- Strptime.strptime_Ymd end_ ;;
  ret (DateTime.leb s d && DateTime.leb d e).

(** ** Database models *)

Inductive EmploymentType : Type := TFN | ABN | INT_STUDENT.
Inductive PayMethod : Type := bank | cash.
Inductive Busyness : Type := low | med | high.

Definition EmploymentType_eqb (a b : EmploymentType) : bool :=
  match a, b with
  | TFN, TFN | ABN, ABN | INT_STUDENT, INT_STUDENT => true
  | _, _ => false
  end.

Definition PayMethod_eqb (a b : PayMethod) : bool :=
  match a, b with
  | bank, bank | cash, cash => true
  | _, _ => false
  end.

Module Employee.
(** A row loaded from the store carries its primary key. *)
Record t : Type := mk
  { id : Z;
    name : string;
    email : option string;
    employment_type : EmploymentType;
    tfn : option string;
    abn : option string;
    hourly_rate : float;
    role : option string;
    max_hours_week : option float;
    pay_preference : PayMethod }.
End Employee.

Module Shift.
Record t : Type := mk
  { id : Z;
    employee_id : option Z;     (* can be empty before assignment *)
    day : string;               (* "YYYY-MM-DD" *)
    start : string;             (* "HH:MM" *)
    end_ : string;              (* "HH:MM" *)
    role : option string;
    expected_busyness : Busyness;
    max_shift_hours : option float }.

Definition set_employee_id (sh : t) (e : option Z) : t :=
  mk (id sh) e (day sh) (start sh) (end_ sh) (role sh)
     (expected_busyness sh) (max_shift_hours sh).
End Shift.

Module TaxSuperRule.
Record t : Type := mk
  { id : Z;
    super_rate : float;
    int_student_weekly_cap : float;
    bracket1_max : float;
    bracket1_rate : float;
    bracket2_max : float;
    bracket2_base : float;
    bracket2_rate : float;
    bracket3_base : float;
    bracket3_rate : float;
    abn_withholding_rate : float }.

(** The record that start-up creates when none exists. *)
Definition default : t :=
  mk 1 0.115 24.0 500.0 0.05 1000.0 25.0 0.15 100.0 0.25 0.0.
End TaxSuperRule.

(** ** What the store keeps of a float

    The tables live in SQLite and their float columns are declared FLOAT.
    A float bound to such a column is read back bit for bit, with two
    exceptions: NaN is bound as NULL, and a zero is stored as the integer 0,
    so that [-0.0] is read back as [0.0].  NULL in a column that is not
    optional makes the commit raise [IntegrityError], and nothing of the
    transaction is stored.  Every handler that writes ends with [refresh],
    so its response carries the values read back.  Integers are taken
    within the 64-bit range of the store. *)

Definition sqlite_real (x : float) : option float :=
  if is_nan x then None
  else if (x =? 0)%float then Some 0%float
  else Some x.

(** A column of type [Optional[float]]. *)
Definition store_nullable (x : option float) : option float :=
  match x with
  | Some v => sqlite_real v
  | None => None
  end.

(** A column of type [float]. *)
Definition store_required (x : float) : result float :=
  match sqlite_real x with
  | Some v => ret v
  | None => raise IntegrityError
  end.

(** ** Request schemas *)

Module ShiftIn.
Record t : Type := mk
  { employee_id : option Z;
    day : string;
    start : string;
    end_ : string;
    role : option string;
    expected_busyness : Busyness;
    max_shift_hours : option float }.
End ShiftIn.

Module PayrollReq.
Record t : Type := mk
  { period_start : string;
    period_end : string;
    default_pay_method : PayMethod }.
End PayrollReq.

Module RuleUpdate.
Record t : Type := mk
  { super_rate : option float;
    int_student_weekly_cap : option float;
    bracket1_max : option float;
    bracket1_rate : option float;
    bracket2_max : option float;
    bracket2_base : option float;
    bracket2_rate : option float;
    bracket3_base : option float;
    bracket3_rate : option float;
    abn_withholding_rate : option float }.
End RuleUpdate.

(** ** Tax and super *)

Definition compute_tax (emp : Employee.t) (gross weekly_hours : float)
           (r : TaxSuperRule.t) : float :=
  if EmploymentType_eqb (Employee.employment_type emp) ABN then
    round2 (gross * TaxSuperRule.abn_withholding_rate r)
  else if (gross <=? TaxSuperRule.bracket1_max r)%float then
    round2 (gross * TaxSuperRule.bracket1_rate r)
  else if (gross <=? TaxSuperRule.bracket2_max r)%float then
    round2 (TaxSuperRule.bracket2_base r
            + (gross - TaxSuperRule.bracket1_max r)
              * TaxSuperRule.bracket2_rate r)
  else
    round2 (TaxSuperRule.bracket3_base r
            + (gross - TaxSuperRule.bracket2_max r)
              * TaxSuperRule.bracket3_rate r).

Definition compute_super (gross : float) (r : TaxSuperRule.t) : float :=
  round2 (gross * TaxSuperRule.super_rate r).

(** ** Python dictionaries keyed by integers

    Iteration follows insertion order, and assigning to a key that is
    present keeps its position. *)

Definition dict (V : Type) : Type := list (Z * V).

Fixpoint dict_get {V} (d : dict V) (k : Z) : option V :=
  match d with
  | [] => None
  | (k', v) :: d' => if k =? k' then Some v else dict_get d' k
  end.

Fixpoint dict_set {V} (d : dict V) (k : Z) (v : V) : dict V :=
  match d with
  | [] => [(k, v)]
  | (k', v') :: d' =>
      if k =? k' then (k, v) :: d' else (k', v') :: dict_set d' k v
  end.

(** [d.get(k, default)] *)
Definition dict_get_default {V} (d : dict V) (k : Z) (default : V) : V :=
  match dict_get d k with
  | Some v => v
  | None => default
  end.

(** Truth value of an [Optional[int]]: [None] and [0] are both false. *)
Definition truthy (o : option Z) : bool :=
  match o with
  | Some n => negb (n =? 0)
  | None => false
  end.

(** [e.role == sh.role] on optional strings. *)
Definition role_eqb (a b : option string) : bool :=
  match a, b with
  | Some x, Some y => String.eqb x y
  | None, None => true
  | _, _ => false
  end.

(** ** Roster *)

(** SQLite gives a new row the largest row id plus one. *)
Definition next_shift_id (shifts : list Shift.t) : Z :=
  1 + fold_right (fun sh m => Z.max (Shift.id sh) m) 0 shifts.

(** The row that the request becomes in the store. *)
Definition shift_of_input (new_id : Z) (i : ShiftIn.t) : Shift.t :=
  Shift.mk new_id (ShiftIn.employee_id i) (ShiftIn.day i) (ShiftIn.start i)
           (ShiftIn.end_ i) (ShiftIn.role i) (ShiftIn.expected_busyness i)
           (store_nullable (ShiftIn.max_shift_hours i)).

Definition ShiftExceedsCap : error := HTTP400 "Shift exceeds max_shift_hours".

(** [add_shift]: the stored shifts after the call, and the response.  The
    cap is tested as the request gives it; the shift returned is the row
    read back. *)
Definition add_shift (db : list Shift.t) (shift : ShiftIn.t)
  : list Shift.t * result Shift.t :=
  let checked : result unit :=
    match ShiftIn.max_shift_hours shift with
    | Some cap =>
        h <- hours_between (ShiftIn.start shift) (ShiftIn.end_ shift) ;;
        if (cap <? h)%float then raise ShiftExceedsCap else ret tt
    | None => ret tt
    end in
  match checked with
  | inl _ =>
      let sh := shift_of_input (next_shift_id db) shift in
      (db ++ [sh], ret sh)
  | inr e => (db, raise e)
  end.

(** [sorted(l, key=...)]: the sort is stable and compares keys with [<];
    on keys that [<] orders totally every stable sort returns the same
    list, here the one of insertion from the right. *)
Section Sorted.
Context {A : Type} (key : A -> float).

Fixpoint insert_sorted (x : A) (l : list A) : list A :=
  match l with
  | [] => [x]
  | y :: l' =>
      if (key y <? key x)%float then y :: insert_sorted x l'
      else x :: y :: l'
  end.

Definition sorted (l : list A) : list A := fold_right insert_sorted [] l.
End Sorted.

(** The candidates of a shift, in the order the employees were loaded. *)
Definition candidates (employees : list Employee.t) (sh : Shift.t)
  : list Employee.t :=
  filter (fun e =>
            match Shift.role sh with
            | None => true
            | Some _ => role_eqb (Employee.role e) (Shift.role sh)
            end) employees.

(** The body of the assignment loop for one shift. *)
Definition assign_shift (employees : list Employee.t) (sh : Shift.t)
  : Shift.t :=
  match Shift.employee_id sh with
  | Some _ => sh
  | None =>
      match sorted Employee.hourly_rate (candidates employees sh) with
      | [] => sh
      | chosen :: _ => Shift.set_employee_id sh (Some (Employee.id chosen))
      end
  end.

Module Totals.
Record t : Type := mk
  { employee_cost : float;
    tax_cost : float;
    super_cost : float;
    cash_cost : float }.

Definition zero : t := mk 0 0 0 0.
End Totals.

(** The hours of the shifts that carry a true employee id, per employee. *)
Definition roster_hours_step (hours_map : dict float) (sh : Shift.t)
  : result (dict float) :=
  if negb (truthy (Shift.employee_id sh)) then ret hours_map
  else
    match Shift.employee_id sh with
    | Some emp_id =>
        h <- hours_between (Shift.start sh) (Shift.end_ sh) ;;
        ret (dict_set hours_map emp_id
               (dict_get_default hours_map emp_id 0 + h)%float)
    | None => ret hours_map
    end.

(** [s.get(Employee, emp_id)] *)
Definition get_employee (employees : list Employee.t) (emp_id : Z)
  : option Employee.t :=
  find (fun e => Employee.id e =? emp_id) employees.

Definition roster_totals_step (employees : list Employee.t)
           (r : TaxSuperRule.t) (totals : Totals.t) (item : Z * float)
  : result Totals.t :=
  let (emp_id, hrs) := item in
  match get_employee employees emp_id with
  | None => raise AttributeError
  | Some emp =>
      let gross := (hrs * Employee.hourly_rate emp)%float in
      let tax := compute_tax emp gross hrs r in
      let sup := compute_super gross r in
      ret (Totals.mk
             (Totals.employee_cost totals + gross)
             (Totals.tax_cost totals + tax)
             (Totals.super_cost totals + sup)
             (if PayMethod_eqb (Employee.pay_preference emp) cash
              then Totals.cash_cost totals + gross
              else Totals.cash_cost totals))%float
  end.

Definition round_totals (t : Totals.t) : Totals.t :=
  Totals.mk (round2 (Totals.employee_cost t)) (round2 (Totals.tax_cost t))
            (round2 (Totals.super_cost t)) (round2 (Totals.cash_cost t)).

(** The totals snapshot over the shifts as they stand after assignment. *)
Definition roster_totals (employees : list Employee.t)
           (shifts : list Shift.t) (r : TaxSuperRule.t) : result Totals.t :=
  hours_map <- for_each roster_hours_step shifts [] ;;
  totals <- for_each (roster_totals_step employees r) hours_map Totals.zero ;;
  ret (round_totals totals).

(** [generate_roster]: the assignments are committed before the totals are
    computed, so the shifts are returned whether or not the totals raise. *)
Definition generate_roster (employees : list Employee.t)
           (shifts : list Shift.t) (r : TaxSuperRule.t)
  : list Shift.t * result Totals.t :=
  let shifts' := map (assign_shift employees) shifts in
  (shifts', roster_totals employees shifts' r).

(** ** Payroll *)

Module PayLine.
Record t : Type := mk
  { employee_id : Z;
    hours : float;
    gross : float;
    tax : float;
    super : float;
    net : float;
    pay_method : PayMethod }.
End PayLine.

Definition payroll_hours_step (req : PayrollReq.t)
           (per_emp_hours : dict float) (sh : Shift.t)
  : result (dict float) :=
  if negb (truthy (Shift.employee_id sh)) then ret per_emp_hours
  else
    match Shift.employee_id sh with
    | Some emp_id =>
        inside <- within_period (Shift.day sh) (PayrollReq.period_start req)
                                (PayrollReq.period_end req) ;;
        if inside then
          h <- hours_between (Shift.start sh) (Shift.end_ sh) ;;
          ret (dict_set per_emp_hours emp_id
                 (dict_get_default per_emp_hours emp_id 0 + h)%float)
        else ret per_emp_hours
    | None => ret per_emp_hours
    end.

(** Lines 230-234: the hours of the period, per employee. *)
Definition payroll_hours (shifts : list Shift.t) (req : PayrollReq.t)
  : result (dict float) :=
  for_each (payroll_hours_step req) shifts [].

(** [{e.id: e for e in ...}] *)
Definition employees_by_id (employees : list Employee.t) : dict Employee.t :=
  fold_left (fun d e => dict_set d (Employee.id e) e) employees [].

Definition pay_line (employees : dict Employee.t) (r : TaxSuperRule.t)
           (req : PayrollReq.t) (item : Z * float) : result PayLine.t :=
  let (emp_id, hrs) := item in
  match dict_get employees emp_id with
  | None => raise KeyError
  | Some emp =>
      let gross := round2 (hrs * Employee.hourly_rate emp) in
      let tax := compute_tax emp gross hrs r in
      let sup := compute_super gross r in
      let pay_method :=
        if negb (EmploymentType_eqb (Employee.employment_type emp) ABN)
        then Employee.pay_preference emp
        else PayrollReq.default_pay_method req in
      ret (PayLine.mk emp_id hrs gross tax sup (round2 (gross - tax))
                      pay_method)
  end.

Definition payroll_lines (employees : dict Employee.t) (r : TaxSuperRule.t)
           (req : PayrollReq.t) (per_emp_hours : dict float)
  : result (list PayLine.t) :=
  for_each (fun lines item =>
              line <- pay_line employees r req item ;;
              ret (lines ++ [line]))
           per_emp_hours [].

Definition payroll_calc (employees : list Employee.t)
           (shifts : list Shift.t) (r : TaxSuperRule.t) (req : PayrollReq.t)
  : result (list PayLine.t) :=
  per_emp_hours <- payroll_hours shifts req ;;
  payroll_lines (employees_by_id employees) r req per_emp_hours.

(** ** Tax and super rules *)

(** [setattr(r, field, value)] for a field of the update, and what the
    commit makes of it: a field that was not supplied keeps the stored
    value, a supplied one is written to its column, which is not
    optional. *)
Definition setattr_opt (old : float) (new : option float) : result float :=
  match new with
  | Some v => store_required v
  | None => ret old
  end.

(** [update_tax_super_rules]: the stored record after the call, and the
    response.  [model_dump(exclude_none=True)] keeps the fields that were
    supplied; when the commit fails the stored record is as it was. *)
Definition update_tax_super_rules (r : TaxSuperRule.t) (update : RuleUpdate.t)
  : TaxSuperRule.t * result TaxSuperRule.t :=
  let committed : result TaxSuperRule.t :=
    super_rate <- setattr_opt (TaxSuperRule.super_rate r)
                              (RuleUpdate.super_rate update) ;;
    int_student_weekly_cap <-
      setattr_opt (TaxSuperRule.int_student_weekly_cap r)
                  (RuleUpdate.int_student_weekly_cap update) ;;
    bracket1_max <- setattr_opt (TaxSuperRule.bracket1_max r)
                                (RuleUpdate.bracket1_max update) ;;
    bracket1_rate <- setattr_opt (TaxSuperRule.bracket1_rate r)
                                 (RuleUpdate.bracket1_rate update) ;;
    bracket2_max <- setattr_opt (TaxSuperRule.bracket2_max r)
                                (RuleUpdate.bracket2_max update) ;;
    bracket2_base <- setattr_opt (TaxSuperRule.bracket2_base r)
                                 (RuleUpdate.bracket2_base update) ;;
    bracket2_rate <- setattr_opt (TaxSuperRule.bracket2_rate r)
                                 (RuleUpdate.bracket2_rate update) ;;
    bracket3_base <- setattr_opt (TaxSuperRule.bracket3_base r)
                                 (RuleUpdate.bracket3_base update) ;;
    bracket3_rate <- setattr_opt (TaxSuperRule.bracket3_rate r)
                                 (RuleUpdate.bracket3_rate update) ;;
    abn_withholding_rate <-
      setattr_opt (TaxSuperRule.abn_withholding_rate r)
                  (RuleUpdate.abn_withholding_rate update) ;;
    ret (TaxSuperRule.mk (TaxSuperRule.id r) super_rate
                         int_student_weekly_cap bracket1_max bracket1_rate
                         bracket2_max bracket2_base bracket2_rate
                         bracket3_base bracket3_rate abn_withholding_rate) in
  match committed with
  | inl r' => (r', ret r')
  | inr e => (r, raise e)
  end.

(** ** Employees *)

Module EmployeeIn.
Record t : Type := mk
  { name : string;
    email : option string;
    employment_type : EmploymentType;
    tfn : option string;
    abn : option string;
    hourly_rate : float;
    role : option string;
    max_hours_week : option float;
    pay_preference : PayMethod }.
End EmployeeIn.

Definition next_employee_id (employees : list Employee.t) : Z :=
  1 + fold_right (fun e m => Z.max (Employee.id e) m) 0 employees.

(** [create_employee]: the stored employees after the call, and the
    response.  An international student is always paid by bank.  The
    hourly rate goes to a column that is not optional, the weekly hours to
    an optional one; the employee returned is the row read back. *)
Definition create_employee (db : list Employee.t) (e : EmployeeIn.t)
  : list Employee.t * result Employee.t :=
  let pay_preference :=
    if EmploymentType_eqb (EmployeeIn.employment_type e) INT_STUDENT
    then bank
    else EmployeeIn.pay_preference e in
  match store_required (EmployeeIn.hourly_rate e) with
  | inl hourly_rate =>
      let emp :=
        Employee.mk (next_employee_id db) (EmployeeIn.name e)
                    (EmployeeIn.email e) (EmployeeIn.employment_type e)
                    (EmployeeIn.tfn e) (EmployeeIn.abn e)
                    hourly_rate (EmployeeIn.role e)
                    (store_nullable (EmployeeIn.max_hours_week e))
                    pay_preference in
      (db ++ [emp], ret emp)
  | inr err => (db, raise err)
  end.

(** ** Week view *)

(** [get_week]: without an end (absent or empty) every shift is returned
    and nothing is parsed; with one, the list comprehension keeps the
    shifts whose day is in the period and raises as soon as a date fails
    to parse. *)
Definition get_week (shifts : list Shift.t) (start : string)
           (end_ : option string) : result (list Shift.t) :=
  match end_ with
  | None => ret shifts
  | Some e =>
      if String.eqb e "" then ret shifts
      else
        for_each (fun kept sh =>
                    inside <- within_period (Shift.day sh) start e ;;
                    ret (if inside then kept ++ [sh] else kept))
                 shifts []
  end.

(** ** Cashflow *)

Inductive TxType : Type := income | expense.

Definition TxType_eqb (a b : TxType) : bool :=
  match a, b with
  | income, income | expense, expense => true
  | _, _ => false
  end.

Module Transaction.
Record t : Type := mk
  { id : option Z;
    date : string;
    type : TxType;
    method : PayMethod;
    category : option string;
    amount : float }.
End Transaction.

(** [str.lower] on ASCII letters; no other character lowers to a letter of
    ["wages"], the only string the result is compared with. *)
Definition lower_char (c : ascii) : ascii :=
  let n := N_of_ascii c in
  if ((65 <=? n) && (n <=? 90))%N then ascii_of_N (n + 32) else c.

Fixpoint lower (s : string) : string :=
  match s with
  | EmptyString => EmptyString
  | String c s' => String (lower_char c) (lower s')
  end.

(** [(t.category or "").lower() == "wages"] *)
Definition is_wages (t : Transaction.t) : bool :=
  String.eqb (lower (match Transaction.category t with
                     | Some c => c
                     | None => EmptyString
                     end)) "wages".

(** Float division raises on a zero divisor. *)
Inductive ZeroDivisionError : Type := division_by_zero.

Definition truediv (x y : float) : float + ZeroDivisionError :=
  if (y =? 0)%float then inr division_by_zero else inl (x / y)%float.

Module Summary.
Record t : Type := mk
  { income : float;
    expense : float;
    profit_est : float;
    cash : float;
    bank : float;
    wages_pct_of_income : float }.
End Summary.

Module Dashboard.
Record t : Type := mk
  { employees : Z;
    income : float;
    expense : float;
    profit_est : float;
    cash : float;
    bank : float }.
End Dashboard.

(** The handlers add amounts with the builtin [sum], whose floating-point
    algorithm depends on the interpreter (a left-to-right loop before
    Python 3.12, compensated summation since); they are modelled for any
    summation [py_sum]. *)
Section Cashflow.
Variable py_sum : list float -> float.

(** [sum(t.amount for t in tx if p(t))] *)
Definition sum_amounts (p : Transaction.t -> bool) (tx : list Transaction.t)
  : float :=
  py_sum (map Transaction.amount (filter p tx)).

Definition is_type (k : TxType) (t : Transaction.t) : bool :=
  TxType_eqb (Transaction.type t) k.

Definition is_method (k : PayMethod) (t : Transaction.t) : bool :=
  PayMethod_eqb (Transaction.method t) k.

Definition cashflow_summary (tx : list Transaction.t)
  : Summary.t + ZeroDivisionError :=
  let income := sum_amounts (is_type income) tx in
  let expense := sum_amounts (is_type expense) tx in
  let bank := sum_amounts (is_method bank) tx in
  let cash := sum_amounts (is_method cash) tx in
  let wages := sum_amounts is_wages tx in
  let ratio : float + ZeroDivisionError :=
    if (0 <? income)%float then
      match truediv wages income with
      | inl q => inl (q * 100)%float
      | inr e => inr e
      end
    else inl 0%float in
  match ratio with
  | inl ratio =>
      inl (Summary.mk (round2 income) (round2 expense)
                      (round2 (income - expense)) (round2 cash) (round2 bank)
                      (round2 ratio))
  | inr e => inr e
  end.

Definition dashboard (employees : list Employee.t) (tx : list Transaction.t)
  : Dashboard.t :=
  let income := sum_amounts (is_type income) tx in
  let expense := sum_amounts (is_type expense) tx in
  let bank := sum_amounts (is_method bank) tx in
  let cash := sum_amounts (is_method cash) tx in
  Dashboard.mk (Z.of_nat (List.length employees)) (round2 income)
               (round2 expense) (round2 (income - expense)) (round2 cash)
               (round2 bank).

End Cashflow.

(** * Reference definitions

    What the specification says, written down independently of the code
    above, for the statements that compare the two. *)

(** A float that is a number. *)
Definition sf_not_nan (x : spec_float) : Prop := x <> S754_nan.
Definition not_nan (x : float) : Prop := is_nan x = false.

(** The three-tier progressive lookup on gross pay, upper edges closed. *)
Definition progressive_tax (gross : float) (r : TaxSuperRule.t) : float :=
  if (gross <=? TaxSuperRule.bracket1_max r)%float then
    round2 (gross * TaxSuperRule.bracket1_rate r)
  else if (gross <=? TaxSuperRule.bracket2_max r)%float then
    round2 (TaxSuperRule.bracket2_base r
            + (gross - TaxSuperRule.bracket1_max r)
              * TaxSuperRule.bracket2_rate r)
  else
    round2 (TaxSuperRule.bracket3_base r
            + (gross - TaxSuperRule.bracket2_max r)
              * TaxSuperRule.bracket3_rate r).

(** The reference tax: flat withholding for ABN, the lookup otherwise.
    Weekly hours are not an argument. *)
Definition compute_tax_reference (category : EmploymentType) (gross : float)
           (r : TaxSuperRule.t) : float :=
  match category with
  | ABN => round2 (gross * TaxSuperRule.abn_withholding_rate r)
  | TFN | INT_STUDENT => progressive_tax gross r
  end.

(** The configurable fields of the rule record, to state what a partial
    update does to each of them. *)
Inductive rule_field : Type :=
| f_super_rate | f_int_student_weekly_cap
| f_bracket1_max | f_bracket1_rate
| f_bracket2_max | f_bracket2_base | f_bracket2_rate
| f_bracket3_base | f_bracket3_rate
| f_abn_withholding_rate.

(** The stored value of a field. *)
Definition rule_get (f : rule_field) (r : TaxSuperRule.t) : float :=
  match f with
  | f_super_rate => TaxSuperRule.super_rate r
  | f_int_student_weekly_cap => TaxSuperRule.int_student_weekly_cap r
  | f_bracket1_max => TaxSuperRule.bracket1_max r
  | f_bracket1_rate => TaxSuperRule.bracket1_rate r
  | f_bracket2_max => TaxSuperRule.bracket2_max r
  | f_bracket2_base => TaxSuperRule.bracket2_base r
  | f_bracket2_rate => TaxSuperRule.bracket2_rate r
  | f_bracket3_base => TaxSuperRule.bracket3_base r
  | f_bracket3_rate => TaxSuperRule.bracket3_rate r
  | f_abn_withholding_rate => TaxSuperRule.abn_withholding_rate r
  end.

(** The value an update supplies for a field, if it supplies one. *)
Definition supplied (f : rule_field) (u : RuleUpdate.t) : option float :=
  match f with
  | f_super_rate => RuleUpdate.super_rate u
  | f_int_student_weekly_cap => RuleUpdate.int_student_weekly_cap u
  | f_bracket1_max => RuleUpdate.bracket1_max u
  | f_bracket1_rate => RuleUpdate.bracket1_rate u
  | f_bracket2_max => RuleUpdate.bracket2_max u
  | f_bracket2_base => RuleUpdate.bracket2_base u
  | f_bracket2_rate => RuleUpdate.bracket2_rate u
  | f_bracket3_base => RuleUpdate.bracket3_base u
  | f_bracket3_rate => RuleUpdate.bracket3_rate u
  | f_abn_withholding_rate => RuleUpdate.abn_withholding_rate u
  end.

(** Sample data for the worked instances. *)
Definition sample_employee (category : EmploymentType) : Employee.t :=
  Employee.mk 1 "Ada" None category None None 25 (Some "barista"%string)
              None bank.

Definition sample_shift_in (start end_ : string) (cap : option float)
  : ShiftIn.t :=
  ShiftIn.mk None "2024-06-15" start end_ None med cap.

Definition sample_update : RuleUpdate.t :=
  RuleUpdate.mk (Some 0.12%float) None None None None None None None None
                None.

(** [map] under a result. *)
Definition result_map {A B} (f : A -> B) (m : result A) : result B :=
  match m with
  | inl a => inl (f a)
  | inr e => inr e
  end.

(** The rule record with another super rate. *)
Definition with_super_rate (r : TaxSuperRule.t) (x : float) : TaxSuperRule.t :=
  TaxSuperRule.mk (TaxSuperRule.id r) x
    (TaxSuperRule.int_student_weekly_cap r)
    (TaxSuperRule.bracket1_max r) (TaxSuperRule.bracket1_rate r)
    (TaxSuperRule.bracket2_max r) (TaxSuperRule.bracket2_base r)
    (TaxSuperRule.bracket2_rate r) (TaxSuperRule.bracket3_base r)
    (TaxSuperRule.bracket3_rate r) (TaxSuperRule.abn_withholding_rate r).

(** One employee paid 20.10 an hour and one eight-hour shift in June. *)
Definition june : PayrollReq.t := PayrollReq.mk "2024-06-01" "2024-06-30" bank.

Definition employee_paid (id : Z) (rate : float) : Employee.t :=
  Employee.mk id "Ada" None TFN None None rate (Some "barista"%string)
              None bank.

Definition shift_of (id : Z) (employee_id : option Z) (start end_ : string)
  : Shift.t :=
  Shift.mk id employee_id "2024-06-15" start end_ None med None.

(** The tax formula before the final rounding. *)
Definition tax_unrounded (emp : Employee.t) (gross : float)
           (r : TaxSuperRule.t) : float :=
  if EmploymentType_eqb (Employee.employment_type emp) ABN then
    gross * TaxSuperRule.abn_withholding_rate r
  else if (gross <=? TaxSuperRule.bracket1_max r)%float then
    gross * TaxSuperRule.bracket1_rate r
  else if (gross <=? TaxSuperRule.bracket2_max r)%float then
    TaxSuperRule.bracket2_base r
    + (gross - TaxSuperRule.bracket1_max r) * TaxSuperRule.bracket2_rate r
  else
    TaxSuperRule.bracket3_base r
    + (gross - TaxSuperRule.bracket2_max r) * TaxSuperRule.bracket3_rate r.

(** The roster totals as the specification words them: gross, tax and
    super all enter the running totals unrounded, and only the four grand
    totals are rounded. *)
Definition unrounded_totals_step (employees : list Employee.t)
           (r : TaxSuperRule.t) (totals : Totals.t) (item : Z * float)
  : result Totals.t :=
  let (emp_id, hrs) := item in
  match get_employee employees emp_id with
  | None => raise AttributeError
  | Some emp =>
      let gross := (hrs * Employee.hourly_rate emp)%float in
      ret (Totals.mk
             (Totals.employee_cost totals + gross)
             (Totals.tax_cost totals + tax_unrounded emp gross r)
             (Totals.super_cost totals + gross * TaxSuperRule.super_rate r)
             (if PayMethod_eqb (Employee.pay_preference emp) cash
              then Totals.cash_cost totals + gross
              else Totals.cash_cost totals))%float
  end.

Definition roster_totals_unrounded (employees : list Employee.t)
           (shifts : list Shift.t) (r : TaxSuperRule.t) : result Totals.t :=
  hours_map <- for_each roster_hours_step shifts [] ;;
  totals <- for_each (unrounded_totals_step employees r) hours_map
                     Totals.zero ;;
  ret (round_totals totals).

(** The sum a loop of [+=] computes, starting from [0.0]. *)
Definition sum_floats (l : list float) : float :=
  fold_left PrimFloat.add l 0%float.

(** Unrounded gross of an employee and the hours worked. *)
Definition roster_gross (p : Employee.t * float) : float :=
  (snd p * Employee.hourly_rate (fst p))%float.

Definition paid_in_cash (p : Employee.t * float) : bool :=
  PayMethod_eqb (Employee.pay_preference (fst p)) cash.

(** The entries of an hours map with their employees looked up. *)
Definition resolves (employees : list Employee.t) (hours_map : dict float)
           (worked : list (Employee.t * float)) : Prop :=
  Forall2 (fun item p =>
             get_employee employees (fst item) = Some (fst p)
             /\ snd p = snd item)
          hours_map worked.

(** Two employees paid 25.08 and 30.08 an hour, one hour each. *)
Definition two_employees : list Employee.t :=
  [employee_paid 1 25.08; employee_paid 2 30.08].

Definition two_shifts : list Shift.t :=
  [shift_of 1 (Some 1) "09:00" "10:00"; shift_of 2 (Some 2) "09:00" "10:00"].

(** The hours of the period as the specification words them: every shift
    whose employee id is not null and whose day is in the period adds its
    hours to its employee's total. *)
Definition payroll_hours_reference_step (req : PayrollReq.t)
           (per_emp_hours : dict float) (sh : Shift.t)
  : result (dict float) :=
  match Shift.employee_id sh with
  | None => ret per_emp_hours
  | Some emp_id =>
      inside <- within_period (Shift.day sh) (PayrollReq.period_start req)
                              (PayrollReq.period_end req) ;;
      if inside then
        h <- hours_between (Shift.start sh) (Shift.end_ sh) ;;
        ret (dict_set per_emp_hours emp_id
               (dict_get_default per_emp_hours emp_id 0 + h)%float)
      else ret per_emp_hours
  end.

Definition payroll_hours_reference (shifts : list Shift.t)
           (req : PayrollReq.t) : result (dict float) :=
  for_each (payroll_hours_reference_step req) shifts [].

(** Two baristas, A paid 20 and B paid 25, and an open barista shift. *)
(** An employee suits a shift that asks for no role, or for the role the
    employee has. *)
Definition suits (sh : Shift.t) (e : Employee.t) : Prop :=
  Shift.role sh = None \/ Employee.role e = Shift.role sh.

Definition baristas : list Employee.t :=
  [Employee.mk 1 "A" None TFN None None 20 (Some "barista"%string) None bank;
   Employee.mk 2 "B" None TFN None None 25 (Some "barista"%string) None bank].

Definition open_barista_shift : Shift.t :=
  Shift.mk 1 None "2024-06-15" "09:00" "17:00" (Some "barista"%string) med
           None.

(** Canonical renderings: two digits, [HH:MM], four digits, [YYYY-MM-DD]. *)
Definition digit_char (n : Z) : ascii := ascii_of_N (Z.to_N (48 + n)).

Definition two_digit_string (n : Z) : string :=
  String (digit_char (n / 10)) (String (digit_char (n mod 10)) EmptyString).

Definition hhmm (h m : Z) : string :=
  (two_digit_string h ++ ":" ++ two_digit_string m)%string.

Definition four_digit_string (n : Z) : string :=
  String (digit_char (n / 1000))
    (String (digit_char (n / 100 mod 10)) (two_digit_string (n mod 100))).

Definition yyyymmdd (y m d : Z) : string :=
  (four_digit_string y ++ "-" ++ two_digit_string m ++ "-"
   ++ two_digit_string d)%string.

(** Seconds from the time of day [s] to the next time of day [e]. *)
Definition elapsed_seconds (s e : Z) : Z :=
  if s <=? e then e - s else e + 86400 - s.

(** A whole number of seconds in fractional hours. *)
Definition hours_of_seconds (n : Z) : float := (PyFloat.of_Z n / 3600)%float.

(** The integers [0 .. n-1]. *)
Definition range (n : nat) : list Z := map Z.of_nat (seq 0 n).

Definition datetime_eqb (a b : datetime) : bool :=
  (year a =? year b) && (month a =? month b) && (day a =? day b)
  && (hour a =? hour b) && (minute a =? minute b) && (second a =? second b).

Definition parses_to (parse : string -> result datetime) (s : string)
           (d : datetime) : bool :=
  match parse s with
  | inl d' => datetime_eqb d' d
  | inr _ => false
  end.

(** The month lengths and the days before a month, as functions of
    whether the year is a leap year. *)
Definition days_in_month_of (leap : bool) (m : Z) : Z :=
  if m =? 2 then (if leap then 29 else 28)
  else if (m =? 4) || (m =? 6) || (m =? 9) || (m =? 11) then 30
  else 31.

Fixpoint days_before_month_aux_of (leap : bool) (n : nat) : Z :=
  match n with
  | O => 0
  | S n' => days_before_month_aux_of leap n' + days_in_month_of leap (Z.of_nat n)
  end.

Definition days_before_month_of (leap : bool) (m : Z) : Z :=
  days_before_month_aux_of leap (Z.to_nat (m - 1)).

(** Whether a shift's day is in a period, once the dates parse. *)
Definition in_period (start end_ : string) (sh : Shift.t) : bool :=
  match within_period (Shift.day sh) start end_ with
  | inl true => true
  | _ => false
  end.

(** A shift whose times do not parse. *)
Definition malformed_times (sh : Shift.t) : Prop :=
  parse_time (Shift.start sh) = inr ValueError
  \/ parse_time (Shift.end_ sh) = inr ValueError.

(** A shift on which the hours loop of the payroll raises: it carries a
    true employee id, and either the period test raises or the day is in
    the period and a time does not parse. *)
Definition payroll_blocked (req : PayrollReq.t) (sh : Shift.t) : Prop :=
  truthy (Shift.employee_id sh) = true
  /\ (within_period (Shift.day sh) (PayrollReq.period_start req)
                    (PayrollReq.period_end req) = inr ValueError
      \/ (within_period (Shift.day sh) (PayrollReq.period_start req)
                        (PayrollReq.period_end req) = inl true
          /\ malformed_times sh)).

(** The hours a shift adds to employee [k] in a payroll run: its elapsed
    hours when it is assigned to [k], [k] is not 0 and its day is in the
    period, nothing otherwise. *)
Definition contribution (req : PayrollReq.t) (k : Z) (sh : Shift.t)
  : list float :=
  match Shift.employee_id sh with
  | Some k' =>
      if (k' =? k) && negb (k =? 0) then
        match within_period (Shift.day sh) (PayrollReq.period_start req)
                            (PayrollReq.period_end req),
              hours_between (Shift.start sh) (Shift.end_ sh) with
        | inl true, inl h => [h]
        | _, _ => []
        end
      else []
  | None => []
  end.

(** Every international student among the employees is paid by bank. *)
Definition students_by_bank (employees : list Employee.t) : Prop :=
  forall e, In e employees ->
            Employee.employment_type e = INT_STUDENT ->
            Employee.pay_preference e = bank.

(** The store after a sequence of onboardings, from an empty one. *)
Definition create_all (inputs : list EmployeeIn.t) : list Employee.t :=
  fold_left (fun db e => fst (create_employee db e)) inputs [].

(** Two partial updates in one: a field that the second supplies wins. *)
Definition merge_field (a b : option float) : option float :=
  match b with
  | Some v => Some v
  | None => a
  end.

Definition merge_update (u1 u2 : RuleUpdate.t) : RuleUpdate.t :=
  RuleUpdate.mk
    (merge_field (RuleUpdate.super_rate u1) (RuleUpdate.super_rate u2))
    (merge_field (RuleUpdate.int_student_weekly_cap u1)
                 (RuleUpdate.int_student_weekly_cap u2))
    (merge_field (RuleUpdate.bracket1_max u1) (RuleUpdate.bracket1_max u2))
    (merge_field (RuleUpdate.bracket1_rate u1) (RuleUpdate.bracket1_rate u2))
    (merge_field (RuleUpdate.bracket2_max u1) (RuleUpdate.bracket2_max u2))
    (merge_field (RuleUpdate.bracket2_base u1) (RuleUpdate.bracket2_base u2))
    (merge_field (RuleUpdate.bracket2_rate u1) (RuleUpdate.bracket2_rate u2))
    (merge_field (RuleUpdate.bracket3_base u1) (RuleUpdate.bracket3_base u2))
    (merge_field (RuleUpdate.bracket3_rate u1) (RuleUpdate.bracket3_rate u2))
    (merge_field (RuleUpdate.abn_withholding_rate u1)
                 (RuleUpdate.abn_withholding_rate u2)).

(** The update that supplies nothing. *)
Definition empty_update : RuleUpdate.t :=
  RuleUpdate.mk None None None None None None None None None None.

(** An update of the first bracket alone. *)
Definition bracket_update : RuleUpdate.t :=
  RuleUpdate.mk None None (Some 600%float) (Some 0.06%float) None None None
                None None None.

(** The rule record with another weekly cap for international students. *)
Definition with_int_student_weekly_cap (r : TaxSuperRule.t) (x : float)
  : TaxSuperRule.t :=
  TaxSuperRule.mk (TaxSuperRule.id r) (TaxSuperRule.super_rate r) x
    (TaxSuperRule.bracket1_max r) (TaxSuperRule.bracket1_rate r)
    (TaxSuperRule.bracket2_max r) (TaxSuperRule.bracket2_base r)
    (TaxSuperRule.bracket2_rate r) (TaxSuperRule.bracket3_base r)
    (TaxSuperRule.bracket3_rate r) (TaxSuperRule.abn_withholding_rate r).

(** An international student who asks to be paid in cash. *)
Definition student_in : EmployeeIn.t :=
  EmployeeIn.mk "Bo" None INT_STUDENT None None 22 None (Some 24%float) cash.

(** Three transactions: income by bank, an expense in cash, wages by bank. *)
Definition sample_transactions : list Transaction.t :=
  [Transaction.mk (Some 1) "2024-06-01" income bank None 100;
   Transaction.mk (Some 2) "2024-06-02" expense cash None 30;
   Transaction.mk (Some 3) "2024-06-03" income bank (Some "Wages"%string) 50].

(** The ways in which [strptime] lets a number be written: with two
    digits, or with one digit when it is below 10. *)
Definition one_digit_string (n : Z) : string :=
  String (digit_char n) EmptyString.

Definition writings (n : Z) : list string :=
  two_digit_string n :: (if n <? 10 then [one_digit_string n] else []).

(** The day of the month may also be a single digit after a space. *)
Definition day_writings (n : Z) : list string :=
  writings n
  ++ (if n <? 10 then [String " " (one_digit_string n)] else []).

Definition time_writings (h m : Z) : list string :=
  flat_map (fun hs => map (fun ms => (hs ++ ":" ++ ms)%string) (writings m))
           (writings h).

Definition date_tail_writings (m d : Z) : list string :=
  flat_map (fun ms =>
              map (fun ds => ("-" ++ ms ++ "-" ++ ds)%string) (day_writings d))
           (writings m).

Definition date_writings (y m d : Z) : list string :=
  map (fun tail => (four_digit_string y ++ tail)%string)
      (date_tail_writings m d).

(** * Properties *)

(** ** Comparison of floats

    [<], [<=] and [==] on floats are specified through [SFcompare]; the
    facts below are the order properties the program relies on. *)

Section FloatOrder.

Lemma SFcompare_swap (a b : spec_float) :
  SFcompare b a = option_map CompOpp (SFcompare a b).
Proof.
  destruct a as [sa|sa| |sa ma ea], b as [sb|sb| |sb mb eb];
    simpl; try reflexivity;
    try (destruct sa; reflexivity); try (destruct sb; reflexivity);
    try (destruct sa, sb; reflexivity).
  change (Pos.compare_cont Eq mb ma) with (Pos.compare mb ma).
  change (Pos.compare_cont Eq ma mb) with (Pos.compare ma mb).
  rewrite (Z.compare_antisym ea eb), (Pos.compare_antisym ma mb).
  destruct sa, sb; simpl; try reflexivity;
    destruct (ea ?= eb); simpl; try reflexivity;
    destruct (ma ?= mb)%positive; reflexivity.
Qed.

Lemma SFcompare_refl (a : spec_float) :
  sf_not_nan a -> SFcompare a a = Some Eq.
Proof.
  unfold sf_not_nan.
  destruct a as [sa|sa| |sa ma ea]; simpl; intros H;
    try (destruct sa; reflexivity); try congruence.
  change (Pos.compare_cont Eq ma ma) with (Pos.compare ma ma).
  rewrite Z.compare_refl, Pos.compare_refl. destruct sa; reflexivity.
Qed.

Lemma SFcompare_total (a b : spec_float) :
  sf_not_nan a -> sf_not_nan b -> exists c, SFcompare a b = Some c.
Proof.
  unfold sf_not_nan.
  destruct a as [sa|sa| |sa ma ea], b as [sb|sb| |sb mb eb];
    simpl; intros Ha Hb; try congruence; eauto.
Qed.

Lemma SFleb_trans (a b c : spec_float) :
  SFleb a b = true -> SFleb b c = true -> SFleb a c = true.
Proof.
  unfold SFleb.
  destruct a as [sa|sa| |sa ma ea], b as [sb|sb| |sb mb eb],
           c as [sc|sc| |sc mc ec];
    simpl; try discriminate; try reflexivity;
    try (destruct sa; simpl; try discriminate; try reflexivity);
    try (destruct sb; simpl; try discriminate; try reflexivity);
    try (destruct sc; simpl; try discriminate; try reflexivity).
  all: change (Pos.compare_cont Eq ma mb) with (Pos.compare ma mb);
    change (Pos.compare_cont Eq mb mc) with (Pos.compare mb mc);
    change (Pos.compare_cont Eq ma mc) with (Pos.compare ma mc);
    destruct (Z.compare_spec ea eb), (Z.compare_spec eb ec),
             (Z.compare_spec ea ec);
    simpl; try discriminate; try reflexivity; try lia;
    destruct (Pos.compare_spec ma mb), (Pos.compare_spec mb mc),
             (Pos.compare_spec ma mc);
    simpl; try discriminate; try reflexivity; lia.
Qed.

End FloatOrder.

Lemma not_nan_spec (x : float) : not_nan x -> sf_not_nan (Prim2SF x).
Proof.
  unfold not_nan, is_nan, sf_not_nan. rewrite FloatAxioms.eqb_spec. intros H E.
  rewrite E in H. discriminate.
Qed.

Lemma float_leb_refl (x : float) : not_nan x -> (x <=? x)%float = true.
Proof.
  intros H. rewrite FloatAxioms.leb_spec. unfold SFleb.
  now rewrite (SFcompare_refl _ (not_nan_spec _ H)).
Qed.

Lemma float_ltb_leb (x y : float) :
  (x <? y)%float = true -> (x <=? y)%float = true.
Proof.
  rewrite FloatAxioms.ltb_spec, FloatAxioms.leb_spec. unfold SFltb, SFleb.
  destruct (SFcompare _ _) as [[]|]; congruence.
Qed.

Lemma float_eqb_leb (x y : float) :
  (x =? y)%float = true -> (x <=? y)%float = true.
Proof.
  rewrite FloatAxioms.eqb_spec, FloatAxioms.leb_spec. unfold SFeqb, SFleb.
  destruct (SFcompare _ _) as [[]|]; congruence.
Qed.

(** [x == y] excludes [y < x]. *)
Lemma float_eqb_not_ltb (x y : float) :
  (x =? y)%float = true -> (y <? x)%float = false.
Proof.
  rewrite FloatAxioms.eqb_spec, FloatAxioms.ltb_spec. unfold SFeqb, SFltb.
  rewrite (SFcompare_swap (Prim2SF x) (Prim2SF y)).
  destruct (SFcompare _ _) as [[]|]; simpl; congruence.
Qed.

(** On numbers, [not (y < x)] is [x <= y]. *)
Lemma float_not_ltb_leb (x y : float) :
  not_nan x -> not_nan y -> (y <? x)%float = false -> (x <=? y)%float = true.
Proof.
  intros Hx Hy. rewrite FloatAxioms.ltb_spec, FloatAxioms.leb_spec. unfold SFltb, SFleb.
  rewrite (SFcompare_swap (Prim2SF x) (Prim2SF y)).
  destruct (SFcompare_total _ _ (not_nan_spec _ Hx) (not_nan_spec _ Hy))
    as [c ->].
  destruct c; simpl; congruence.
Qed.

Lemma float_leb_trans (x y z : float) :
  (x <=? y)%float = true -> (y <=? z)%float = true -> (x <=? z)%float = true.
Proof. rewrite !FloatAxioms.leb_spec. apply SFleb_trans. Qed.

(** ** Tax *)

(** C1. [compute_tax] is the reference definition: flat ABN withholding
    that depends neither on the weekly hours nor on the brackets, otherwise
    the progressive lookup on gross pay alone with closed upper edges; a
    gross pay equal to [bracket1_max] is taxed at the bracket-1 rate. *)
Theorem compute_tax_is_reference :
  forall (emp : Employee.t) (gross weekly_hours : float) (r : TaxSuperRule.t),
    compute_tax emp gross weekly_hours r
    = compute_tax_reference (Employee.employment_type emp) gross r
    /\ (Employee.employment_type emp = ABN ->
        forall (weekly_hours' : float) (r' : TaxSuperRule.t),
          TaxSuperRule.abn_withholding_rate r'
          = TaxSuperRule.abn_withholding_rate r ->
          compute_tax emp gross weekly_hours' r'
          = round2 (gross * TaxSuperRule.abn_withholding_rate r))
    /\ (Employee.employment_type emp <> ABN ->
        (gross =? TaxSuperRule.bracket1_max r)%float = true ->
        compute_tax emp gross weekly_hours r
        = round2 (gross * TaxSuperRule.bracket1_rate r)).
Proof.
  intros emp gross wh r. unfold compute_tax, compute_tax_reference.
  split; [|split].
  - destruct (Employee.employment_type emp); reflexivity.
  - intros HABN wh' r' Hr. rewrite HABN. simpl. now rewrite Hr.
  - intros Hn Heq.
    destruct (Employee.employment_type emp); simpl; try congruence;
      now rewrite (float_eqb_leb _ _ Heq).
Qed.

Lemma compute_tax_is_reference_witness :
  compute_tax (sample_employee TFN) 500 8 TaxSuperRule.default = 25%float
  /\ compute_tax (sample_employee ABN) 500 40 TaxSuperRule.default = 0%float.
Proof.
  pose proof (compute_tax_is_reference (sample_employee TFN) 500 8
                TaxSuperRule.default) as (_ & _ & Hedge).
  pose proof (compute_tax_is_reference (sample_employee ABN) 500 8
                TaxSuperRule.default) as (_ & Habn & _).
  split.
  - rewrite Hedge; [vm_compute; reflexivity | discriminate | reflexivity].
  - rewrite (Habn eq_refl 40%float TaxSuperRule.default eq_refl).
    vm_compute. reflexivity.
Defined.

(** ** What the store keeps *)

Lemma float_eqb_not_nan (x y : float) :
  (x =? y)%float = true -> is_nan x = false.
Proof.
  unfold is_nan. rewrite !FloatAxioms.eqb_spec. unfold SFeqb.
  destruct (SFcompare (Prim2SF x) (Prim2SF y)) as [[]|] eqn:E;
    try discriminate.
  intros _.
  assert (Hx : sf_not_nan (Prim2SF x))
    by (intros N; rewrite N in E; discriminate).
  now rewrite (SFcompare_refl _ Hx).
Qed.

Lemma sqlite_real_spec (x w : float) :
  sqlite_real x = Some w <->
  is_nan x = false
  /\ (((x =? 0)%float = true /\ w = 0%float)
      \/ ((x =? 0)%float = false /\ w = x)).
Proof.
  unfold sqlite_real.
  destruct (is_nan x); [split; [discriminate|intros [[=] _]]|].
  destruct (x =? 0)%float; split.
  - intros [= <-]. auto.
  - intros (_ & [(_ & ->)|([=] & _)]). reflexivity.
  - intros [= <-]. auto.
  - intros (_ & [([=] & _)|(_ & ->)]). reflexivity.
Qed.

Lemma sqlite_real_nan (x : float) :
  sqlite_real x = None <-> is_nan x = true.
Proof.
  unfold sqlite_real. destruct (is_nan x); [tauto|].
  destruct (x =? 0)%float; split; discriminate.
Qed.


(** ** Rules *)

Lemma setattr_opt_cases (old : float) (new : option float) :
  (exists v, new = Some v /\ is_nan v = true
             /\ setattr_opt old new = inr IntegrityError)
  \/ (exists w, setattr_opt old new = inl w
                /\ match new with
                   | Some v => sqlite_real v = Some w
                   | None => w = old
                   end).
Proof.
  destruct new as [v|]; simpl;
    [|right; exists old; split; reflexivity].
  unfold store_required. destruct (sqlite_real v) as [w|] eqn:E.
  - right. exists w. split; reflexivity.
  - left. exists v. apply sqlite_real_nan in E. auto.
Qed.

Ltac commit_field f old new :=
  let v := fresh "v" in
  let E := fresh "E" in
  let N := fresh "N" in
  let w := fresh "w" in
  let W := fresh "W" in
  destruct (setattr_opt_cases old new) as [(v & E & N & ->)|(w & -> & W)];
  [left; split; [reflexivity | exists f, v; split; assumption]
  |cbn [bind]].

(** An update either supplies a NaN, and then the commit fails and the
    stored record is as it was, or it is committed, and then each supplied
    field holds what the store keeps of the value and every other field
    is as it was. *)
Lemma update_tax_super_rules_cases (r : TaxSuperRule.t)
      (update : RuleUpdate.t) :
  (update_tax_super_rules r update = (r, inr IntegrityError)
   /\ exists f v, supplied f update = Some v /\ is_nan v = true)
  \/ (exists r',
        update_tax_super_rules r update = (r', inl r')
        /\ TaxSuperRule.id r' = TaxSuperRule.id r
        /\ forall f, match supplied f update with
                     | Some v => sqlite_real v = Some (rule_get f r')
                     | None => rule_get f r' = rule_get f r
                     end).
Proof.
  unfold update_tax_super_rules. cbv zeta.
  commit_field f_super_rate (TaxSuperRule.super_rate r)
               (RuleUpdate.super_rate update).
  commit_field f_int_student_weekly_cap (TaxSuperRule.int_student_weekly_cap r)
               (RuleUpdate.int_student_weekly_cap update).
  commit_field f_bracket1_max (TaxSuperRule.bracket1_max r)
               (RuleUpdate.bracket1_max update).
  commit_field f_bracket1_rate (TaxSuperRule.bracket1_rate r)
               (RuleUpdate.bracket1_rate update).
  commit_field f_bracket2_max (TaxSuperRule.bracket2_max r)
               (RuleUpdate.bracket2_max update).
  commit_field f_bracket2_base (TaxSuperRule.bracket2_base r)
               (RuleUpdate.bracket2_base update).
  commit_field f_bracket2_rate (TaxSuperRule.bracket2_rate r)
               (RuleUpdate.bracket2_rate update).
  commit_field f_bracket3_base (TaxSuperRule.bracket3_base r)
               (RuleUpdate.bracket3_base update).
  commit_field f_bracket3_rate (TaxSuperRule.bracket3_rate r)
               (RuleUpdate.bracket3_rate update).
  commit_field f_abn_withholding_rate (TaxSuperRule.abn_withholding_rate r)
               (RuleUpdate.abn_withholding_rate update).
  right. eexists. split; [reflexivity|]. split; [reflexivity|].
  intros f. destruct f; simpl; assumption.
Qed.



(** ** Shift creation *)

Lemma strptime_HM_error (s : string) (e : error) :
  Strptime.strptime_HM s = inr e -> e = ValueError.
Proof.
  unfold Strptime.strptime_HM.
  destruct (Strptime.regex_HM _) as [[[h m] [|c rest]]|];
    unfold ret, raise; congruence.
Qed.

Lemma hours_between_error (start end_ : string) (e : error) :
  hours_between start end_ = inr e -> e = ValueError.
Proof.
  unfold hours_between, parse_time, bind, ret.
  destruct (Strptime.strptime_HM start) eqn:Es.
  - destruct (Strptime.strptime_HM end_) eqn:Ee; [discriminate|].
    intros H; injection H as <-. eauto using strptime_HM_error.
  - intros H; injection H as <-. eauto using strptime_HM_error.
Qed.

(** The stored row has the fields of the request; of the cap it has what
    the store keeps of a float. *)
Lemma shift_of_input_kept (new_id : Z) (shift : ShiftIn.t) :
  Shift.employee_id (shift_of_input new_id shift) = ShiftIn.employee_id shift
  /\ Shift.day (shift_of_input new_id shift) = ShiftIn.day shift
  /\ Shift.start (shift_of_input new_id shift) = ShiftIn.start shift
  /\ Shift.end_ (shift_of_input new_id shift) = ShiftIn.end_ shift
  /\ Shift.role (shift_of_input new_id shift) = ShiftIn.role shift
  /\ Shift.expected_busyness (shift_of_input new_id shift)
     = ShiftIn.expected_busyness shift
  /\ (ShiftIn.max_shift_hours shift = None ->
      Shift.max_shift_hours (shift_of_input new_id shift) = None)
  /\ (forall cap,
         ShiftIn.max_shift_hours shift = Some cap ->
         (is_nan cap = true ->
          Shift.max_shift_hours (shift_of_input new_id shift) = None)
         /\ (is_nan cap = false -> (cap =? 0)%float = false ->
             Shift.max_shift_hours (shift_of_input new_id shift) = Some cap)
         /\ ((cap =? 0)%float = true ->
             Shift.max_shift_hours (shift_of_input new_id shift)
             = Some 0%float)).
Proof.
  repeat (split; [reflexivity|]). cbn [shift_of_input Shift.max_shift_hours].
  split; [intros ->; reflexivity|].
  intros cap ->. cbn [store_nullable]. unfold sqlite_real.
  split; [intros ->; reflexivity|]. split.
  - intros -> ->. reflexivity.
  - intros Hz. rewrite (float_eqb_not_nan _ _ Hz), Hz. reflexivity.
Qed.

(** C6. Creation fails with [ShiftExceedsCap] exactly when a cap is set and
    the elapsed hours are strictly greater than it; a duration equal to the
    cap is accepted; an accepted shift is stored with the fields it was
    given, its times in particular, and with what the store keeps of the
    cap (nothing of a NaN, zero of a negative zero); a rejected creation
    leaves the stored shifts as they were. *)
Theorem add_shift_cap :
  forall (db : list Shift.t) (shift : ShiftIn.t),
    (snd (add_shift db shift) = raise ShiftExceedsCap <->
     exists cap h,
       ShiftIn.max_shift_hours shift = Some cap
       /\ hours_between (ShiftIn.start shift) (ShiftIn.end_ shift) = inl h
       /\ (cap <? h)%float = true)
    /\ (forall cap h,
          ShiftIn.max_shift_hours shift = Some cap ->
          hours_between (ShiftIn.start shift) (ShiftIn.end_ shift) = inl h ->
          (h =? cap)%float = true ->
          snd (add_shift db shift)
          = ret (shift_of_input (next_shift_id db) shift))
    /\ (forall sh,
          snd (add_shift db shift) = ret sh ->
          fst (add_shift db shift) = db ++ [sh]
          /\ Shift.employee_id sh = ShiftIn.employee_id shift
          /\ Shift.day sh = ShiftIn.day shift
          /\ Shift.start sh = ShiftIn.start shift
          /\ Shift.end_ sh = ShiftIn.end_ shift
          /\ Shift.role sh = ShiftIn.role shift
          /\ Shift.expected_busyness sh = ShiftIn.expected_busyness shift
          /\ (ShiftIn.max_shift_hours shift = None ->
              Shift.max_shift_hours sh = None)
          /\ (forall cap,
                 ShiftIn.max_shift_hours shift = Some cap ->
                 (is_nan cap = true -> Shift.max_shift_hours sh = None)
                 /\ (is_nan cap = false -> (cap =? 0)%float = false ->
                     Shift.max_shift_hours sh = Some cap)
                 /\ ((cap =? 0)%float = true ->
                     Shift.max_shift_hours sh = Some 0%float)))
    /\ (forall e,
          snd (add_shift db shift) = raise e -> fst (add_shift db shift) = db).
Proof.
  intros db shift.
  pose proof (shift_of_input_kept (next_shift_id db) shift) as Hkept.
  unfold add_shift, bind, ret, raise.
  destruct (ShiftIn.max_shift_hours shift) as [cap|] eqn:Ecap.
  - destruct (hours_between _ _) as [h|err] eqn:Eh.
    + destruct (cap <? h)%float eqn:Elt; cbn [fst snd];
        (split; [split|split; [|split]]).
      * intros _. exists cap, h. auto.
      * reflexivity.
      * intros cap' h' [= <-] [= <-] Heq.
        apply float_eqb_not_ltb in Heq. congruence.
      * discriminate.
      * reflexivity.
      * discriminate.
      * intros (cap' & h' & [= <-] & [= <-] & Hlt). congruence.
      * reflexivity.
      * intros sh [= <-]. split; [reflexivity|exact Hkept].
      * discriminate.
    + cbn [fst snd]. pose proof (hours_between_error _ _ _ Eh) as ->.
      split; [split|split; [|split]]; try discriminate; try reflexivity.
      intros (cap' & h' & _ & [=] & _).
  - cbn [fst snd]. split; [split|split; [|split]]; try discriminate.
    + intros (cap' & h' & [=] & _).
    + intros sh [= <-]. split; [reflexivity|exact Hkept].
Qed.

Lemma add_shift_cap_witness :
  add_shift [] (sample_shift_in "09:00" "13:00" (Some 3%float))
  = ([], raise ShiftExceedsCap)
  /\ snd (add_shift [] (sample_shift_in "09:00" "13:00" (Some 4%float)))
     = ret (shift_of_input 1 (sample_shift_in "09:00" "13:00" (Some 4%float))).
Proof.
  pose proof (add_shift_cap [] (sample_shift_in "09:00" "13:00" (Some 3%float)))
    as (Hiff & _ & _ & Herr).
  pose proof (add_shift_cap [] (sample_shift_in "09:00" "13:00" (Some 4%float)))
    as (_ & Heq & _ & _).
  split.
  - assert (Hs : snd (add_shift [] (sample_shift_in "09:00" "13:00"
                                      (Some 3%float)))
                 = raise ShiftExceedsCap).
    { apply Hiff. exists 3%float, 4%float.
      repeat split; vm_compute; reflexivity. }
    specialize (Herr _ Hs).
    destruct (add_shift [] _) as [db' res]. simpl in *. now subst.
  - apply (Heq 4%float 4%float); vm_compute; reflexivity.
Defined.

(** ** Payroll lines *)

Lemma for_each_app {A S} (body : S -> A -> result S) (l1 l2 : list A) (s : S) :
  for_each body (l1 ++ l2) s = (s' <- for_each body l1 s ;; for_each body l2 s').
Proof.
  revert s. induction l1 as [|a l1 IH]; intros s; simpl; [reflexivity|].
  unfold bind at 1 3. destruct (body s a); [apply IH | reflexivity].
Qed.

(** The lines of a payroll run are the lines of the entries, in order. *)
Lemma payroll_lines_acc (employees : dict Employee.t) (r : TaxSuperRule.t)
      (req : PayrollReq.t) (items : dict float) (acc out : list PayLine.t) :
  for_each (fun lines item =>
              line <- pay_line employees r req item ;; ret (lines ++ [line]))
           items acc = inl out ->
  exists ls, out = acc ++ ls
             /\ Forall2 (fun item line => pay_line employees r req item = inl line)
                        items ls.
Proof.
  revert acc. induction items as [|item items IH]; intros acc; simpl.
  - intros [= <-]. exists []. now rewrite app_nil_r.
  - unfold bind at 1. unfold bind at 2.
    destruct (pay_line employees r req item) as [line|e] eqn:El;
      [|discriminate].
    simpl. intros H. destruct (IH _ H) as (ls & -> & HF).
    exists (line :: ls). split; [now rewrite <- app_assoc|].
    now constructor.
Qed.

Lemma payroll_calc_lines (employees : list Employee.t) (shifts : list Shift.t)
      (r : TaxSuperRule.t) (req : PayrollReq.t) (lines : list PayLine.t) :
  payroll_calc employees shifts r req = inl lines ->
  exists per_emp_hours,
    payroll_hours shifts req = inl per_emp_hours
    /\ Forall2 (fun item line =>
                 pay_line (employees_by_id employees) r req item = inl line)
              per_emp_hours lines.
Proof.
  unfold payroll_calc, bind.
  destruct (payroll_hours shifts req) as [hm|e]; [|discriminate].
  intros H. apply payroll_lines_acc in H as (ls & -> & HF).
  exists hm. auto.
Qed.

Lemma Forall2_In_r {A B} (R : A -> B -> Prop) (l : list A) (l' : list B) (b : B) :
  Forall2 R l l' -> In b l' -> exists a, In a l /\ R a b.
Proof.
  induction 1 as [|x y l l' HR HF IH]; simpl; [tauto|].
  intros [<-|Hin]; [eauto|]. destruct (IH Hin) as (a & ? & ?). eauto.
Qed.

Lemma pay_line_super_rate (employees : dict Employee.t) (r : TaxSuperRule.t)
      (req : PayrollReq.t) (item : Z * float) (x : float) :
  result_map PayLine.net (pay_line employees (with_super_rate r x) req item)
  = result_map PayLine.net (pay_line employees r req item).
Proof.
  unfold pay_line. destruct item as [emp_id hrs].
  destruct (dict_get employees emp_id); reflexivity.
Qed.

Lemma payroll_lines_super_rate (employees : dict Employee.t)
      (r : TaxSuperRule.t) (req : PayrollReq.t) (x : float)
      (items : dict float) (acc acc' : list PayLine.t) :
  map PayLine.net acc' = map PayLine.net acc ->
  result_map (map PayLine.net)
    (for_each (fun lines item =>
                 line <- pay_line employees (with_super_rate r x) req item ;;
                 ret (lines ++ [line])) items acc')
  = result_map (map PayLine.net)
      (for_each (fun lines item =>
                   line <- pay_line employees r req item ;;
                   ret (lines ++ [line])) items acc).
Proof.
  revert acc acc'. induction items as [|item items IH]; intros acc acc' Hacc;
    simpl; [now f_equal|].
  pose proof (pay_line_super_rate employees r req item x) as Hl.
  unfold bind at 1 2 3 4.
  destruct (pay_line employees (with_super_rate r x) req item) as [l'|e'],
           (pay_line employees r req item) as [l|e];
    simpl in Hl; try discriminate.
  - apply IH. rewrite !map_app, Hacc. simpl. congruence.
  - simpl. congruence.
Qed.

(** C2 (as the code has it). Every pay line has [net = round(gross - tax, 2)],
    where gross is hours times rate rounded to two decimals and tax is
    computed from that gross; super is computed from the same gross and is
    no part of net, which does not change with the super rate. *)
Theorem payroll_net_is_rounded_gross_minus_tax :
  forall (employees : list Employee.t) (shifts : list Shift.t)
         (r : TaxSuperRule.t) (req : PayrollReq.t)
         (lines : list PayLine.t) (line : PayLine.t),
    payroll_calc employees shifts r req = inl lines ->
    In line lines ->
    PayLine.net line = round2 (PayLine.gross line - PayLine.tax line)
    /\ (exists emp,
          dict_get (employees_by_id employees) (PayLine.employee_id line)
          = Some emp
          /\ PayLine.gross line
             = round2 (PayLine.hours line * Employee.hourly_rate emp)
          /\ PayLine.tax line
             = compute_tax emp (PayLine.gross line) (PayLine.hours line) r
          /\ PayLine.super line = compute_super (PayLine.gross line) r)
    /\ (forall x : float,
          result_map (map PayLine.net)
            (payroll_calc employees shifts (with_super_rate r x) req)
          = inl (map PayLine.net lines)).
Proof.
  intros employees shifts r req lines line Hcalc Hin.
  destruct (payroll_calc_lines _ _ _ _ _ Hcalc) as (hm & Hhm & HF).
  destruct (Forall2_In_r _ _ _ _ HF Hin) as ([emp_id hrs] & _ & Hline).
  unfold pay_line in Hline.
  destruct (dict_get (employees_by_id employees) emp_id) as [emp|] eqn:Eemp;
    [|discriminate].
  injection Hline as <-. simpl.
  split; [reflexivity|]. split; [exists emp; auto|].
  intros x.
  replace (@inl (list float) error (map PayLine.net lines))
    with (result_map (map PayLine.net) (payroll_calc employees shifts r req))
    by (rewrite Hcalc; reflexivity).
  unfold payroll_calc, bind. rewrite Hhm.
  now apply payroll_lines_super_rate.
Qed.

Lemma payroll_net_is_rounded_gross_minus_tax_witness :
  payroll_calc [employee_paid 1 20.1] [shift_of 1 (Some 1) "09:00" "17:00"]
               TaxSuperRule.default june
  = inl [PayLine.mk 1 8 160.8 8.04 18.49 152.76 bank]
  /\ 152.76%float = round2 (160.8 - 8.04).
Proof.
  assert (H : payroll_calc [employee_paid 1 20.1]
                [shift_of 1 (Some 1) "09:00" "17:00"] TaxSuperRule.default june
              = inl [PayLine.mk 1 8 160.8 8.04 18.49 152.76 bank])
    by (vm_compute; reflexivity).
  split; [exact H|].
  exact (proj1 (payroll_net_is_rounded_gross_minus_tax _ _ _ _ _ _ H
                  (or_introl eq_refl))).
Defined.

(** C2 (as stated) fails: for an employee paid 20.10 an hour who works
    09:00-17:00, gross is 160.8 and tax 8.04; their float difference is
    152.76000000000002, while the line carries net 152.76. *)
Lemma payroll_net_not_exact_difference :
  payroll_calc [employee_paid 1 20.1] [shift_of 1 (Some 1) "09:00" "17:00"]
               TaxSuperRule.default june
  = inl [PayLine.mk 1 8 160.8 8.04 18.49 152.76 bank]
  /\ (152.76 =? 160.8 - 8.04)%float = false
  /\ 152.76%float <> (160.8 - 8.04)%float.
Proof.
  split; [vm_compute; reflexivity|]. split; [vm_compute; reflexivity|].
  intros H.
  apply (f_equal (fun x => PrimFloat.eqb x 152.76)) in H.
  vm_compute in H. discriminate.
Qed.

(** ** Roster totals *)

Lemma compute_tax_rounds (emp : Employee.t) (gross hrs : float)
      (r : TaxSuperRule.t) :
  compute_tax emp gross hrs r = round2 (tax_unrounded emp gross r).
Proof.
  unfold compute_tax, tax_unrounded.
  destruct (EmploymentType_eqb _ _); [reflexivity|].
  destruct (_ <=? _)%float; [reflexivity|].
  destruct (_ <=? _)%float; reflexivity.
Qed.

(** The loop over the hours map, from any running totals. *)
Lemma roster_totals_loop (employees : list Employee.t) (r : TaxSuperRule.t)
      (hours_map : dict float) (acc out : Totals.t) :
  for_each (roster_totals_step employees r) hours_map acc = inl out ->
  exists worked,
    resolves employees hours_map worked
    /\ Totals.employee_cost out
       = fold_left PrimFloat.add (map roster_gross worked)
                   (Totals.employee_cost acc)
    /\ Totals.tax_cost out
       = fold_left PrimFloat.add
           (map (fun p => round2 (tax_unrounded (fst p) (roster_gross p) r))
                worked)
           (Totals.tax_cost acc)
    /\ Totals.super_cost out
       = fold_left PrimFloat.add
           (map (fun p => round2 (roster_gross p * TaxSuperRule.super_rate r))
                worked)
           (Totals.super_cost acc)
    /\ Totals.cash_cost out
       = fold_left PrimFloat.add
           (map roster_gross (filter paid_in_cash worked))
           (Totals.cash_cost acc).
Proof.
  revert acc. induction hours_map as [|[emp_id hrs] items IH]; intros acc; simpl.
  - intros [= <-]. exists []. repeat split. constructor.
  - unfold bind at 1.
    destruct (get_employee employees emp_id) as [emp|] eqn:Eemp; [|discriminate].
    simpl. intros H. destruct (IH _ H) as (worked & HR & Hg & Ht & Hs & Hc).
    exists ((emp, hrs) :: worked). simpl in *.
    split; [constructor; auto|].
    rewrite Hg, Ht, Hs, Hc, compute_tax_rounds.
    unfold paid_in_cash, roster_gross at 6; simpl.
    destruct (PayMethod_eqb (Employee.pay_preference emp) cash);
      repeat split; reflexivity.
Qed.

(** C3 (as the code has it). Gross enters the running totals unrounded and
    is not rounded before tax and super are computed from it; the tax and
    the super of each employee are rounded to two decimals (by
    [compute_tax] and [compute_super]) before they are added; each of the
    four totals is rounded once at the end. *)
Theorem roster_totals_rounding :
  forall (employees : list Employee.t) (shifts : list Shift.t)
         (r : TaxSuperRule.t) (totals : Totals.t),
    snd (generate_roster employees shifts r) = inl totals ->
    exists hours_map worked,
      for_each roster_hours_step (fst (generate_roster employees shifts r)) []
      = inl hours_map
      /\ resolves employees hours_map worked
      /\ Totals.employee_cost totals
         = round2 (sum_floats (map roster_gross worked))
      /\ Totals.tax_cost totals
         = round2 (sum_floats
             (map (fun p => round2 (tax_unrounded (fst p) (roster_gross p) r))
                  worked))
      /\ Totals.super_cost totals
         = round2 (sum_floats
             (map (fun p => round2 (roster_gross p * TaxSuperRule.super_rate r))
                  worked))
      /\ Totals.cash_cost totals
         = round2 (sum_floats (map roster_gross (filter paid_in_cash worked))).
Proof.
  intros employees shifts r totals. unfold generate_roster, roster_totals. simpl.
  unfold bind at 1.
  destruct (for_each roster_hours_step _ []) as [hm|e]; [|discriminate].
  unfold bind.
  destruct (for_each (roster_totals_step employees r) hm Totals.zero)
    as [t|e] eqn:Et; [|discriminate].
  intros [= <-].
  destruct (roster_totals_loop _ _ _ _ _ Et) as (worked & HR & Hg & Ht & Hs & Hc).
  exists hm, worked. unfold sum_floats. simpl.
  rewrite Hg, Ht, Hs, Hc. repeat split; auto.
Qed.

Lemma roster_totals_rounding_witness :
  snd (generate_roster two_employees two_shifts TaxSuperRule.default)
  = inl (Totals.mk 55.16 2.75 6.34 0)
  /\ exists hours_map worked,
       for_each roster_hours_step
         (fst (generate_roster two_employees two_shifts TaxSuperRule.default))
         [] = inl hours_map
       /\ resolves two_employees hours_map worked
       /\ 55.16%float = round2 (sum_floats (map roster_gross worked))
       /\ 2.75%float
          = round2 (sum_floats
              (map (fun p => round2 (tax_unrounded (fst p) (roster_gross p)
                                                   TaxSuperRule.default))
                   worked))
       /\ 6.34%float
          = round2 (sum_floats
              (map (fun p => round2 (roster_gross p * 0.115)) worked))
       /\ 0%float
          = round2 (sum_floats (map roster_gross (filter paid_in_cash worked))).
Proof.
  assert (H : snd (generate_roster two_employees two_shifts TaxSuperRule.default)
              = inl (Totals.mk 55.16 2.75 6.34 0)) by (vm_compute; reflexivity).
  split; [exact H|].
  exact (roster_totals_rounding _ _ _ _ H).
Defined.

(** C3 (as stated) fails: with two employees paid 25.08 and 30.08 who work
    one hour each, the taxes before rounding are 1.254 and 1.504; the code
    adds 1.25 and 1.5 and reports 2.75, while the sum of the unrounded
    taxes rounds to 2.76. *)
Lemma roster_tax_total_is_rounded_per_employee :
  snd (generate_roster two_employees two_shifts TaxSuperRule.default)
  = inl (Totals.mk 55.16 2.75 6.34 0)
  /\ roster_totals_unrounded
       two_employees
       (fst (generate_roster two_employees two_shifts TaxSuperRule.default))
       TaxSuperRule.default
     = inl (Totals.mk 55.16 2.76 6.34 0)
  /\ (2.75 =? 2.76)%float = false.
Proof. repeat split; vm_compute; reflexivity. Qed.

(** ** Shifts whose employee id is 0 *)

(** On every shift whose employee id is not 0 the payroll loop does what
    the specification says. *)
Lemma payroll_hours_step_reference (req : PayrollReq.t)
      (acc : dict float) (sh : Shift.t) :
  Shift.employee_id sh <> Some 0 ->
  payroll_hours_step req acc sh = payroll_hours_reference_step req acc sh.
Proof.
  unfold payroll_hours_step, payroll_hours_reference_step, truthy.
  destruct (Shift.employee_id sh) as [n|]; [|reflexivity].
  intros Hn. destruct (Z.eqb_spec n 0) as [->|_]; [congruence|reflexivity].
Qed.

Lemma payroll_hours_reference_nonzero (shifts : list Shift.t)
      (req : PayrollReq.t) :
  (forall sh, In sh shifts -> Shift.employee_id sh <> Some 0) ->
  payroll_hours shifts req = payroll_hours_reference shifts req.
Proof.
  unfold payroll_hours, payroll_hours_reference. generalize (@nil (Z * float)).
  induction shifts as [|sh shifts IH]; intros acc Hall; simpl; [reflexivity|].
  rewrite payroll_hours_step_reference by (apply Hall; now left).
  unfold bind. destruct (payroll_hours_reference_step req acc sh); [|reflexivity].
  apply IH. intros sh' Hin. apply Hall. now right.
Qed.

(** C4 at a shift assigned to employee id 0 on 2024-06-15, 09:00-17:00,
    for the period of June 2024: the identifier is not null and the day is
    in the period, so the shift is to contribute eight hours; the code
    drops it, and no pay line is produced. *)
Lemma payroll_hours_drops_employee_zero :
  payroll_hours [shift_of 1 (Some 0) "09:00" "17:00"] june = inl []
  /\ payroll_hours_reference [shift_of 1 (Some 0) "09:00" "17:00"] june
     = inl [(0, 8%float)]
  /\ payroll_calc [employee_paid 0 25] [shift_of 1 (Some 0) "09:00" "17:00"]
                  TaxSuperRule.default june
     = inl [].
Proof. repeat split; vm_compute; reflexivity. Qed.

Lemma for_each_skip {A S} (body : S -> A -> result S) (l1 l2 : list A)
      (x : A) (s : S) :
  (forall acc, body acc x = ret acc) ->
  for_each body (l1 ++ x :: l2) s = for_each body (l1 ++ l2) s.
Proof.
  intros Hx. rewrite !for_each_app. unfold bind.
  destruct (for_each body l1 s) as [s'|e]; [|reflexivity].
  simpl. now rewrite Hx.
Qed.

(** C10. A shift whose employee id is 0 counts as assigned in the
    assignment pass (the test is [is not None]) and as unassigned in the
    totals pass (the test is truthiness): [generate_roster] leaves it as it
    is, and the totals are those of the roster without it. *)
Theorem generate_roster_employee_zero :
  forall (employees : list Employee.t) (before after : list Shift.t)
         (sh : Shift.t) (r : TaxSuperRule.t),
    Shift.employee_id sh = Some 0 ->
    assign_shift employees sh = sh
    /\ (forall hours_map, roster_hours_step hours_map sh = ret hours_map)
    /\ fst (generate_roster employees (before ++ sh :: after) r)
       = fst (generate_roster employees before r)
         ++ sh :: fst (generate_roster employees after r)
    /\ snd (generate_roster employees (before ++ sh :: after) r)
       = snd (generate_roster employees (before ++ after) r).
Proof.
  intros employees before after sh r Hz.
  assert (Ha : assign_shift employees sh = sh)
    by (unfold assign_shift; now rewrite Hz).
  assert (Hs : forall hours_map, roster_hours_step hours_map sh = ret hours_map)
    by (intros hm; unfold roster_hours_step; now rewrite Hz).
  repeat split; auto.
  - simpl. now rewrite map_app, (map_cons _ sh), Ha.
  - simpl. unfold roster_totals.
    rewrite !map_app, (map_cons _ sh), Ha.
    now rewrite (for_each_skip _ _ _ _ _ Hs).
Qed.

Lemma generate_roster_employee_zero_witness :
  generate_roster two_employees
    ([shift_of 1 (Some 1) "09:00" "10:00"]
       ++ shift_of 3 (Some 0) "09:00" "17:00"
       :: [shift_of 2 (Some 2) "09:00" "10:00"])
    TaxSuperRule.default
  = ([shift_of 1 (Some 1) "09:00" "10:00";
      shift_of 3 (Some 0) "09:00" "17:00";
      shift_of 2 (Some 2) "09:00" "10:00"],
     inl (Totals.mk 55.16 2.75 6.34 0)).
Proof.
  pose proof (generate_roster_employee_zero two_employees
                [shift_of 1 (Some 1) "09:00" "10:00"]
                [shift_of 2 (Some 2) "09:00" "10:00"]
                (shift_of 3 (Some 0) "09:00" "17:00")
                TaxSuperRule.default eq_refl) as (_ & _ & Hf & Hs).
  destruct (generate_roster two_employees _ TaxSuperRule.default) as [ss tt].
  simpl fst in Hf. simpl snd in Hs. rewrite Hf, Hs.
  vm_compute. reflexivity.
Defined.

(** ** Roster assignment *)

Section SortedHead.
Context {A : Type} (key : A -> float).

(** The head of [sorted l] is the first element of [l] with the least key. *)
Lemma sorted_head (l : list A) :
  (forall x, In x l -> not_nan (key x)) ->
  l <> [] ->
  exists pre c post rest,
    l = pre ++ c :: post
    /\ sorted key l = c :: rest
    /\ (forall x, In x l -> (key c <=? key x)%float = true)
    /\ (forall p, In p pre -> (key c <? key p)%float = true).
Proof.
  induction l as [|x l IH]; intros Hnan Hne; [congruence|].
  destruct l as [|y l'].
  - exists [], x, [], []. simpl.
    split; [reflexivity|]. split; [reflexivity|]. split.
    + intros z [<-|[]]. apply float_leb_refl, Hnan. now left.
    + intros p [].
  - destruct IH as (pre & c & post & rest & Hl & Hs & Hmin & Hpre).
    { intros z Hz. apply Hnan. now right. }
    { discriminate. }
    change (sorted key (x :: y :: l'))
      with (insert_sorted key x (sorted key (y :: l'))).
    rewrite Hs. simpl insert_sorted.
    assert (Hc : In c (y :: l')) by (rewrite Hl; apply in_elt).
    destruct (key c <? key x)%float eqn:Elt.
    + exists (x :: pre), c, post, (insert_sorted key x rest).
      split; [simpl; now rewrite Hl|]. split; [reflexivity|]. split.
      * intros z [<-|Hz]; [now apply float_ltb_leb | now apply Hmin].
      * intros p [<-|Hp]; [assumption | now apply Hpre].
    + exists [], x, (y :: l'), (c :: rest).
      assert (Hxc : (key x <=? key c)%float = true).
      { apply float_not_ltb_leb; auto; apply Hnan; [now left | now right]. }
      split; [reflexivity|]. split; [reflexivity|]. split.
      * intros z [<-|Hz].
        -- apply float_leb_refl, Hnan. now left.
        -- eapply float_leb_trans; [exact Hxc | now apply Hmin].
      * intros p [].
Qed.

End SortedHead.

Lemma role_eqb_eq (a : option string) (s : string) :
  role_eqb a (Some s) = true <-> a = Some s.
Proof.
  destruct a as [x|]; simpl.
  - rewrite String.eqb_eq. split; congruence.
  - split; discriminate.
Qed.

Lemma candidates_spec (employees : list Employee.t) (sh : Shift.t)
      (e : Employee.t) :
  In e (candidates employees sh)
  <-> In e employees
      /\ (Shift.role sh = None \/ Employee.role e = Shift.role sh).
Proof.
  unfold candidates. rewrite filter_In.
  destruct (Shift.role sh) as [s|].
  - rewrite role_eqb_eq. intuition congruence.
  - intuition.
Qed.

(** An element of a filtered list splits the list it was filtered from. *)
Lemma filter_split {A} (f : A -> bool) (l pre post : list A) (c : A) :
  filter f l = pre ++ c :: post ->
  exists l1 l2, l = l1 ++ c :: l2 /\ filter f l1 = pre /\ filter f l2 = post.
Proof.
  revert pre. induction l as [|a l IH]; intros pre H; simpl in H.
  - destruct pre; discriminate.
  - destruct (f a) eqn:Ef.
    + destruct pre as [|p pre']; simpl in H; injection H as -> H.
      * exists [], l. auto.
      * destruct (IH _ H) as (l1 & l2 & -> & H1 & H2).
        exists (p :: l1), l2. simpl. rewrite Ef, H1. auto.
    + destruct (IH _ H) as (l1 & l2 & -> & H1 & H2).
      exists (a :: l1), l2. simpl. rewrite Ef. auto.
Qed.

(** C5. For a shift that [generate_roster] finds unassigned.  The pass
    returns it at the same place, with every field but the employee id as
    it was.  When no employee suits the shift (the shift asks for a role
    and no employee has it) the employee id stays empty.  Otherwise the
    employee id becomes the id of an employee who suits the shift and
    whose hourly rate is the lowest among those who do; among several with
    that rate it is the first in the order the employees were loaded:
    every suiting employee before the chosen one has a strictly higher
    rate.  The pass cannot raise. *)
Theorem generate_roster_assigns_cheapest :
  forall (employees : list Employee.t) (shifts : list Shift.t)
         (r : TaxSuperRule.t) (i : nat) (sh : Shift.t),
    (forall e, In e employees -> not_nan (Employee.hourly_rate e)) ->
    nth_error shifts i = Some sh ->
    Shift.employee_id sh = None ->
    exists sh',
      nth_error (fst (generate_roster employees shifts r)) i = Some sh'
      /\ List.length (fst (generate_roster employees shifts r))
         = List.length shifts
      /\ Shift.id sh' = Shift.id sh
      /\ Shift.day sh' = Shift.day sh
      /\ Shift.start sh' = Shift.start sh
      /\ Shift.end_ sh' = Shift.end_ sh
      /\ Shift.role sh' = Shift.role sh
      /\ Shift.expected_busyness sh' = Shift.expected_busyness sh
      /\ Shift.max_shift_hours sh' = Shift.max_shift_hours sh
      /\ ((forall e, In e employees -> ~ suits sh e) ->
          Shift.employee_id sh' = None)
      /\ ((exists e, In e employees /\ suits sh e) ->
          exists pre chosen post,
            employees = pre ++ chosen :: post
            /\ suits sh chosen
            /\ Shift.employee_id sh' = Some (Employee.id chosen)
            /\ (forall c, In c employees -> suits sh c ->
                          (Employee.hourly_rate chosen
                           <=? Employee.hourly_rate c)%float = true)
            /\ (forall c, In c pre -> suits sh c ->
                          (Employee.hourly_rate chosen
                           <? Employee.hourly_rate c)%float = true)).
Proof.
  intros employees shifts r i sh Hnan Hi Hnone.
  exists (assign_shift employees sh).
  split; [simpl; now rewrite nth_error_map, Hi|].
  split; [simpl; apply length_map|].
  pose proof (candidates_spec employees sh) as Hcand.
  unfold assign_shift. rewrite Hnone.
  destruct (candidates employees sh) as [|c0 l0] eqn:Ec.
  - simpl. repeat (split; [reflexivity|]).
    split; [intros _; assumption|].
    intros (e & He & Hs). destruct (proj2 (Hcand e) (conj He Hs)).
  - destruct (sorted_head Employee.hourly_rate (c0 :: l0))
      as (pre & c & post & rest & Hl & -> & Hmin & Hpre).
    { intros e He. apply Hnan. now apply Hcand. }
    { discriminate. }
    cbn [Shift.set_employee_id Shift.id Shift.day Shift.start Shift.end_
         Shift.role Shift.expected_busyness Shift.max_shift_hours
         Shift.employee_id].
    repeat (split; [reflexivity|]). split.
    + intros Hno. exfalso.
      apply (Hno c0); apply (Hcand c0); now left.
    + intros _. unfold candidates in Ec. rewrite Hl in Ec.
      destruct (filter_split _ _ _ _ _ Ec) as (l1 & l2 & He & Hf1 & _).
      exists l1, c, l2. split; [exact He|].
      split; [apply (Hcand c); rewrite Hl; apply in_elt|].
      split; [reflexivity|]. split.
      * intros x Hx Hsx. apply Hmin. apply Hcand. auto.
      * intros x Hx Hsx. apply Hpre. rewrite <- Hf1.
        apply (candidates_spec l1 sh x). auto.
Qed.

Lemma generate_roster_assigns_cheapest_witness :
  exists sh',
    nth_error (fst (generate_roster baristas [open_barista_shift]
                                    TaxSuperRule.default)) 0 = Some sh'
    /\ Shift.employee_id sh' = Some 1.
Proof.
  destruct (generate_roster_assigns_cheapest
              baristas [open_barista_shift] TaxSuperRule.default
              0%nat open_barista_shift)
    as (sh' & Hnth & _ & _ & _ & _ & _ & _ & _ & _ & _ & Hsome);
    [intros e [<-|[<-|[]]]; reflexivity|reflexivity|reflexivity|].
  exists sh'. split; [exact Hnth|].
  destruct Hsome as (pre & chosen & post & He & _ & Hid & _ & Hpre).
  { exists (Employee.mk 1 "A" None TFN None None 20
                        (Some "barista"%string) None bank).
    split; [now left|now right]. }
  rewrite Hid. clear Hid Hnth.
  destruct pre as [|p pre']; [injection He as <- _; reflexivity|].
  injection He as <- He. exfalso.
  assert (Hlt : (Employee.hourly_rate chosen <? 20)%float = true)
    by (apply (Hpre _ (or_introl eq_refl)); now right).
  destruct pre' as [|q pre'']; [injection He as <- _; discriminate|].
  injection He as _ He. destruct pre''; discriminate.
Defined.

(** ** Time arithmetic *)

Lemma digit_range (c : ascii) (x : Z) :
  Strptime.digit c = Some x -> 0 <= x <= 9.
Proof.
  unfold Strptime.digit.
  destruct (_ && _) eqn:E; [|discriminate]. intros [= <-].
  apply andb_true_iff in E as [E1 E2]. lia.
Qed.

Lemma two_digits_inv (accept : Z -> Z -> bool) (l rest : list ascii) (v : Z) :
  Strptime.two_digits accept l = Some (v, rest) ->
  exists x y, 0 <= x <= 9 /\ 0 <= y <= 9 /\ accept x y = true
              /\ v = 10 * x + y.
Proof.
  unfold Strptime.two_digits.
  destruct l as [|a [|b l]]; try discriminate.
  destruct (Strptime.digit a) as [x|] eqn:Ea; [|discriminate].
  destruct (Strptime.digit b) as [y|] eqn:Eb; [|discriminate].
  destruct (accept x y) eqn:Eacc; [|discriminate]. intros [= <- <-].
  exists x, y.
  split; [eauto using digit_range|]. split; [eauto using digit_range|].
  split; [assumption|reflexivity].
Qed.

Lemma one_digit_inv (accept : Z -> bool) (l rest : list ascii) (v : Z) :
  Strptime.one_digit accept l = Some (v, rest) ->
  0 <= v <= 9 /\ accept v = true.
Proof.
  unfold Strptime.one_digit.
  destruct l as [|a l]; try discriminate.
  destruct (Strptime.digit a) as [x|] eqn:Ea; [|discriminate].
  destruct (accept x) eqn:Eacc; [|discriminate]. intros [= <- <-].
  split; [eauto using digit_range|assumption].
Qed.

Lemma alts_inv {A} (ps : list Strptime.directive)
      (k : Z -> list ascii -> option A) (l : list ascii) (r : A) :
  Strptime.alts ps k l = Some r ->
  exists p v rest, In p ps /\ p l = Some (v, rest) /\ k v rest = Some r.
Proof.
  induction ps as [|p ps IH]; simpl; [discriminate|].
  destruct (p l) as [[v rest]|] eqn:Ep.
  - destruct (k v rest) as [r'|] eqn:Ek.
    + intros [= <-]. exists p, v, rest. auto.
    + intros H. destruct (IH H) as (q & w & rest' & ? & ? & ?).
      exists q, w, rest'. auto.
  - intros H. destruct (IH H) as (q & w & rest' & ? & ? & ?).
    exists q, w, rest'. auto.
Qed.

Lemma H_range (p : Strptime.directive) (l rest : list ascii) (v : Z) :
  In p [Strptime.H_two; Strptime.H_one] -> p l = Some (v, rest) ->
  0 <= v <= 23.
Proof.
  intros [<-|[<-|[]]] H.
  - apply two_digits_inv in H as (x & y & Hx & Hy & Hacc & ->).
    apply orb_true_iff in Hacc as [Hacc|Hacc];
      [|apply andb_true_iff in Hacc as [? ?]]; lia.
  - apply one_digit_inv in H. lia.
Qed.

Lemma M_range (p : Strptime.directive) (l rest : list ascii) (v : Z) :
  In p [Strptime.M_two; Strptime.M_one] -> p l = Some (v, rest) ->
  0 <= v <= 59.
Proof.
  intros [<-|[<-|[]]] H.
  - apply two_digits_inv in H as (x & y & Hx & Hy & Hacc & ->). lia.
  - apply one_digit_inv in H. lia.
Qed.

(** What [strptime] returns for ["%H:%M"]: a time of 1900-01-01. *)
Lemma strptime_HM_inv (s : string) (d : datetime) :
  Strptime.strptime_HM s = inl d ->
  exists h m, d = mk 1900 1 1 h m 0 /\ 0 <= h <= 23 /\ 0 <= m <= 59.
Proof.
  unfold Strptime.strptime_HM.
  destruct (Strptime.regex_HM _) as [[[h m] [|c rest]]|] eqn:E;
    try discriminate.
  intros [= <-]. exists h, m. split; [reflexivity|].
  unfold Strptime.regex_HM in E.
  apply alts_inv in E as (p & v & rest & Hp & Hpl & Hk).
  destruct (Strptime.literal ":" rest) as [rest'|]; [|discriminate].
  apply alts_inv in Hk as (q & w & rest'' & Hq & Hql & [= <- <- _]).
  eauto using H_range, M_range.
Qed.

(** The seconds of [e - s] for two times of 1900-01-01, [e] moved to the
    next day when it is earlier. *)
Lemma seconds_between (h1 m1 h2 m2 : Z) :
  0 <= h1 <= 23 -> 0 <= m1 <= 59 -> 0 <= h2 <= 23 -> 0 <= m2 <= 59 ->
  let s := mk 1900 1 1 h1 m1 0 in
  let e := mk 1900 1 1 h2 m2 0 in
  seconds (DateTime.sub (if DateTime.ltb e s then add_one_day e else e) s)
  = elapsed_seconds (3600 * h1 + 60 * m1) (3600 * h2 + 60 * m2).
Proof.
  intros Hh1 Hm1 Hh2 Hm2 s e.
  assert (Hs : second_of_day s = 3600 * h1 + 60 * m1)
    by (unfold second_of_day, s; cbn [second minute hour]; lia).
  assert (He : second_of_day e = 3600 * h2 + 60 * m2)
    by (unfold second_of_day, e; cbn [second minute hour]; lia).
  assert (He' : second_of_day (add_one_day e) = 3600 * h2 + 60 * m2).
  { change (add_one_day e) with (mk 1900 1 2 h2 m2 0).
    unfold second_of_day; cbn [second minute hour]; lia. }
  unfold DateTime.ltb, DateTime.compare.
  change (year e ?= year s) with Eq. change (month e ?= month s) with Eq.
  change (day e ?= day s) with Eq. cbv iota.
  unfold elapsed_seconds. rewrite Hs, He.
  destruct (Z.compare_spec (3600 * h2 + 60 * m2) (3600 * h1 + 60 * m1))
    as [Heq|Hlt|Hgt]; unfold DateTime.sub; cbn [seconds];
    rewrite ?He', ?He, Hs;
    destruct (Z.leb_spec (3600 * h1 + 60 * m1) (3600 * h2 + 60 * m2));
    Z.div_mod_to_equations; lia.
Qed.

(** The elapsed hours between two times that [strptime] accepted. *)
Lemma hours_between_parsed (start end_ : string) (s e : datetime) :
  parse_time start = inl s ->
  parse_time end_ = inl e ->
  hours_between start end_
  = inl (hours_of_seconds
           (elapsed_seconds (3600 * hour s + 60 * minute s)
                            (3600 * hour e + 60 * minute e))).
Proof.
  intros Hs He. unfold hours_between, bind. rewrite Hs, He. unfold ret.
  apply strptime_HM_inv in Hs as (h1 & m1 & -> & Hh1 & Hm1).
  apply strptime_HM_inv in He as (h2 & m2 & -> & Hh2 & Hm2).
  unfold hours_of_seconds.
  now rewrite (seconds_between h1 m1 h2 m2 Hh1 Hm1 Hh2 Hm2).
Qed.

Lemma in_range (n : nat) (z : Z) : 0 <= z < Z.of_nat n -> In z (range n).
Proof.
  intros H. unfold range. apply in_map_iff. exists (Z.to_nat z).
  split; [lia|]. apply in_seq. lia.
Qed.

Lemma datetime_eqb_eq (a b : datetime) : datetime_eqb a b = true -> a = b.
Proof.
  unfold datetime_eqb. destruct a, b; simpl. intros H.
  repeat (apply andb_true_iff in H as [H ?]).
  f_equal; now apply Z.eqb_eq.
Qed.

Lemma parses_to_spec (parse : string -> result datetime) (s : string)
      (d : datetime) :
  parses_to parse s d = true -> parse s = inl d.
Proof.
  unfold parses_to. destruct (parse s); [|discriminate].
  intros H. f_equal. now apply datetime_eqb_eq.
Qed.

(** Every canonical [HH:MM] string is read as the time it writes. *)
Lemma parse_time_hhmm (h m : Z) :
  0 <= h < 24 -> 0 <= m < 60 ->
  parse_time (hhmm h m) = inl (mk 1900 1 1 h m 0).
Proof.
  intros Hh Hm. apply parses_to_spec.
  assert (Hall : forallb (fun h =>
                   forallb (fun m => parses_to parse_time (hhmm h m)
                                               (mk 1900 1 1 h m 0))
                           (range 60))
                         (range 24) = true) by (vm_compute; reflexivity).
  rewrite forallb_forall in Hall.
  specialize (Hall h (in_range 24 h Hh)).
  rewrite forallb_forall in Hall. exact (Hall m (in_range 60 m Hm)).
Qed.

(** C8. For every pair of valid [HH:MM] times the result is the time from
    start to end in fractional hours, end being taken on the next day when
    it is earlier than start; 09:00-17:00 and 22:00-06:00 are both 8.0. *)
Theorem hours_between_elapsed :
  forall h1 m1 h2 m2 : Z,
    0 <= h1 < 24 -> 0 <= m1 < 60 -> 0 <= h2 < 24 -> 0 <= m2 < 60 ->
    let s := 3600 * h1 + 60 * m1 in
    let e := 3600 * h2 + 60 * m2 in
    (s <= e ->
     hours_between (hhmm h1 m1) (hhmm h2 m2) = inl (hours_of_seconds (e - s)))
    /\ (e < s ->
        hours_between (hhmm h1 m1) (hhmm h2 m2)
        = inl (hours_of_seconds (e + 86400 - s)))
    /\ hours_between "09:00" "17:00" = inl 8%float
    /\ hours_between "22:00" "06:00" = inl 8%float.
Proof.
  intros h1 m1 h2 m2 Hh1 Hm1 Hh2 Hm2 s e.
  pose proof (hours_between_parsed _ _ _ _ (parse_time_hhmm h1 m1 Hh1 Hm1)
                (parse_time_hhmm h2 m2 Hh2 Hm2)) as H.
  cbn [hour minute] in H. fold s e in H. unfold elapsed_seconds in H.
  split; [|split; [|split]].
  - intros Hle. rewrite H. destruct (Z.leb_spec s e); [reflexivity|lia].
  - intros Hlt. rewrite H. destruct (Z.leb_spec s e); [lia|reflexivity].
  - vm_compute. reflexivity.
  - vm_compute. reflexivity.
Qed.

Lemma hours_between_elapsed_witness :
  hours_between "22:30" "06:00" = inl 7.5%float
  /\ hours_between "09:00" "17:00" = inl 8%float.
Proof.
  pose proof (hours_between_elapsed 22 30 6 0) as H.
  destruct H as (_ & Hwrap & _ & _); try lia.
  pose proof (hours_between_elapsed 9 0 17 0) as H.
  destruct H as (Hday & _ & _ & _); try lia.
  split.
  - change "22:30"%string with (hhmm 22 30).
    change "06:00"%string with (hhmm 6 0).
    rewrite Hwrap by lia. vm_compute. reflexivity.
  - change "09:00"%string with (hhmm 9 0).
    change "17:00"%string with (hhmm 17 0).
    rewrite Hday by lia. vm_compute. reflexivity.
Defined.

(** ** Periods *)

Ltac month_cases m :=
  let H := fresh "Hm" in
  assert (H : m = 1 \/ m = 2 \/ m = 3 \/ m = 4 \/ m = 5 \/ m = 6 \/ m = 7
              \/ m = 8 \/ m = 9 \/ m = 10 \/ m = 11 \/ m = 12) by lia;
  repeat (destruct H as [H|H]); subst m.

Ltac split_valid H :=
  unfold valid_date in H;
  repeat (let H' := fresh H in apply andb_true_iff in H as [H H']);
  repeat match goal with
         | H0 : (_ <=? _) = true |- _ => apply Z.leb_le in H0
         end.

(** The first of January of the next year is the day after the last of
    December. *)
Lemma days_before_year_succ (y : Z) :
  days_before_year (y + 1)
  = days_before_year y + 365 + (if is_leap y then 1 else 0).
Proof.
  unfold days_before_year, is_leap. cbv zeta.
  replace (y + 1 - 1) with y by lia.
  destruct (Z.eqb_spec (y mod 4) 0), (Z.eqb_spec (y mod 100) 0),
           (Z.eqb_spec (y mod 400) 0); simpl;
    Z.div_mod_to_equations; lia.
Qed.

Lemma div100_step (x y : Z) : x <= y -> y / 100 <= x / 100 + (y - x).
Proof.
  intros H.
  assert (x / 100 <= y / 100) by (apply Z.div_le_mono; lia).
  Z.div_mod_to_equations. lia.
Qed.

Lemma days_before_year_mono (a b : Z) :
  a <= b -> days_before_year a <= days_before_year b.
Proof.
  intros H. unfold days_before_year. cbv zeta.
  assert ((a - 1) / 4 <= (b - 1) / 4) by (apply Z.div_le_mono; lia).
  assert ((a - 1) / 400 <= (b - 1) / 400) by (apply Z.div_le_mono; lia).
  pose proof (div100_step (a - 1) (b - 1) ltac:(lia)). lia.
Qed.

Lemma days_before_month_leap (y m : Z) :
  days_before_month y m = days_before_month_of (is_leap y) m.
Proof.
  unfold days_before_month, days_before_month_of.
  induction (Z.to_nat (m - 1)) as [|n IH]; [reflexivity|].
  cbn [days_before_month_aux days_before_month_aux_of]. now rewrite IH.
Qed.

(** Evaluate the month tables once the month and the leap flag are known. *)
Ltac month_tables :=
  repeat match goal with
         | |- context [days_before_month_of ?l ?m] =>
             let v := eval vm_compute in (days_before_month_of l m) in
             change (days_before_month_of l m) with v
         | H : context [days_in_month_of ?l ?m] |- _ =>
             let v := eval vm_compute in (days_in_month_of l m) in
             change (days_in_month_of l m) with v in H
         end.

(** The day of the year of a valid date lies within the year. *)
Lemma day_of_year_bounds (y m d : Z) :
  valid_date y m d = true ->
  1 <= days_before_month y m + d <= 365 + (if is_leap y then 1 else 0).
Proof.
  intros H. split_valid H. rewrite days_before_month_leap.
  change (days_in_month y m) with (days_in_month_of (is_leap y) m) in *.
  destruct (is_leap y); month_cases m; month_tables; lia.
Qed.

(** Within a year, a later month is a later day of the year. *)
Lemma day_of_year_month_mono (y m1 d1 m2 d2 : Z) :
  valid_date y m1 d1 = true -> valid_date y m2 d2 = true -> m1 < m2 ->
  days_before_month y m1 + d1 < days_before_month y m2 + d2.
Proof.
  intros H1 H2 Hlt. split_valid H1. split_valid H2.
  rewrite !days_before_month_leap.
  change (days_in_month y m1) with (days_in_month_of (is_leap y) m1) in *.
  change (days_in_month y m2) with (days_in_month_of (is_leap y) m2) in *.
  destruct (is_leap y); month_cases m1; month_cases m2; try lia;
    month_tables; lia.
Qed.

(** On valid dates the comparison of the fields is the comparison of the
    day numbers. *)
Lemma compare_toordinal (y1 m1 d1 y2 m2 d2 : Z) :
  valid_date y1 m1 d1 = true -> valid_date y2 m2 d2 = true ->
  DateTime.compare (mk y1 m1 d1 0 0 0) (mk y2 m2 d2 0 0 0)
  = (toordinal (mk y1 m1 d1 0 0 0) ?= toordinal (mk y2 m2 d2 0 0 0)).
Proof.
  intros H1 H2. unfold DateTime.compare, toordinal.
  cbn [year month day hour minute second second_of_day].
  pose proof (day_of_year_bounds _ _ _ H1) as B1.
  pose proof (day_of_year_bounds _ _ _ H2) as B2.
  symmetry.
  destruct (Z.compare_spec y1 y2) as [->|Hy|Hy].
  - destruct (Z.compare_spec m1 m2) as [->|Hm|Hm].
    + destruct (Z.compare_spec d1 d2) as [->|Hd|Hd].
      * rewrite Z.compare_refl. reflexivity.
      * apply Z.compare_lt_iff. lia.
      * apply Z.compare_gt_iff. lia.
    + apply Z.compare_lt_iff.
      pose proof (day_of_year_month_mono _ _ _ _ _ H1 H2 Hm). lia.
    + apply Z.compare_gt_iff.
      pose proof (day_of_year_month_mono _ _ _ _ _ H2 H1 Hm). lia.
  - apply Z.compare_lt_iff.
    pose proof (days_before_year_succ y1).
    pose proof (days_before_year_mono (y1 + 1) y2 ltac:(lia)). lia.
  - apply Z.compare_gt_iff.
    pose proof (days_before_year_succ y2).
    pose proof (days_before_year_mono (y2 + 1) y1 ltac:(lia)). lia.
Qed.

Lemma leb_toordinal (y1 m1 d1 y2 m2 d2 : Z) :
  valid_date y1 m1 d1 = true -> valid_date y2 m2 d2 = true ->
  DateTime.leb (mk y1 m1 d1 0 0 0) (mk y2 m2 d2 0 0 0)
  = (toordinal (mk y1 m1 d1 0 0 0) <=? toordinal (mk y2 m2 d2 0 0 0)).
Proof.
  intros H1 H2. unfold DateTime.leb, Z.leb.
  now rewrite (compare_toordinal _ _ _ _ _ _ H1 H2).
Qed.

(** What [strptime] returns for ["%Y-%m-%d"]: midnight of a valid date. *)
Lemma strptime_Ymd_inv (s : string) (dt : datetime) :
  Strptime.strptime_Ymd s = inl dt ->
  exists y m d, dt = mk y m d 0 0 0 /\ valid_date y m d = true.
Proof.
  unfold Strptime.strptime_Ymd.
  destruct (Strptime.regex_Ymd _) as [[[[y m] d] [|c rest]]|];
    try discriminate.
  destruct (valid_date y m d) eqn:E; [|discriminate].
  intros [= <-]. exists y, m, d. auto.
Qed.

(** Membership of a day in a period, for dates that [strptime] accepted. *)
Lemma within_period_parsed (day_str start end_ : string) (d s e : datetime) :
  Strptime.strptime_Ymd day_str = inl d ->
  Strptime.strptime_Ymd start = inl s ->
  Strptime.strptime_Ymd end_ = inl e ->
  within_period day_str start end_
  = inl ((toordinal s <=? toordinal d) && (toordinal d <=? toordinal e)).
Proof.
  intros Hd Hs He. unfold within_period, bind. rewrite Hd, Hs, He.
  apply strptime_Ymd_inv in Hd as (y & m & dd & -> & Vd).
  apply strptime_Ymd_inv in Hs as (ys & ms & ds & -> & Vs).
  apply strptime_Ymd_inv in He as (ye & me & de & -> & Ve).
  unfold ret. now rewrite !leb_toordinal.
Qed.

Lemma digit_of_char (k : Z) :
  0 <= k <= 9 -> Strptime.digit (digit_char k) = Some k.
Proof.
  intros H.
  assert (Hk : k = 0 \/ k = 1 \/ k = 2 \/ k = 3 \/ k = 4 \/ k = 5 \/ k = 6
               \/ k = 7 \/ k = 8 \/ k = 9) by lia.
  repeat (destruct Hk as [Hk|Hk]); subst k; reflexivity.
Qed.

Lemma Y_four_canonical (y : Z) (rest : string) :
  0 <= y <= 9999 ->
  Strptime.Y_four (Strptime.chars (four_digit_string y ++ rest))
  = Some (y, Strptime.chars rest).
Proof.
  intros H. unfold four_digit_string, two_digit_string, Strptime.chars.
  cbn [append list_ascii_of_string]. unfold Strptime.Y_four.
  rewrite !digit_of_char by (Z.div_mod_to_equations; lia).
  do 2 f_equal. Z.div_mod_to_equations. lia.
Qed.

(** The month and the day of a canonical date string. *)
Lemma regex_md_canonical (m d : Z) :
  1 <= m <= 12 -> 1 <= d <= 31 ->
  Strptime.regex_md
    (Strptime.chars ("-" ++ two_digit_string m ++ "-" ++ two_digit_string d))
  = Some (m, d, []).
Proof.
  intros Hm Hd.
  assert (Hall :
    forallb (fun m =>
      forallb (fun d =>
        match Strptime.regex_md
                (Strptime.chars
                   ("-" ++ two_digit_string m ++ "-" ++ two_digit_string d))
        with
        | Some (m', d', []) => (m' =? m) && (d' =? d)
        | _ => false
        end) (map (Z.add 1) (range 31))) (map (Z.add 1) (range 12)) = true)
    by (vm_compute; reflexivity).
  rewrite forallb_forall in Hall.
  assert (Him : In m (map (Z.add 1) (range 12))).
  { apply in_map_iff. exists (m - 1). split; [lia|]. apply in_range. lia. }
  specialize (Hall m Him). rewrite forallb_forall in Hall.
  assert (Hid : In d (map (Z.add 1) (range 31))).
  { apply in_map_iff. exists (d - 1). split; [lia|]. apply in_range. lia. }
  specialize (Hall d Hid).
  destruct (Strptime.regex_md _) as [[[m' d'] [|c r]]|]; try discriminate.
  apply andb_true_iff in Hall as [E1 E2].
  apply Z.eqb_eq in E1, E2. now subst.
Qed.

(** Every canonical [YYYY-MM-DD] string of a valid date is read as that
    date. *)
Lemma strptime_yyyymmdd (y m d : Z) :
  valid_date y m d = true ->
  Strptime.strptime_Ymd (yyyymmdd y m d) = inl (mk y m d 0 0 0).
Proof.
  intros V. unfold Strptime.strptime_Ymd, Strptime.regex_Ymd, yyyymmdd.
  assert (R : 1 <= y <= 9999 /\ 1 <= m <= 12 /\ 1 <= d <= 31).
  { pose proof V as V'. split_valid V'.
    assert (days_in_month y m <= 31)
      by (unfold days_in_month;
          repeat match goal with |- context [if ?b then _ else _] =>
                                   destruct b end; lia).
    lia. }
  destruct R as (Ry & Rm & Rd).
  rewrite Y_four_canonical by lia.
  rewrite regex_md_canonical by assumption.
  now rewrite V.
Qed.

(** C9. For valid dates [within_period] holds exactly when the day is not
    before the start and not after the end of the period, both ends
    included; on an inverted range it is false for every day. *)
Theorem within_period_inclusive :
  forall y m d ys ms ds ye me de : Z,
    valid_date y m d = true ->
    valid_date ys ms ds = true ->
    valid_date ye me de = true ->
    let day_no := toordinal (mk y m d 0 0 0) in
    let start_no := toordinal (mk ys ms ds 0 0 0) in
    let end_no := toordinal (mk ye me de 0 0 0) in
    (within_period (yyyymmdd y m d) (yyyymmdd ys ms ds) (yyyymmdd ye me de)
     = inl true <-> start_no <= day_no <= end_no)
    /\ (within_period (yyyymmdd y m d) (yyyymmdd ys ms ds) (yyyymmdd ye me de)
        = inl false <-> ~ (start_no <= day_no <= end_no))
    /\ (end_no < start_no ->
        within_period (yyyymmdd y m d) (yyyymmdd ys ms ds) (yyyymmdd ye me de)
        = inl false).
Proof.
  intros y m d ys ms ds ye me de Vd Vs Ve day_no start_no end_no.
  rewrite (within_period_parsed _ _ _ _ _ _ (strptime_yyyymmdd _ _ _ Vd)
             (strptime_yyyymmdd _ _ _ Vs) (strptime_yyyymmdd _ _ _ Ve)).
  fold day_no start_no end_no.
  destruct (Z.leb_spec start_no day_no), (Z.leb_spec day_no end_no); simpl;
    (split; [|split]); try split;
    try discriminate; try reflexivity; try lia; try tauto;
    intros; try lia; try reflexivity.
Qed.

Lemma within_period_inclusive_witness :
  within_period "2024-06-15" "2024-06-01" "2024-06-30" = inl true
  /\ within_period "2024-07-01" "2024-06-01" "2024-06-30" = inl false
  /\ within_period "2024-06-15" "2024-06-30" "2024-06-01" = inl false.
Proof.
  destruct (within_period_inclusive 2024 6 15 2024 6 1 2024 6 30
              eq_refl eq_refl eq_refl) as (Hin & _ & _).
  destruct (within_period_inclusive 2024 7 1 2024 6 1 2024 6 30
              eq_refl eq_refl eq_refl) as (_ & Hout & _).
  destruct (within_period_inclusive 2024 6 15 2024 6 30 2024 6 1
              eq_refl eq_refl eq_refl) as (_ & _ & Hinv).
  split; [|split].
  - apply Hin. vm_compute. split; discriminate.
  - apply Hout. vm_compute. intros [_ H]. now apply H.
  - apply Hinv. vm_compute. reflexivity.
Defined.

(** * Further properties *)

(** ** Elapsed hours *)

Lemma hours_between_inv (a b : string) (h : float) :
  hours_between a b = inl h ->
  exists s e, parse_time a = inl s /\ parse_time b = inl e.
Proof.
  unfold hours_between, bind.
  destruct (parse_time a) as [s|]; [|discriminate].
  destruct (parse_time b) as [e|]; [|discriminate].
  eauto.
Qed.

(** The elapsed seconds are a whole number of minutes below a day. *)
Lemma elapsed_minutes (h1 m1 h2 m2 : Z) :
  0 <= h1 <= 23 -> 0 <= m1 <= 59 -> 0 <= h2 <= 23 -> 0 <= m2 <= 59 ->
  exists k, 0 <= k < 1440
            /\ elapsed_seconds (3600 * h1 + 60 * m1) (3600 * h2 + 60 * m2)
               = 60 * k.
Proof.
  intros Hh1 Hm1 Hh2 Hm2. unfold elapsed_seconds.
  destruct (Z.leb_spec (3600 * h1 + 60 * m1) (3600 * h2 + 60 * m2)).
  - exists (60 * h2 + m2 - (60 * h1 + m1)). lia.
  - exists (60 * h2 + m2 + 1440 - (60 * h1 + m1)). lia.
Qed.

Lemma hours_of_minutes_range (k : Z) :
  0 <= k < 1440 ->
  (0 <=? hours_of_seconds (60 * k))%float = true
  /\ (hours_of_seconds (60 * k) <? 24)%float = true.
Proof.
  intros Hk.
  assert (Hall : forallb (fun k =>
                   (0 <=? hours_of_seconds (60 * k))%float
                   && (hours_of_seconds (60 * k) <? 24)%float)
                         (range 1440) = true) by (vm_compute; reflexivity).
  rewrite forallb_forall in Hall.
  specialize (Hall k (in_range 1440 k Hk)).
  now apply andb_true_iff in Hall.
Qed.

(** X1. Two accepted strings that denote the same time of day, however
    they are written, are zero hours apart: a shift that ends when it
    starts lasts 0 hours, not 24. *)
Theorem hours_between_same_time :
  forall (a b : string) (s e : datetime),
    parse_time a = inl s -> parse_time b = inl e ->
    hour s = hour e -> minute s = minute e ->
    hours_between a b = inl 0%float.
Proof.
  intros a b s e Ha Hb Hh Hm.
  rewrite (hours_between_parsed _ _ _ _ Ha Hb), Hh, Hm.
  unfold elapsed_seconds. rewrite Z.leb_refl, Z.sub_diag.
  vm_compute. reflexivity.
Qed.

Lemma hours_between_same_time_witness :
  hours_between "09:00" "9:0" = inl 0%float.
Proof.
  apply (hours_between_same_time "09:00" "9:0" (mk 1900 1 1 9 0 0)
                                 (mk 1900 1 1 9 0 0));
    reflexivity.
Defined.

Lemma hours_between_in_day :
  forall (a b : string) (h : float),
    hours_between a b = inl h ->
    (0 <=? h)%float = true /\ (h <? 24)%float = true.
Proof.
  intros a b h H.
  destruct (hours_between_inv _ _ _ H) as (s & e & Ha & Hb).
  pose proof (hours_between_parsed _ _ _ _ Ha Hb) as Hp.
  apply strptime_HM_inv in Ha as (h1 & m1 & Es & Hh1 & Hm1).
  apply strptime_HM_inv in Hb as (h2 & m2 & Ee & Hh2 & Hm2).
  rewrite Es, Ee in Hp. cbn [hour minute] in Hp.
  destruct (elapsed_minutes h1 m1 h2 m2 Hh1 Hm1 Hh2 Hm2) as (k & Hk & Ek).
  rewrite Ek, H in Hp.
  assert (Eh : h = hours_of_seconds (60 * k)) by congruence.
  rewrite Eh. now apply hours_of_minutes_range.
Qed.

(** X2. Whenever [hours_between] returns, the result is at least 0 and
    strictly below 24. *)
Theorem hours_between_range :
  forall (a b : string) (h : float),
    hours_between a b = inl h ->
    (0 <=? h)%float = true /\ (h <? 24)%float = true.
Proof. exact hours_between_in_day. Qed.

Lemma hours_between_range_witness :
  (0 <=? 23.75)%float = true /\ (23.75 <? 24)%float = true.
Proof.
  apply (hours_between_range "06:15" "06:00" 23.75%float).
  vm_compute. reflexivity.
Defined.

Lemma hours_between_fails :
  forall (a b : string) (err : error),
    hours_between a b = inr err <->
    err = ValueError
    /\ (parse_time a = inr ValueError \/ parse_time b = inr ValueError).
Proof.
  intros a b err. split.
  - intros H. pose proof (hours_between_error _ _ _ H) as ->.
    split; [reflexivity|].
    unfold hours_between, bind in H.
    destruct (parse_time a) as [s|ea] eqn:Ea.
    + destruct (parse_time b) as [e|eb] eqn:Eb; [discriminate|].
      right. f_equal. eauto using strptime_HM_error.
    + left. f_equal. eauto using strptime_HM_error.
  - intros (-> & [H|H]); unfold hours_between, bind; rewrite H;
      [reflexivity|].
    destruct (parse_time a) as [s|ea] eqn:Ea; [reflexivity|].
    f_equal. eauto using strptime_HM_error.
Qed.

(** X3. [hours_between] raises exactly when [strptime] rejects one of the
    two strings, and then it raises [ValueError]. *)
Theorem hours_between_raises :
  forall (a b : string) (err : error),
    hours_between a b = inr err <->
    err = ValueError
    /\ (parse_time a = inr ValueError \/ parse_time b = inr ValueError).
Proof. exact hours_between_fails. Qed.

Lemma hours_between_raises_witness :
  hours_between "09:00" "24:00" = inr ValueError.
Proof.
  apply hours_between_raises. split; [reflexivity|].
  right. vm_compute. reflexivity.
Defined.

(** ** Periods, errors *)

Lemma strptime_Ymd_error (s : string) (e : error) :
  Strptime.strptime_Ymd s = inr e -> e = ValueError.
Proof.
  unfold Strptime.strptime_Ymd.
  destruct (Strptime.regex_Ymd _) as [[[[y m] d] [|c rest]]|];
    unfold ret, raise; try congruence.
  destruct (valid_date y m d); congruence.
Qed.

Lemma within_period_fails :
  forall (day_str start end_ : string) (err : error),
    within_period day_str start end_ = inr err <->
    err = ValueError
    /\ (Strptime.strptime_Ymd day_str = inr ValueError
        \/ Strptime.strptime_Ymd start = inr ValueError
        \/ Strptime.strptime_Ymd end_ = inr ValueError).
Proof.
  intros day_str start end_ err. unfold within_period, bind, ret.
  destruct (Strptime.strptime_Ymd day_str) as [d|ed] eqn:Ed.
  - destruct (Strptime.strptime_Ymd start) as [s|es] eqn:Es.
    + destruct (Strptime.strptime_Ymd end_) as [e|ee] eqn:Ee.
      * split; [discriminate|]. intros (_ & [H|[H|H]]); discriminate.
      * pose proof (strptime_Ymd_error _ _ Ee) as ->.
        split; [intros [= <-]; auto|]. now intros (-> & _).
    + pose proof (strptime_Ymd_error _ _ Es) as ->.
      split; [intros [= <-]; auto|]. now intros (-> & _).
  - pose proof (strptime_Ymd_error _ _ Ed) as ->.
    split; [intros [= <-]; auto|]. now intros (-> & _).
Qed.

(** X4. [within_period] raises exactly when one of its three strings is
    not a valid date for [strptime] (a malformed string, or a day that the
    month does not have), and then it raises [ValueError]; otherwise it
    returns a boolean. *)
Theorem within_period_raises :
  forall (day_str start end_ : string) (err : error),
    within_period day_str start end_ = inr err <->
    err = ValueError
    /\ (Strptime.strptime_Ymd day_str = inr ValueError
        \/ Strptime.strptime_Ymd start = inr ValueError
        \/ Strptime.strptime_Ymd end_ = inr ValueError).
Proof. exact within_period_fails. Qed.

Lemma within_period_raises_witness :
  within_period "2023-02-29" "2023-02-01" "2023-02-28" = inr ValueError.
Proof.
  apply within_period_raises. split; [reflexivity|].
  left. vm_compute. reflexivity.
Defined.

(** ** Loops that may raise *)

(** A loop that raised stopped at some element, after a prefix that did
    not raise. *)
Lemma for_each_error_inv {A S} (body : S -> A -> result S) (l : list A)
      (s : S) (e : error) :
  for_each body l s = inr e ->
  exists pre x post s',
    l = pre ++ x :: post
    /\ for_each body pre s = inl s'
    /\ body s' x = inr e.
Proof.
  revert s. induction l as [|a l IH]; intros s; simpl; [discriminate|].
  unfold bind. destruct (body s a) as [s1|e1] eqn:Ea.
  - intros H. destruct (IH _ H) as (pre & x & post & s' & -> & Hpre & Hx).
    exists (a :: pre), x, post, s'. simpl. unfold bind. rewrite Ea. auto.
  - intros [= <-]. exists [], a, l, s. auto.
Qed.

(** A loop that returned ran its body without error on every element. *)
Lemma for_each_ok_inv {A S} (body : S -> A -> result S) (l : list A)
      (s out : S) (x : A) :
  for_each body l s = inl out -> In x l ->
  exists s1 s2, body s1 x = inl s2.
Proof.
  revert s. induction l as [|a l IH]; intros s; simpl; [tauto|].
  unfold bind. destruct (body s a) as [s1|e1] eqn:Ea; [|discriminate].
  intros H [<-|Hin]; eauto.
Qed.

(** ** Shift creation, further *)

(** X5. The only errors of shift creation are [ShiftExceedsCap] and
    [ValueError]; it raises [ValueError] exactly when a cap is set and one
    of the two times does not parse, and the stored shifts are then
    unchanged.  Without a cap the times are never parsed. *)
Theorem add_shift_value_error :
  forall (db : list Shift.t) (shift : ShiftIn.t),
    (forall e, snd (add_shift db shift) = inr e ->
               e = ValueError \/ e = ShiftExceedsCap)
    /\ (snd (add_shift db shift) = inr ValueError <->
        exists cap,
          ShiftIn.max_shift_hours shift = Some cap
          /\ (parse_time (ShiftIn.start shift) = inr ValueError
              \/ parse_time (ShiftIn.end_ shift) = inr ValueError))
    /\ (ShiftIn.max_shift_hours shift = None ->
        add_shift db shift
        = (db ++ [shift_of_input (next_shift_id db) shift],
           inl (shift_of_input (next_shift_id db) shift))).
Proof.
  intros db shift. unfold add_shift, bind, ret, raise.
  destruct (ShiftIn.max_shift_hours shift) as [cap|] eqn:Ecap.
  - destruct (hours_between _ _) as [h|err] eqn:Eh.
    + destruct (cap <? h)%float; simpl; (split; [|split]);
        try discriminate.
      * intros e [= <-]. now right.
      * split; [discriminate|].
        intros (cap' & _ & Hm).
        assert (Hr : hours_between (ShiftIn.start shift) (ShiftIn.end_ shift)
                     = inr ValueError)
          by (apply hours_between_fails; tauto).
        congruence.
      * split; [discriminate|].
        intros (cap' & _ & Hm).
        assert (Hr : hours_between (ShiftIn.start shift) (ShiftIn.end_ shift)
                     = inr ValueError)
          by (apply hours_between_fails; tauto).
        congruence.
    + simpl. apply hours_between_fails in Eh as (-> & Hm).
      split; [|split]; try discriminate.
      * intros e [= <-]. now left.
      * split; [|reflexivity]. intros _. exists cap. auto.
  - simpl. split; [|split]; try discriminate.
    + split; [discriminate|]. intros (cap & [=] & _).
    + reflexivity.
Qed.

Lemma add_shift_value_error_witness :
  snd (add_shift [] (sample_shift_in "09:00" "25:00" (Some 8%float)))
  = inr ValueError
  /\ snd (add_shift [] (sample_shift_in "09:00" "25:00" None))
     = inl (shift_of_input 1 (sample_shift_in "09:00" "25:00" None)).
Proof.
  pose proof (add_shift_value_error []
                (sample_shift_in "09:00" "25:00" (Some 8%float)))
    as (_ & Hiff & _).
  pose proof (add_shift_value_error [] (sample_shift_in "09:00" "25:00" None))
    as (_ & _ & Hnone).
  split.
  - apply Hiff. exists 8%float. split; [reflexivity|].
    right. vm_compute. reflexivity.
  - rewrite (Hnone eq_refl). reflexivity.
Defined.

(** [h < c1 <= c2] excludes [c2 < h]. *)
Lemma float_ltb_leb_not_ltb (h c1 c2 : float) :
  (h <? c1)%float = true -> (c1 <=? c2)%float = true ->
  (c2 <? h)%float = false.
Proof.
  intros Hlt Hle. destruct (c2 <? h)%float eqn:E; [|reflexivity].
  apply float_ltb_leb in E.
  pose proof (float_leb_trans _ _ _ Hle E) as Hc.
  revert Hlt Hc. rewrite FloatAxioms.ltb_spec, FloatAxioms.leb_spec.
  unfold SFltb, SFleb.
  rewrite (SFcompare_swap (Prim2SF h) (Prim2SF c1)).
  destruct (SFcompare (Prim2SF h) (Prim2SF c1)) as [[]|]; simpl; congruence.
Qed.

(** X6. A cap of 24 hours or more never rejects a shift whose times parse:
    no duration reaches 24 hours. *)
Theorem add_shift_cap_of_a_day :
  forall (db : list Shift.t) (shift : ShiftIn.t) (cap h : float),
    ShiftIn.max_shift_hours shift = Some cap ->
    (24 <=? cap)%float = true ->
    hours_between (ShiftIn.start shift) (ShiftIn.end_ shift) = inl h ->
    add_shift db shift
    = (db ++ [shift_of_input (next_shift_id db) shift],
       inl (shift_of_input (next_shift_id db) shift)).
Proof.
  intros db shift cap h Hcap Hle Hh. unfold add_shift, bind, ret.
  rewrite Hcap, Hh.
  destruct (hours_between_in_day _ _ _ Hh) as [_ Hlt].
  now rewrite (float_ltb_leb_not_ltb _ _ _ Hlt Hle).
Qed.

Lemma add_shift_cap_of_a_day_witness :
  snd (add_shift [] (sample_shift_in "00:01" "00:00" (Some 24%float)))
  = inl (shift_of_input 1 (sample_shift_in "00:01" "00:00" (Some 24%float))).
Proof.
  rewrite (add_shift_cap_of_a_day []
             (sample_shift_in "00:01" "00:00" (Some 24%float)) 24%float
             (hours_of_seconds 86340) eq_refl eq_refl);
    [reflexivity|vm_compute; reflexivity].
Defined.

(** ** Week view *)

Lemma get_week_loop (start e : string) (shifts kept : list Shift.t) :
  (forall sh, In sh shifts ->
              exists b, within_period (Shift.day sh) start e = inl b) ->
  for_each (fun kept sh =>
              inside <- within_period (Shift.day sh) start e ;;
              ret (if inside then kept ++ [sh] else kept))
           shifts kept
  = inl (kept ++ filter (in_period start e) shifts).
Proof.
  revert kept. induction shifts as [|sh shifts IH]; intros kept Hall; simpl.
  - now rewrite app_nil_r.
  - destruct (Hall sh (or_introl eq_refl)) as [b Hb].
    unfold bind at 1. unfold bind at 1. rewrite Hb. unfold ret at 1.
    unfold in_period at 1. rewrite Hb.
    rewrite IH by (intros; apply Hall; now right).
    destruct b; [now rewrite <- app_assoc | reflexivity].
Qed.

(** X7. Without an end, absent or empty, [get_week] returns every shift
    and parses nothing, so that not even a malformed start is noticed.
    With an end, a call that returns gives exactly the shifts whose day is
    in the period, in their stored order. *)
Theorem get_week_selects :
  forall (shifts : list Shift.t) (start : string),
    get_week shifts start None = inl shifts
    /\ get_week shifts start (Some EmptyString) = inl shifts
    /\ forall (e : string) (out : list Shift.t),
         get_week shifts start (Some e) = inl out ->
         e <> EmptyString ->
         out = filter (in_period start e) shifts
         /\ forall sh, In sh out <->
                       In sh shifts
                       /\ within_period (Shift.day sh) start e = inl true.
Proof.
  intros shifts start. split; [reflexivity|]. split; [reflexivity|].
  intros e out H He. unfold get_week in H.
  destruct (String.eqb_spec e EmptyString) as [->|_]; [congruence|].
  assert (Hall : forall sh, In sh shifts ->
                   exists b, within_period (Shift.day sh) start e = inl b).
  { intros sh Hin.
    destruct (for_each_ok_inv _ _ _ _ _ H Hin) as (s1 & s2 & Hs).
    unfold bind in Hs.
    destruct (within_period (Shift.day sh) start e) as [b|]; [eauto|].
    discriminate. }
  rewrite (get_week_loop _ _ _ [] Hall) in H. injection H as <-.
  split; [reflexivity|]. intros sh. rewrite filter_In. unfold in_period.
  destruct (within_period (Shift.day sh) start e) as [[|]|];
    intuition congruence.
Qed.

Lemma get_week_selects_witness :
  get_week two_shifts "2024-06-01" (Some "2024-06-30"%string) = inl two_shifts
  /\ get_week two_shifts "2024-07-01" (Some "2024-07-31"%string) = inl [].
Proof.
  assert (H1 : get_week two_shifts "2024-06-01" (Some "2024-06-30"%string)
               = inl two_shifts) by (vm_compute; reflexivity).
  assert (H2 : get_week two_shifts "2024-07-01" (Some "2024-07-31"%string)
               = inl []) by (vm_compute; reflexivity).
  destruct (get_week_selects two_shifts "2024-06-01") as (_ & _ & Ha).
  destruct (get_week_selects two_shifts "2024-07-01") as (_ & _ & Hb).
  destruct (Ha _ _ H1) as [E1 _]; [discriminate|].
  destruct (Hb _ _ H2) as [E2 _]; [discriminate|].
  split; [exact H1 | exact H2].
Defined.

(** X8. With an end, [get_week] raises exactly when the period test raises
    for one of the stored shifts, and then it raises [ValueError]: on an
    empty store no period, however malformed, is ever reported. *)
Theorem get_week_raises :
  forall (shifts : list Shift.t) (start e : string) (err : error),
    e <> EmptyString ->
    (get_week shifts start (Some e) = inr err <->
     err = ValueError
     /\ exists sh, In sh shifts
                   /\ within_period (Shift.day sh) start e = inr ValueError)
    /\ get_week [] start (Some e) = inl [].
Proof.
  intros shifts start e err He. unfold get_week.
  destruct (String.eqb_spec e EmptyString) as [->|_]; [congruence|].
  split; [|reflexivity]. split.
  - intros H.
    apply for_each_error_inv in H as (pre & x & post & s' & -> & _ & Hx).
    unfold bind in Hx.
    destruct (within_period (Shift.day x) start e) as [b|e1] eqn:Ew;
      [discriminate|].
    injection Hx as <-.
    apply within_period_fails in Ew as Hw. destruct Hw as [-> _].
    split; [reflexivity|]. exists x. split; [apply in_elt|assumption].
  - intros (-> & sh & Hin & Hw).
    destruct (for_each _ shifts []) as [out|e1] eqn:Ef.
    + destruct (for_each_ok_inv _ _ _ _ _ Ef Hin) as (s1 & s2 & Hs).
      unfold bind in Hs. rewrite Hw in Hs. discriminate.
    + apply for_each_error_inv in Ef as (pre & x & post & s' & _ & _ & Hx).
      unfold bind in Hx.
      destruct (within_period (Shift.day x) start e) as [b|e2] eqn:Ew;
        [discriminate|].
      injection Hx as <-.
      apply within_period_fails in Ew as Hw'. destruct Hw' as [-> _].
      reflexivity.
Qed.

Lemma get_week_raises_witness :
  get_week two_shifts "2024-06-01" (Some "2024-06-31"%string)
  = inr ValueError
  /\ get_week [] "2024-06-01" (Some "2024-06-31"%string) = inl [].
Proof.
  destruct (get_week_raises two_shifts "2024-06-01" "2024-06-31" ValueError)
    as [Hiff Hempty]; [discriminate|].
  split; [|exact Hempty].
  apply Hiff. split; [reflexivity|].
  exists (shift_of 1 (Some 1) "09:00" "10:00").
  split; [now left | vm_compute; reflexivity].
Defined.

(** ** Dictionaries *)

Lemma dict_get_set_same {V} (d : dict V) (k : Z) (v : V) :
  dict_get (dict_set d k v) k = Some v.
Proof.
  induction d as [|[k' v'] d IH]; simpl.
  - now rewrite Z.eqb_refl.
  - destruct (Z.eqb_spec k k') as [->|Hne]; simpl.
    + now rewrite Z.eqb_refl.
    + destruct (Z.eqb_spec k k'); [congruence|assumption].
Qed.

Lemma dict_get_set_other {V} (d : dict V) (k k' : Z) (v : V) :
  k' <> k -> dict_get (dict_set d k v) k' = dict_get d k'.
Proof.
  intros Hne. induction d as [|[k0 v0] d IH]; simpl.
  - destruct (Z.eqb_spec k' k); [congruence|reflexivity].
  - destruct (Z.eqb_spec k k0) as [->|Hk]; simpl.
    + destruct (Z.eqb_spec k' k0); [congruence|reflexivity].
    + destruct (Z.eqb_spec k' k0); [reflexivity|assumption].
Qed.

Lemma dict_get_keys {V} (d : dict V) (k : Z) :
  In k (map fst d) <-> dict_get d k <> None.
Proof.
  induction d as [|[k' v'] d IH]; simpl; [tauto|].
  destruct (Z.eqb_spec k k') as [->|Hne].
  - split; [discriminate|auto].
  - rewrite <- IH. split; [intros [?|?]; [congruence|assumption]|auto].
Qed.

Lemma dict_set_keys {V} (d : dict V) (k k' : Z) (v : V) :
  In k' (map fst (dict_set d k v)) <-> k' = k \/ In k' (map fst d).
Proof.
  rewrite !dict_get_keys.
  destruct (Z.eq_dec k' k) as [->|Hne].
  - rewrite dict_get_set_same. split; [auto|discriminate].
  - rewrite dict_get_set_other by assumption. tauto.
Qed.

Lemma dict_set_NoDup {V} (d : dict V) (k : Z) (v : V) :
  NoDup (map fst d) -> NoDup (map fst (dict_set d k v)).
Proof.
  induction d as [|[k' v'] d IH]; simpl; intros Hnd.
  - constructor; [tauto|constructor].
  - inversion Hnd as [|? ? Hnot Hnd']; subst.
    destruct (Z.eqb_spec k k') as [->|Hne]; simpl.
    + now constructor.
    + constructor; [|auto]. rewrite dict_set_keys. intros [?|?]; congruence.
Qed.

(** ** The assignment pass, for any rates *)

Lemma insert_sorted_In {A} (key : A -> float) (x y : A) (l : list A) :
  In y (insert_sorted key x l) <-> y = x \/ In y l.
Proof.
  induction l as [|z l IH]; simpl; [intuition|].
  destruct (key z <? key x)%float; simpl; rewrite ?IH; intuition.
Qed.

Lemma sorted_In {A} (key : A -> float) (y : A) (l : list A) :
  In y (sorted key l) <-> In y l.
Proof.
  induction l as [|x l IH]; simpl; [tauto|].
  rewrite insert_sorted_In, IH. intuition.
Qed.

Lemma assign_shift_frame (employees : list Employee.t) (sh : Shift.t) :
  Shift.id (assign_shift employees sh) = Shift.id sh
  /\ Shift.day (assign_shift employees sh) = Shift.day sh
  /\ Shift.start (assign_shift employees sh) = Shift.start sh
  /\ Shift.end_ (assign_shift employees sh) = Shift.end_ sh
  /\ Shift.role (assign_shift employees sh) = Shift.role sh
  /\ Shift.expected_busyness (assign_shift employees sh)
     = Shift.expected_busyness sh
  /\ Shift.max_shift_hours (assign_shift employees sh)
     = Shift.max_shift_hours sh.
Proof.
  unfold assign_shift. destruct (Shift.employee_id sh); [tauto|].
  destruct (sorted _ _); simpl; tauto.
Qed.

(** What [assign_shift] does to the employee id. *)
Lemma assign_shift_cases (employees : list Employee.t) (sh : Shift.t) :
  (Shift.employee_id sh <> None /\ assign_shift employees sh = sh)
  \/ (Shift.employee_id sh = None /\ candidates employees sh = []
      /\ assign_shift employees sh = sh)
  \/ (Shift.employee_id sh = None
      /\ exists chosen, In chosen (candidates employees sh)
                        /\ assign_shift employees sh
                           = Shift.set_employee_id sh
                               (Some (Employee.id chosen))).
Proof.
  unfold assign_shift. destruct (Shift.employee_id sh) eqn:E.
  - left. split; [discriminate|reflexivity].
  - right. destruct (sorted _ _) as [|c rest] eqn:Es.
    + left. repeat split.
      destruct (candidates employees sh) as [|x l] eqn:Ec; [reflexivity|].
      assert (Hin : In x (sorted Employee.hourly_rate (x :: l)))
        by (apply sorted_In; now left).
      rewrite Es in Hin. destruct Hin.
    + right. split; [reflexivity|]. exists c. split; [|reflexivity].
      apply (sorted_In Employee.hourly_rate). rewrite Es. now left.
Qed.

Lemma assign_shift_idempotent (employees : list Employee.t) (sh : Shift.t) :
  assign_shift employees (assign_shift employees sh)
  = assign_shift employees sh.
Proof.
  destruct (assign_shift_cases employees sh)
    as [[_ H]|[(_ & _ & H)|(_ & c & _ & H)]].
  - now rewrite !H.
  - now rewrite !H.
  - rewrite H. reflexivity.
Qed.

(** X9. Running the assignment again changes nothing: after
    [generate_roster] a second run returns the same shifts.  The pass
    keeps the number and the order of the shifts, touches no field but the
    employee id, and leaves every shift that already had one as it was. *)
Theorem generate_roster_assignment_stable :
  forall (employees : list Employee.t) (shifts : list Shift.t)
         (r r' : TaxSuperRule.t),
    fst (generate_roster employees
           (fst (generate_roster employees shifts r)) r')
    = fst (generate_roster employees shifts r)
    /\ List.length (fst (generate_roster employees shifts r))
       = List.length shifts
    /\ forall (i : nat) (sh : Shift.t),
         nth_error shifts i = Some sh ->
         exists sh',
           nth_error (fst (generate_roster employees shifts r)) i = Some sh'
           /\ Shift.id sh' = Shift.id sh
           /\ Shift.day sh' = Shift.day sh
           /\ Shift.start sh' = Shift.start sh
           /\ Shift.end_ sh' = Shift.end_ sh
           /\ Shift.role sh' = Shift.role sh
           /\ Shift.expected_busyness sh' = Shift.expected_busyness sh
           /\ Shift.max_shift_hours sh' = Shift.max_shift_hours sh
           /\ (Shift.employee_id sh <> None -> sh' = sh).
Proof.
  intros employees shifts r r'. simpl. split; [|split].
  - rewrite map_map. apply map_ext. intros sh.
    apply assign_shift_idempotent.
  - apply length_map.
  - intros i sh Hi. exists (assign_shift employees sh).
    rewrite nth_error_map, Hi.
    destruct (assign_shift_frame employees sh) as (? & ? & ? & ? & ? & ? & ?).
    repeat (split; [auto; fail|]).
    intros Hsome. unfold assign_shift.
    destruct (Shift.employee_id sh); [reflexivity|congruence].
Qed.

Lemma generate_roster_assignment_stable_witness :
  exists sh',
    nth_error (fst (generate_roster baristas [open_barista_shift]
                                    TaxSuperRule.default)) 0 = Some sh'
    /\ Shift.id sh' = 1
    /\ Shift.day sh' = "2024-06-15"%string
    /\ Shift.start sh' = "09:00"%string
    /\ Shift.end_ sh' = "17:00"%string
    /\ Shift.role sh' = Some "barista"%string
    /\ Shift.expected_busyness sh' = med
    /\ Shift.max_shift_hours sh' = None
    /\ (Shift.employee_id open_barista_shift <> None ->
        sh' = open_barista_shift).
Proof.
  exact (proj2 (proj2 (generate_roster_assignment_stable
                         baristas [open_barista_shift] TaxSuperRule.default
                         TaxSuperRule.default))
               0%nat open_barista_shift eq_refl).
Defined.

(** X10. Whatever the hourly rates are: a shift that the pass assigns
    receives the id of a stored employee whose role is the shift's role
    (of any employee when the shift has none), and a shift is left
    unassigned only when no employee is a candidate for it. *)
Theorem generate_roster_assignment_sound :
  forall (employees : list Employee.t) (shifts : list Shift.t)
         (r : TaxSuperRule.t) (i : nat) (sh sh' : Shift.t),
    nth_error shifts i = Some sh ->
    nth_error (fst (generate_roster employees shifts r)) i = Some sh' ->
    Shift.employee_id sh = None ->
    (forall k, Shift.employee_id sh' = Some k ->
               exists e, In e employees /\ Employee.id e = k
                         /\ (Shift.role sh = None
                             \/ Employee.role e = Shift.role sh))
    /\ (Shift.employee_id sh' = None ->
        forall e, In e employees ->
                  Shift.role sh <> None
                  /\ Employee.role e <> Shift.role sh).
Proof.
  intros employees shifts r i sh sh' Hi Hi' Hnone.
  simpl in Hi'. rewrite nth_error_map, Hi in Hi'. injection Hi' as <-.
  destruct (assign_shift_cases employees sh)
    as [[Hs _]|[(_ & Hc & ->)|(_ & c & Hin & ->)]]; [congruence| |].
  - split; [intros k Hk; congruence|].
    intros _ e He.
    assert (Hnot : ~ In e (candidates employees sh))
      by (rewrite Hc; simpl; tauto).
    rewrite candidates_spec in Hnot. tauto.
  - simpl. split; [|discriminate].
    intros k [= <-]. apply candidates_spec in Hin. exists c. tauto.
Qed.

Lemma generate_roster_assignment_sound_witness :
  exists e, In e baristas /\ Employee.id e = 1
            /\ (Shift.role open_barista_shift = None
                \/ Employee.role e = Shift.role open_barista_shift).
Proof.
  exact (proj1 (generate_roster_assignment_sound
                  baristas [open_barista_shift] TaxSuperRule.default 0%nat
                  open_barista_shift
                  (Shift.set_employee_id open_barista_shift (Some 1))
                  eq_refl eq_refl eq_refl) 1 eq_refl).
Defined.

(** ** The totals snapshot, errors *)

(** A loop whose body cannot raise on the elements of the list returns. *)
Lemma for_each_all_ok {A S} (body : S -> A -> result S) (l : list A) (s : S) :
  (forall x, In x l -> forall s0, exists s1, body s0 x = inl s1) ->
  exists out, for_each body l s = inl out.
Proof.
  revert s. induction l as [|a l IH]; intros s Hall; simpl; [eexists; reflexivity|].
  destruct (Hall a (or_introl eq_refl) s) as [s1 Hs1].
  unfold bind. rewrite Hs1. apply IH. intros x Hx. apply Hall. now right.
Qed.

Lemma truthy_spec (o : option Z) :
  truthy o = true <-> exists k, o = Some k /\ k <> 0.
Proof.
  unfold truthy. destruct o as [k|].
  - destruct (Z.eqb_spec k 0) as [->|Hne]; simpl.
    + split; [discriminate|]. intros (k & [= <-] & Hk). congruence.
    + split; [eauto|reflexivity].
  - split; [discriminate|]. intros (k & [=] & _).
Qed.

(** One turn of the hours loop of the totals snapshot. *)
Lemma roster_hours_step_ok (acc acc' : dict float) (sh : Shift.t) :
  roster_hours_step acc sh = inl acc' ->
  (truthy (Shift.employee_id sh) = false /\ acc' = acc)
  \/ (exists k h,
        Shift.employee_id sh = Some k /\ k <> 0
        /\ hours_between (Shift.start sh) (Shift.end_ sh) = inl h
        /\ acc' = dict_set acc k (dict_get_default acc k 0 + h)%float).
Proof.
  unfold roster_hours_step.
  destruct (truthy (Shift.employee_id sh)) eqn:Et; simpl.
  - apply truthy_spec in Et as (k & Ek & Hk). rewrite Ek. unfold bind.
    destruct (hours_between _ _) as [h|]; [|discriminate].
    intros [= <-]. right. exists k, h. auto.
  - intros [= <-]. now left.
Qed.

Lemma roster_hours_step_error (acc : dict float) (sh : Shift.t) (e : error) :
  roster_hours_step acc sh = inr e ->
  e = ValueError /\ truthy (Shift.employee_id sh) = true
  /\ malformed_times sh.
Proof.
  unfold roster_hours_step.
  destruct (truthy (Shift.employee_id sh)) eqn:Et; simpl; [|discriminate].
  apply truthy_spec in Et as (k & Ek & Hk). rewrite Ek. unfold bind.
  destruct (hours_between _ _) as [h|e1] eqn:Eh; [discriminate|].
  intros [= <-]. apply hours_between_fails in Eh as (-> & Hm). auto.
Qed.

Lemma roster_hours_step_malformed (acc : dict float) (sh : Shift.t) :
  truthy (Shift.employee_id sh) = true -> malformed_times sh ->
  roster_hours_step acc sh = inr ValueError.
Proof.
  intros Et Hm. unfold roster_hours_step. rewrite Et. simpl.
  apply truthy_spec in Et as (k & -> & _). unfold bind.
  assert (Hr : hours_between (Shift.start sh) (Shift.end_ sh)
               = inr ValueError) by (apply hours_between_fails; auto).
  now rewrite Hr.
Qed.

(** The employees that the hours map of the totals snapshot knows. *)
Lemma roster_hours_keys (l : list Shift.t) (acc hm : dict float) (k : Z) :
  for_each roster_hours_step l acc = inl hm ->
  (In k (map fst hm) <->
   In k (map fst acc)
   \/ exists sh, In sh l /\ Shift.employee_id sh = Some k /\ k <> 0).
Proof.
  revert acc. induction l as [|sh l IH]; intros acc; simpl.
  - intros [= <-]. split; [auto|]. intros [?|(sh & [] & _)]. assumption.
  - unfold bind. destruct (roster_hours_step acc sh) as [acc'|] eqn:Es;
      [|discriminate].
    intros H. rewrite (IH _ H).
    apply roster_hours_step_ok in Es
      as [[Et ->]|(k' & h & Ek & Hk & _ & ->)].
    + split.
      * intros [?|(x & ? & ? & ?)]; [auto|]. right. exists x. auto.
      * intros [?|(x & [<-|?] & Ex & Hx)]; [auto| |].
        -- assert (truthy (Shift.employee_id sh) = true)
             by (apply truthy_spec; eauto).
           congruence.
        -- right. exists x. auto.
    + rewrite dict_set_keys. split.
      * intros [[->|?]|(x & ? & ? & ?)]; [|auto|].
        -- right. exists sh. auto.
        -- right. exists x. auto.
      * intros [?|(x & [<-|?] & Ex & Hx)]; [auto| |].
        -- left. left. congruence.
        -- right. exists x. auto.
Qed.

Lemma roster_totals_step_error (employees : list Employee.t)
      (r : TaxSuperRule.t) (acc : Totals.t) (item : Z * float) (e : error) :
  roster_totals_step employees r acc item = inr e ->
  e = AttributeError /\ get_employee employees (fst item) = None.
Proof.
  unfold roster_totals_step. destruct item as [k h]. simpl.
  destruct (get_employee employees k); [discriminate|].
  intros [= <-]. auto.
Qed.

Lemma roster_totals_step_ok (employees : list Employee.t)
      (r : TaxSuperRule.t) (acc : Totals.t) (item : Z * float) :
  get_employee employees (fst item) <> None ->
  exists acc', roster_totals_step employees r acc item = inl acc'.
Proof.
  unfold roster_totals_step. destruct item as [k h]. simpl.
  destruct (get_employee employees k); [eexists; reflexivity|congruence].
Qed.

Lemma in_keys {V} (d : dict V) (k : Z) :
  In k (map fst d) <-> exists v, In (k, v) d.
Proof.
  rewrite in_map_iff. split.
  - intros ([k' v] & <- & Hin). eauto.
  - intros (v & Hin). exists (k, v). auto.
Qed.

(** The errors of the totals of any list of shifts. *)
Lemma roster_totals_errors (employees : list Employee.t)
      (shifts : list Shift.t) (r : TaxSuperRule.t) :
  (forall e, roster_totals employees shifts r = inr e ->
             e = ValueError \/ e = AttributeError)
  /\ (roster_totals employees shifts r = inr ValueError <->
      exists sh, In sh shifts /\ truthy (Shift.employee_id sh) = true
                 /\ malformed_times sh)
  /\ (roster_totals employees shifts r = inr AttributeError <->
      (forall sh, In sh shifts -> truthy (Shift.employee_id sh) = true ->
                  ~ malformed_times sh)
      /\ exists sh k, In sh shifts /\ Shift.employee_id sh = Some k
                      /\ k <> 0 /\ get_employee employees k = None).
Proof.
  unfold roster_totals, bind.
  destruct (for_each roster_hours_step shifts []) as [hm|e1] eqn:Eh.
  - (* the hours loop returned *)
    assert (Hfine : forall sh, In sh shifts ->
                      truthy (Shift.employee_id sh) = true ->
                      ~ malformed_times sh).
    { intros sh Hin Ht Hm.
      destruct (for_each_ok_inv _ _ _ _ _ Eh Hin) as (s1 & s2 & Hs).
      rewrite (roster_hours_step_malformed s1 sh Ht Hm) in Hs. discriminate. }
    destruct (for_each (roster_totals_step employees r) hm Totals.zero)
      as [t|e2] eqn:Et.
    + split; [discriminate|]. split; (split; [discriminate|]).
      * intros (sh & Hin & Ht & Hm). exfalso. eapply Hfine; eauto.
      * intros (_ & sh & k & Hin & Ek & Hk & Hnone). exfalso.
        assert (Hkey : In k (map fst hm)).
        { apply (roster_hours_keys _ _ _ k Eh). right. exists sh. auto. }
        apply in_keys in Hkey as (v & Hv).
        destruct (for_each_ok_inv _ _ _ _ _ Et Hv) as (s1 & s2 & Hs).
        unfold roster_totals_step in Hs. rewrite Hnone in Hs. discriminate.
    + apply for_each_error_inv in Et as (pre & x & post & s' & -> & _ & Hx).
      apply roster_totals_step_error in Hx as (-> & Hnone).
      split; [intros e [= <-]; auto|]. split; (split; [try discriminate|]).
      * intros (sh & Hin & Ht & Hm). exfalso. eapply Hfine; eauto.
      * intros _. split; [exact Hfine|].
        assert (Hkey : In (fst x) (map fst (pre ++ x :: post)))
          by (apply in_map, in_elt).
        apply (roster_hours_keys _ _ _ _ Eh) in Hkey
          as [[]|(sh & Hin & Ek & Hk)].
        exists sh, (fst x). auto.
      * reflexivity.
  - (* the hours loop raised *)
    apply for_each_error_inv in Eh as (pre & x & post & s' & -> & _ & Hx).
    apply roster_hours_step_error in Hx as (-> & Ht & Hm).
    split; [intros e [= <-]; auto|]. split; (split; [try discriminate|]).
    + intros _. exists x. split; [apply in_elt|auto].
    + reflexivity.
    + intros (Hfine & _). exfalso. apply (Hfine x); auto. apply in_elt.
Qed.

(** X11. The totals of [generate_roster] raise [ValueError] exactly when,
    after the assignment, some shift with a true employee id has a start or
    an end that does not parse; no other shift is ever parsed.  The
    assignments were committed before, and are returned all the same. *)
Theorem generate_roster_value_error :
  forall (employees : list Employee.t) (shifts : list Shift.t)
         (r : TaxSuperRule.t),
    (snd (generate_roster employees shifts r) = inr ValueError <->
     exists sh, In sh (fst (generate_roster employees shifts r))
                /\ truthy (Shift.employee_id sh) = true
                /\ malformed_times sh)
    /\ fst (generate_roster employees shifts r)
       = map (assign_shift employees) shifts.
Proof.
  intros employees shifts r. split; [|reflexivity].
  apply (roster_totals_errors employees
           (fst (generate_roster employees shifts r)) r).
Qed.

Lemma generate_roster_value_error_witness :
  snd (generate_roster two_employees
         [shift_of 1 (Some 1) "09:00" "25:00"] TaxSuperRule.default)
  = inr ValueError.
Proof.
  apply generate_roster_value_error.
  exists (shift_of 1 (Some 1) "09:00" "25:00").
  split; [now left|]. split; [reflexivity|].
  right. vm_compute. reflexivity.
Defined.

(** X12. The totals of [generate_roster] raise [AttributeError] exactly
    when every time that is parsed is well formed and some shift carries a
    true employee id that no stored employee has; these two are the only
    errors of the totals. *)
Theorem generate_roster_attribute_error :
  forall (employees : list Employee.t) (shifts : list Shift.t)
         (r : TaxSuperRule.t),
    (snd (generate_roster employees shifts r) = inr AttributeError <->
     (forall sh, In sh (fst (generate_roster employees shifts r)) ->
                 truthy (Shift.employee_id sh) = true ->
                 ~ malformed_times sh)
     /\ exists sh k, In sh (fst (generate_roster employees shifts r))
                     /\ Shift.employee_id sh = Some k /\ k <> 0
                     /\ get_employee employees k = None)
    /\ (forall e, snd (generate_roster employees shifts r) = inr e ->
                  e = ValueError \/ e = AttributeError).
Proof.
  intros employees shifts r.
  destruct (roster_totals_errors employees
              (fst (generate_roster employees shifts r)) r)
    as (Hk & _ & Ha).
  split; [exact Ha | exact Hk].
Qed.

Lemma generate_roster_attribute_error_witness :
  snd (generate_roster two_employees
         [shift_of 1 (Some 7) "09:00" "17:00"] TaxSuperRule.default)
  = inr AttributeError.
Proof.
  apply generate_roster_attribute_error. split.
  - intros sh [<-|[]] _ [H|H]; vm_compute in H; discriminate.
  - exists (shift_of 1 (Some 7) "09:00" "17:00"), 7.
    split; [now left|]. repeat split. discriminate.
Defined.

Lemma get_employee_found (employees : list Employee.t) (e : Employee.t) :
  In e employees -> get_employee employees (Employee.id e) <> None.
Proof.
  intros Hin Hnone. unfold get_employee in Hnone.
  apply (find_none _ _ Hnone) in Hin. rewrite Z.eqb_refl in Hin.
  discriminate.
Qed.

(** X13. If the start and the end of every stored shift parse and every
    shift that comes with a true employee id names a stored employee, the
    totals of [generate_roster] are returned: the assignments the pass
    makes cannot make them fail. *)
Theorem generate_roster_totals_returned :
  forall (employees : list Employee.t) (shifts : list Shift.t)
         (r : TaxSuperRule.t),
    (forall sh, In sh shifts -> ~ malformed_times sh) ->
    (forall sh k, In sh shifts -> Shift.employee_id sh = Some k -> k <> 0 ->
                  exists e, In e employees /\ Employee.id e = k) ->
    exists totals, snd (generate_roster employees shifts r) = inl totals.
Proof.
  intros employees shifts r Htimes Hids.
  destruct (snd (generate_roster employees shifts r)) as [t|e] eqn:E;
    [eauto|exfalso].
  destruct (roster_totals_errors employees
              (fst (generate_roster employees shifts r)) r)
    as (Hk & Hv & Ha).
  change (roster_totals employees (fst (generate_roster employees shifts r)) r
          = inr e) in E.
  destruct (Hk _ E) as [->| ->].
  - apply Hv in E as (sh' & Hin & _ & Hm).
    simpl in Hin. apply in_map_iff in Hin as (sh & <- & Hin).
    apply (Htimes sh Hin). unfold malformed_times in *.
    destruct (assign_shift_frame employees sh) as (_ & _ & Es & Ee & _).
    now rewrite <- Es, <- Ee.
  - apply Ha in E as (_ & sh' & k & Hin & Ek & Hk0 & Hnone).
    simpl in Hin. apply in_map_iff in Hin as (sh & <- & Hin).
    destruct (assign_shift_cases employees sh)
      as [[_ H]|[(_ & _ & H)|(_ & c & Hc & H)]]; rewrite H in Ek.
    + destruct (Hids sh k Hin Ek Hk0) as (e & He & <-).
      now apply (get_employee_found employees e).
    + destruct (Hids sh k Hin Ek Hk0) as (e & He & <-).
      now apply (get_employee_found employees e).
    + simpl in Ek. injection Ek as <-.
      apply candidates_spec in Hc as [Hc _].
      now apply (get_employee_found employees c).
Qed.

Lemma generate_roster_totals_returned_witness :
  exists totals,
    snd (generate_roster baristas [open_barista_shift] TaxSuperRule.default)
    = inl totals.
Proof.
  apply generate_roster_totals_returned.
  - intros sh [<-|[]] [H|H]; vm_compute in H; discriminate.
  - intros sh k [<-|[]] H. discriminate.
Defined.

(** ** Payroll, the hours of the period *)

Lemma payroll_hours_step_ok (req : PayrollReq.t) (acc acc' : dict float)
      (sh : Shift.t) :
  payroll_hours_step req acc sh = inl acc' ->
  (truthy (Shift.employee_id sh) = false /\ acc' = acc)
  \/ (within_period (Shift.day sh) (PayrollReq.period_start req)
                    (PayrollReq.period_end req) = inl false
      /\ acc' = acc)
  \/ (exists k h,
        Shift.employee_id sh = Some k /\ k <> 0
        /\ within_period (Shift.day sh) (PayrollReq.period_start req)
                         (PayrollReq.period_end req) = inl true
        /\ hours_between (Shift.start sh) (Shift.end_ sh) = inl h
        /\ acc' = dict_set acc k (dict_get_default acc k 0 + h)%float).
Proof.
  unfold payroll_hours_step.
  destruct (truthy (Shift.employee_id sh)) eqn:Et; simpl.
  - apply truthy_spec in Et as (k & Ek & Hk). rewrite Ek. unfold bind.
    destruct (within_period _ _ _) as [[|]|]; [| |discriminate].
    + destruct (hours_between _ _) as [h|]; [|discriminate].
      intros [= <-]. right. right. exists k, h. auto.
    + intros [= <-]. right. left. auto.
  - intros [= <-]. now left.
Qed.

Lemma payroll_hours_step_error (req : PayrollReq.t) (acc : dict float)
      (sh : Shift.t) (e : error) :
  payroll_hours_step req acc sh = inr e ->
  e = ValueError /\ payroll_blocked req sh.
Proof.
  unfold payroll_hours_step, payroll_blocked.
  destruct (truthy (Shift.employee_id sh)) eqn:Et; simpl; [|discriminate].
  apply truthy_spec in Et as (k & Ek & Hk). rewrite Ek. unfold bind.
  destruct (within_period _ _ _) as [[|]|e1] eqn:Ew; [| discriminate |].
  - destruct (hours_between _ _) as [h|e2] eqn:Eh; [discriminate|].
    intros [= <-]. apply hours_between_fails in Eh as (-> & Hm). auto.
  - intros [= <-]. apply within_period_fails in Ew as Hw.
    destruct Hw as [-> _]. auto.
Qed.

Lemma payroll_hours_step_blocked (req : PayrollReq.t) (acc : dict float)
      (sh : Shift.t) :
  payroll_blocked req sh -> payroll_hours_step req acc sh = inr ValueError.
Proof.
  intros (Et & Hb). unfold payroll_hours_step. rewrite Et. simpl.
  apply truthy_spec in Et as (k & -> & _). unfold bind.
  destruct Hb as [Hw|(Hw & Hm)]; rewrite Hw; [reflexivity|].
  assert (Hr : hours_between (Shift.start sh) (Shift.end_ sh)
               = inr ValueError) by (apply hours_between_fails; auto).
  now rewrite Hr.
Qed.

(** The employees that the hours map of a payroll run knows. *)
Lemma payroll_hours_keys (req : PayrollReq.t) (l : list Shift.t)
      (acc hm : dict float) (k : Z) :
  for_each (payroll_hours_step req) l acc = inl hm ->
  (In k (map fst hm) <->
   In k (map fst acc)
   \/ exists sh, In sh l /\ Shift.employee_id sh = Some k /\ k <> 0
                 /\ within_period (Shift.day sh)
                                  (PayrollReq.period_start req)
                                  (PayrollReq.period_end req) = inl true).
Proof.
  revert acc. induction l as [|sh l IH]; intros acc; simpl.
  - intros [= <-]. split; [auto|]. intros [?|(sh & [] & _)]. assumption.
  - unfold bind. destruct (payroll_hours_step req acc sh) as [acc'|] eqn:Es;
      [|discriminate].
    intros H. rewrite (IH _ H).
    apply payroll_hours_step_ok in Es
      as [[Et ->]|[[Ew ->]|(k' & h & Ek & Hk & Ew & _ & ->)]].
    + split.
      * intros [?|(x & ? & ? & ? & ?)]; [auto|]. right. exists x. auto.
      * intros [?|(x & [<-|?] & Ex & Hx & Ew')]; [auto| |].
        -- assert (truthy (Shift.employee_id sh) = true)
             by (apply truthy_spec; eauto).
           congruence.
        -- right. exists x. auto.
    + split.
      * intros [?|(x & ? & ? & ? & ?)]; [auto|]. right. exists x. auto.
      * intros [?|(x & [<-|?] & Ex & Hx & Ew')]; [auto|congruence|].
        right. exists x. auto.
    + rewrite dict_set_keys. split.
      * intros [[->|?]|(x & ? & ? & ? & ?)]; [|auto|].
        -- right. exists sh. auto.
        -- right. exists x. auto.
      * intros [?|(x & [<-|?] & Ex & Hx & Ew')]; [auto| |].
        -- left. left. congruence.
        -- right. exists x. auto.
Qed.

Lemma payroll_hours_NoDup (req : PayrollReq.t) (l : list Shift.t)
      (acc hm : dict float) :
  for_each (payroll_hours_step req) l acc = inl hm ->
  NoDup (map fst acc) -> NoDup (map fst hm).
Proof.
  revert acc. induction l as [|sh l IH]; intros acc; simpl.
  - now intros [= <-].
  - unfold bind. destruct (payroll_hours_step req acc sh) as [acc'|] eqn:Es;
      [|discriminate].
    intros H Hnd. apply (IH _ H).
    apply payroll_hours_step_ok in Es
      as [[_ ->]|[[_ ->]|(k' & h & _ & _ & _ & _ & ->)]]; auto.
    now apply dict_set_NoDup.
Qed.

(** The hours of an employee, from any accumulated map. *)
Lemma payroll_hours_grouped_from (req : PayrollReq.t) (k : Z)
      (l : list Shift.t) (acc hm : dict float) :
  for_each (payroll_hours_step req) l acc = inl hm ->
  dict_get hm k
  = match flat_map (contribution req k) l with
    | [] => dict_get acc k
    | hs => Some (fold_left PrimFloat.add hs (dict_get_default acc k 0%float))
    end.
Proof.
  revert acc. induction l as [|sh l IH]; intros acc; simpl.
  - now intros [= <-].
  - unfold bind. destruct (payroll_hours_step req acc sh) as [acc'|] eqn:Es;
      [|discriminate].
    intros H. rewrite (IH _ H). clear IH H.
    apply payroll_hours_step_ok in Es
      as [[Et ->]|[[Ew ->]|(k' & h & Ek & Hk & Ew & Eh & ->)]].
    + assert (Ec : contribution req k sh = []).
      { unfold contribution.
        destruct (Shift.employee_id sh) as [k'|] eqn:Ek; [|reflexivity].
        destruct (Z.eqb_spec k' k) as [->|]; [|reflexivity].
        destruct (Z.eqb_spec k 0) as [->|Hk]; [reflexivity|].
        assert (truthy (Some k) = true) by (apply truthy_spec; eauto).
        congruence. }
      now rewrite Ec.
    + assert (Ec : contribution req k sh = []).
      { unfold contribution. rewrite Ew.
        destruct (Shift.employee_id sh); [|reflexivity].
        destruct (_ && _); reflexivity. }
      now rewrite Ec.
    + destruct (Z.eq_dec k' k) as [->|Hne].
      * assert (Ec : contribution req k sh = [h]).
        { unfold contribution. rewrite Ek, Ew, Eh, Z.eqb_refl.
          destruct (Z.eqb_spec k 0); [congruence|reflexivity]. }
        rewrite Ec. simpl app.
        assert (Hd : forall v : float,
                   dict_get_default (dict_set acc k v) k 0%float = v)
          by (intros v; unfold dict_get_default;
              now rewrite dict_get_set_same).
        rewrite Hd, dict_get_set_same.
        destruct (flat_map (contribution req k) l); reflexivity.
      * assert (Ec : contribution req k sh = []).
        { unfold contribution. rewrite Ek.
          destruct (Z.eqb_spec k' k); [congruence|reflexivity]. }
        rewrite Ec. simpl app. unfold dict_get_default.
        rewrite dict_get_set_other by congruence. reflexivity.
Qed.

(** X14. The hours of a payroll run are grouped by employee: the total of
    employee [k] is the sum, started at 0.0 and taken in stored order, of
    the elapsed hours of the shifts that are assigned to [k] and whose day
    is in the period; an employee without such a shift, and the id 0, have
    no entry. *)
Theorem payroll_hours_grouped :
  forall (shifts : list Shift.t) (req : PayrollReq.t) (hm : dict float)
         (k : Z),
    payroll_hours shifts req = inl hm ->
    dict_get hm k
    = match flat_map (contribution req k) shifts with
      | [] => None
      | hs => Some (sum_floats hs)
      end
    /\ dict_get hm 0 = None.
Proof.
  intros shifts req hm k H. unfold payroll_hours in H. split.
  - apply (payroll_hours_grouped_from req k) in H. exact H.
  - apply (payroll_hours_grouped_from req 0) in H. rewrite H.
    assert (Hz : flat_map (contribution req 0) shifts = []).
    { clear H. induction shifts as [|sh l IH]; [reflexivity|]. simpl.
      rewrite IH, app_nil_r. unfold contribution.
      destruct (Shift.employee_id sh); [|reflexivity].
      now rewrite andb_false_r. }
    now rewrite Hz.
Qed.

Lemma payroll_hours_grouped_witness :
  dict_get [(1, 2%float)] 1 = Some (sum_floats [1%float; 1%float])
  /\ dict_get [(1, 2%float)] 0 = None.
Proof.
  pose proof (payroll_hours_grouped
                [shift_of 1 (Some 1) "09:00" "10:00";
                 shift_of 2 (Some 0) "09:00" "17:00";
                 shift_of 3 (Some 1) "13:00" "14:00"]
                june [(1, 2%float)] 1) as H.
  apply H. vm_compute. reflexivity.
Defined.

(** X15. When the day of every shift with a true employee id is in the
    period, the payroll run and the totals snapshot of the roster work on
    the same hours per employee. *)
Theorem payroll_hours_of_whole_roster :
  forall (shifts : list Shift.t) (req : PayrollReq.t),
    (forall sh, In sh shifts -> truthy (Shift.employee_id sh) = true ->
                within_period (Shift.day sh) (PayrollReq.period_start req)
                              (PayrollReq.period_end req) = inl true) ->
    payroll_hours shifts req = for_each roster_hours_step shifts [].
Proof.
  intros shifts req. unfold payroll_hours. generalize (@nil (Z * float)).
  induction shifts as [|sh l IH]; intros acc Hall; simpl; [reflexivity|].
  assert (Es : payroll_hours_step req acc sh = roster_hours_step acc sh).
  { unfold payroll_hours_step, roster_hours_step.
    destruct (truthy (Shift.employee_id sh)) eqn:Et; [|reflexivity].
    simpl. rewrite (Hall sh (or_introl eq_refl) Et).
    destruct (Shift.employee_id sh); reflexivity. }
  rewrite Es. unfold bind. destruct (roster_hours_step acc sh); [|reflexivity].
  apply IH. intros x Hx. apply Hall. now right.
Qed.

Lemma payroll_hours_of_whole_roster_witness :
  payroll_hours two_shifts june = for_each roster_hours_step two_shifts [].
Proof.
  apply payroll_hours_of_whole_roster.
  intros sh [<-|[<-|[]]] _; vm_compute; reflexivity.
Defined.

(** ** Payroll, the lines *)

Lemma employees_by_id_fold (l : list Employee.t) (d : dict Employee.t)
      (k : Z) :
  (forall emp, dict_get
                 (fold_left (fun d e => dict_set d (Employee.id e) e) l d) k
               = Some emp ->
               (In emp l /\ Employee.id emp = k) \/ dict_get d k = Some emp)
  /\ (dict_get (fold_left (fun d e => dict_set d (Employee.id e) e) l d) k
      = None ->
      dict_get d k = None /\ forall e, In e l -> Employee.id e <> k).
Proof.
  revert d. induction l as [|e l IH]; intros d; simpl.
  - split; [auto|]. intros H. split; [assumption|tauto].
  - destruct (IH (dict_set d (Employee.id e) e)) as [IH1 IH2]. split.
    + intros emp H. destruct (IH1 emp H) as [[Hin Hid]|Hd]; [auto|].
      destruct (Z.eq_dec k (Employee.id e)) as [->|Hne].
      * rewrite dict_get_set_same in Hd. injection Hd as <-. auto.
      * rewrite dict_get_set_other in Hd by assumption. auto.
    + intros H. destruct (IH2 H) as [Hd Hl].
      destruct (Z.eq_dec k (Employee.id e)) as [->|Hne].
      * rewrite dict_get_set_same in Hd. discriminate.
      * rewrite dict_get_set_other in Hd by assumption.
        split; [assumption|]. intros x [<-|Hx]; [congruence|auto].
Qed.

Lemma employees_by_id_get (employees : list Employee.t) (k : Z)
      (emp : Employee.t) :
  dict_get (employees_by_id employees) k = Some emp ->
  In emp employees /\ Employee.id emp = k.
Proof.
  intros H. destruct (proj1 (employees_by_id_fold employees [] k) emp H)
    as [?|Hd]; [assumption|discriminate].
Qed.

Lemma employees_by_id_none (employees : list Employee.t) (k : Z) :
  dict_get (employees_by_id employees) k = None <->
  forall e, In e employees -> Employee.id e <> k.
Proof.
  split.
  - intros H. apply (proj2 (employees_by_id_fold employees [] k) H).
  - intros Hall.
    destruct (dict_get (employees_by_id employees) k) as [emp|] eqn:E;
      [|reflexivity].
    apply employees_by_id_get in E as [Hin Hid].
    exfalso. now apply (Hall emp).
Qed.

Lemma pay_line_ok (employees : dict Employee.t) (r : TaxSuperRule.t)
      (req : PayrollReq.t) (item : Z * float) (line : PayLine.t) :
  pay_line employees r req item = inl line ->
  exists emp,
    dict_get employees (fst item) = Some emp
    /\ PayLine.employee_id line = fst item
    /\ PayLine.hours line = snd item
    /\ PayLine.pay_method line
       = if EmploymentType_eqb (Employee.employment_type emp) ABN
         then PayrollReq.default_pay_method req
         else Employee.pay_preference emp.
Proof.
  unfold pay_line. destruct item as [k h]. simpl.
  destruct (dict_get employees k) as [emp|]; [|discriminate].
  intros [= <-]. exists emp. simpl.
  destruct (EmploymentType_eqb _ _); auto.
Qed.

Lemma pay_line_error (employees : dict Employee.t) (r : TaxSuperRule.t)
      (req : PayrollReq.t) (item : Z * float) (e : error) :
  pay_line employees r req item = inr e ->
  e = KeyError /\ dict_get employees (fst item) = None.
Proof.
  unfold pay_line. destruct item as [k h]. simpl.
  destruct (dict_get employees k); [discriminate|].
  intros [= <-]. auto.
Qed.

Lemma payroll_lines_step_error (employees : dict Employee.t)
      (r : TaxSuperRule.t) (req : PayrollReq.t) (lines : list PayLine.t)
      (item : Z * float) (e : error) :
  (line <- pay_line employees r req item ;; ret (lines ++ [line])) = inr e ->
  e = KeyError /\ dict_get employees (fst item) = None.
Proof.
  unfold bind. destruct (pay_line employees r req item) eqn:El;
    [discriminate|].
  intros [= <-]. eauto using pay_line_error.
Qed.

(** The errors of a payroll run. *)
Lemma payroll_calc_errors (employees : list Employee.t)
      (shifts : list Shift.t) (r : TaxSuperRule.t) (req : PayrollReq.t) :
  (forall e, payroll_calc employees shifts r req = inr e ->
             e = ValueError \/ e = KeyError)
  /\ (payroll_calc employees shifts r req = inr ValueError <->
      exists sh, In sh shifts /\ payroll_blocked req sh)
  /\ (payroll_calc employees shifts r req = inr KeyError <->
      (forall sh, In sh shifts -> ~ payroll_blocked req sh)
      /\ exists sh k,
           In sh shifts /\ Shift.employee_id sh = Some k /\ k <> 0
           /\ within_period (Shift.day sh) (PayrollReq.period_start req)
                            (PayrollReq.period_end req) = inl true
           /\ forall e, In e employees -> Employee.id e <> k).
Proof.
  unfold payroll_calc, payroll_hours, payroll_lines, bind.
  destruct (for_each (payroll_hours_step req) shifts []) as [hm|e1] eqn:Eh.
  - assert (Hfine : forall sh, In sh shifts -> ~ payroll_blocked req sh).
    { intros sh Hin Hb.
      destruct (for_each_ok_inv _ _ _ _ _ Eh Hin) as (s1 & s2 & Hs).
      rewrite (payroll_hours_step_blocked req s1 sh Hb) in Hs.
      discriminate. }
    match goal with
    | |- context [for_each ?body hm []] =>
        destruct (for_each body hm []) as [ls|e2] eqn:El
    end.
    + split; [discriminate|]. split; (split; [discriminate|]).
      * intros (sh & Hin & Hb). exfalso. eapply Hfine; eauto.
      * intros (_ & sh & k & Hin & Ek & Hk & Ew & Hnone). exfalso.
        assert (Hkey : In k (map fst hm)).
        { apply (payroll_hours_keys req _ _ _ k Eh). right. exists sh. auto. }
        apply in_keys in Hkey as (v & Hv).
        destruct (for_each_ok_inv _ _ _ _ _ El Hv) as (s1 & s2 & Hs).
        unfold bind in Hs.
        destruct (pay_line _ r req (k, v)) as [line|] eqn:Ep; [|discriminate].
        apply pay_line_ok in Ep as (emp & Hget & _).
        apply employees_by_id_get in Hget as [Hin' Hid].
        now apply (Hnone emp).
    + apply for_each_error_inv in El as (pre & x & post & s' & -> & _ & Hx).
      apply payroll_lines_step_error in Hx as (-> & Hnone).
      split; [intros e [= <-]; auto|].
      split; (split; [try discriminate|]).
      * intros (sh & Hin & Hb). exfalso. eapply Hfine; eauto.
      * intros _. split; [exact Hfine|].
        assert (Hkey : In (fst x) (map fst (pre ++ x :: post)))
          by (apply in_map, in_elt).
        apply (payroll_hours_keys req _ _ _ _ Eh) in Hkey
          as [[]|(sh & Hin & Ek & Hk & Ew)].
        exists sh, (fst x). repeat (split; [assumption|]).
        now apply employees_by_id_none.
      * reflexivity.
  - apply for_each_error_inv in Eh as (pre & x & post & s' & -> & _ & Hx).
    apply payroll_hours_step_error in Hx as (-> & Hb).
    split; [intros e [= <-]; auto|].
    split; (split; [try discriminate|]).
    + intros _. exists x. split; [apply in_elt|auto].
    + reflexivity.
    + intros (Hfine & _). exfalso. apply (Hfine x); auto. apply in_elt.
Qed.

(** X16. A payroll run raises [ValueError] exactly when some shift with a
    true employee id has a day for which the period test raises, or has a
    day in the period and a time that does not parse; shifts outside the
    period, unassigned shifts and shifts of employee id 0 never make it
    fail, whatever their times are. *)
Theorem payroll_calc_value_error :
  forall (employees : list Employee.t) (shifts : list Shift.t)
         (r : TaxSuperRule.t) (req : PayrollReq.t),
    payroll_calc employees shifts r req = inr ValueError <->
    exists sh,
      In sh shifts
      /\ truthy (Shift.employee_id sh) = true
      /\ (within_period (Shift.day sh) (PayrollReq.period_start req)
                        (PayrollReq.period_end req) = inr ValueError
          \/ (within_period (Shift.day sh) (PayrollReq.period_start req)
                            (PayrollReq.period_end req) = inl true
              /\ malformed_times sh)).
Proof.
  intros employees shifts r req.
  apply (payroll_calc_errors employees shifts r req).
Qed.

Lemma payroll_calc_value_error_witness :
  payroll_calc two_employees [shift_of 1 (Some 1) "09:00" "25:00"]
               TaxSuperRule.default june
  = inr ValueError.
Proof.
  apply payroll_calc_value_error.
  exists (shift_of 1 (Some 1) "09:00" "25:00").
  split; [now left|]. split; [reflexivity|]. right.
  split; [vm_compute; reflexivity|]. right. vm_compute. reflexivity.
Defined.

(** X17. A payroll run raises [KeyError] exactly when its hours loop does
    not raise and some shift in the period carries a true employee id that
    no stored employee has; [ValueError] and [KeyError] are its only
    errors. *)
Theorem payroll_calc_key_error :
  forall (employees : list Employee.t) (shifts : list Shift.t)
         (r : TaxSuperRule.t) (req : PayrollReq.t),
    (payroll_calc employees shifts r req = inr KeyError <->
     (forall sh, In sh shifts -> ~ payroll_blocked req sh)
     /\ exists sh k,
          In sh shifts /\ Shift.employee_id sh = Some k /\ k <> 0
          /\ within_period (Shift.day sh) (PayrollReq.period_start req)
                           (PayrollReq.period_end req) = inl true
          /\ forall e, In e employees -> Employee.id e <> k)
    /\ (forall e, payroll_calc employees shifts r req = inr e ->
                  e = ValueError \/ e = KeyError).
Proof.
  intros employees shifts r req.
  destruct (payroll_calc_errors employees shifts r req) as (Hk & _ & Ha).
  split; [exact Ha | exact Hk].
Qed.

Lemma payroll_calc_key_error_witness :
  payroll_calc two_employees [shift_of 1 (Some 7) "09:00" "17:00"]
               TaxSuperRule.default june
  = inr KeyError.
Proof.
  apply payroll_calc_key_error. split.
  - intros sh [<-|[]] (_ & [H|(_ & [H|H])]); vm_compute in H; discriminate.
  - exists (shift_of 1 (Some 7) "09:00" "17:00"), 7.
    split; [now left|]. split; [reflexivity|]. split; [discriminate|].
    split; [vm_compute; reflexivity|].
    intros e [<-|[<-|[]]]; discriminate.
Defined.

Lemma Forall2_map_eq {A B C} (f : A -> C) (g : B -> C) (l : list A)
      (l' : list B) :
  Forall2 (fun a b => f a = g b) l l' -> map f l = map g l'.
Proof. induction 1; simpl; congruence. Qed.

(** X18. A payroll run that returns has one pay line for each employee
    with hours in the period, in the order in which the employees first
    appear among the shifts of the period, with those hours; no employee
    has two lines. *)
Theorem payroll_calc_one_line_each :
  forall (employees : list Employee.t) (shifts : list Shift.t)
         (r : TaxSuperRule.t) (req : PayrollReq.t) (lines : list PayLine.t),
    payroll_calc employees shifts r req = inl lines ->
    exists hm,
      payroll_hours shifts req = inl hm
      /\ map (fun l => (PayLine.employee_id l, PayLine.hours l)) lines = hm
      /\ NoDup (map PayLine.employee_id lines).
Proof.
  intros employees shifts r req lines H.
  destruct (payroll_calc_lines _ _ _ _ _ H) as (hm & Hhm & HF).
  exists hm. split; [assumption|].
  assert (Hpairs : map (fun l => (PayLine.employee_id l, PayLine.hours l))
                       lines = hm).
  { rewrite <- (map_id hm). symmetry.
    apply Forall2_map_eq.
    eapply Forall2_impl; [|exact HF].
    intros [k h] line Hl. apply pay_line_ok in Hl as (emp & _ & -> & -> & _).
    reflexivity. }
  split; [assumption|].
  assert (Hkeys : map PayLine.employee_id lines = map fst hm)
    by (rewrite <- Hpairs, map_map; reflexivity).
  rewrite Hkeys. apply (payroll_hours_NoDup req shifts [] hm Hhm).
  constructor.
Qed.

Lemma payroll_calc_one_line_each_witness :
  exists hm,
    payroll_hours two_shifts june = inl hm
    /\ map (fun l => (PayLine.employee_id l, PayLine.hours l))
           [PayLine.mk 1 1 25.08 1.25 2.88 23.83 bank;
            PayLine.mk 2 1 30.08 1.5 3.46 28.58 bank] = hm
    /\ NoDup (map PayLine.employee_id
                  [PayLine.mk 1 1 25.08 1.25 2.88 23.83 bank;
                   PayLine.mk 2 1 30.08 1.5 3.46 28.58 bank]).
Proof.
  apply (payroll_calc_one_line_each two_employees two_shifts
                                    TaxSuperRule.default june).
  vm_compute. reflexivity.
Defined.

(** X19. The pay method of every pay line is the period's default pay
    method for an ABN contractor and the employee's own pay preference for
    everybody else. *)
Theorem payroll_pay_method :
  forall (employees : list Employee.t) (shifts : list Shift.t)
         (r : TaxSuperRule.t) (req : PayrollReq.t)
         (lines : list PayLine.t) (line : PayLine.t),
    payroll_calc employees shifts r req = inl lines ->
    In line lines ->
    exists emp,
      In emp employees
      /\ Employee.id emp = PayLine.employee_id line
      /\ (Employee.employment_type emp = ABN ->
          PayLine.pay_method line = PayrollReq.default_pay_method req)
      /\ (Employee.employment_type emp <> ABN ->
          PayLine.pay_method line = Employee.pay_preference emp).
Proof.
  intros employees shifts r req lines line H Hin.
  destruct (payroll_calc_lines _ _ _ _ _ H) as (hm & _ & HF).
  destruct (Forall2_In_r _ _ _ _ HF Hin) as (item & _ & Hl).
  apply pay_line_ok in Hl as (emp & Hget & Hid & _ & Hpm).
  apply employees_by_id_get in Hget as [He Hk].
  exists emp. split; [assumption|]. split; [congruence|].
  rewrite Hpm. destruct (Employee.employment_type emp); simpl;
    split; congruence.
Qed.

Lemma payroll_pay_method_witness :
  exists emp,
    In emp [sample_employee ABN]
    /\ Employee.id emp = 1
    /\ (Employee.employment_type emp = ABN -> cash = cash)
    /\ (Employee.employment_type emp <> ABN ->
        cash = Employee.pay_preference emp).
Proof.
  assert (H : payroll_calc [sample_employee ABN]
                [shift_of 1 (Some 1) "09:00" "17:00"] TaxSuperRule.default
                (PayrollReq.mk "2024-06-01" "2024-06-30" cash)
              = inl [PayLine.mk 1 8 200 0 23 200 cash])
    by (vm_compute; reflexivity).
  exact (payroll_pay_method _ _ _ _ _ _ H (or_introl eq_refl)).
Defined.

(** ** Onboarding and the pay method *)

(** Onboarding either is refused by the store, when the hourly rate is a
    NaN, or adds one employee after the stored ones. *)
Lemma create_employee_cases (db : list Employee.t) (e : EmployeeIn.t) :
  (is_nan (EmployeeIn.hourly_rate e) = true
   /\ create_employee db e = (db, inr IntegrityError))
  \/ (is_nan (EmployeeIn.hourly_rate e) = false
      /\ exists emp,
           create_employee db e = (db ++ [emp], inl emp)
           /\ Employee.employment_type emp = EmployeeIn.employment_type e
           /\ Employee.pay_preference emp
              = match EmployeeIn.employment_type e with
                | INT_STUDENT => bank
                | TFN | ABN => EmployeeIn.pay_preference e
                end).
Proof.
  unfold create_employee, store_required.
  destruct (sqlite_real (EmployeeIn.hourly_rate e)) as [rate|] eqn:E.
  - right. apply sqlite_real_spec in E as (Hn & _).
    split; [assumption|]. eexists. split; [reflexivity|].
    split; [reflexivity|]. cbn [Employee.pay_preference].
    destruct (EmployeeIn.employment_type e); reflexivity.
  - left. apply sqlite_real_nan in E. split; [assumption|reflexivity].
Qed.

Lemma create_employee_keeps_students (db : list Employee.t)
      (e : EmployeeIn.t) :
  students_by_bank db -> students_by_bank (fst (create_employee db e)).
Proof.
  intros Hdb.
  destruct (create_employee_cases db e)
    as [(_ & ->)|(_ & new & -> & Ht & Hp)]; [assumption|].
  intros emp Hin Hs. cbn [fst] in Hin. apply in_app_iff in Hin as [Hin|Hin].
  - now apply Hdb.
  - destruct Hin as [<-|[]]. rewrite Hp. rewrite Ht in Hs. now rewrite Hs.
Qed.

Lemma create_all_students (inputs : list EmployeeIn.t) :
  students_by_bank (create_all inputs).
Proof.
  unfold create_all.
  assert (H : forall db, students_by_bank db ->
                students_by_bank
                  (fold_left (fun db e => fst (create_employee db e))
                             inputs db)).
  { induction inputs as [|e l IH]; intros db Hdb; simpl; [assumption|].
    apply IH. now apply create_employee_keeps_students. }
  apply H. intros e [].
Qed.

(** X20. Onboarding with an hourly rate that is a number adds the new
    employee after the stored ones, an international student with pay
    preference bank, whatever the request asks for, and everybody else
    with the preference asked for; with a NaN as hourly rate the store
    refuses the row and nothing is added.  Either way, if every stored
    international student is paid by bank, this still holds afterwards; so
    it holds in every store filled by onboarding alone. *)
Theorem create_employee_students_by_bank :
  forall (db : list Employee.t) (e : EmployeeIn.t),
    (is_nan (EmployeeIn.hourly_rate e) = true ->
     create_employee db e = (db, raise IntegrityError))
    /\ (is_nan (EmployeeIn.hourly_rate e) = false ->
        exists emp,
          create_employee db e = (db ++ [emp], ret emp)
          /\ Employee.employment_type emp = EmployeeIn.employment_type e
          /\ Employee.pay_preference emp
             = match EmployeeIn.employment_type e with
               | INT_STUDENT => bank
               | TFN | ABN => EmployeeIn.pay_preference e
               end)
    /\ (students_by_bank db -> students_by_bank (fst (create_employee db e)))
    /\ forall inputs, students_by_bank (create_all inputs).
Proof.
  intros db e.
  split; [|split;
           [|split; [apply create_employee_keeps_students
                    |apply create_all_students]]].
  - intros Hn.
    destruct (create_employee_cases db e) as [(_ & E)|(Hn' & _)];
      [exact E|congruence].
  - intros Hn.
    destruct (create_employee_cases db e) as [(Hn' & _)|(_ & H)];
      [congruence|exact H].
Qed.

Lemma create_employee_students_by_bank_witness :
  (exists emp,
      create_employee [] student_in = ([] ++ [emp], ret emp)
      /\ Employee.employment_type emp = INT_STUDENT
      /\ Employee.pay_preference emp = bank)
  /\ students_by_bank (fst (create_employee [] student_in)).
Proof.
  destruct (create_employee_students_by_bank [] student_in)
    as (_ & Hok & Hkeep & _).
  split; [exact (Hok eq_refl)|]. apply Hkeep. intros e [].
Defined.

Lemma payroll_line_employee (employees : list Employee.t)
      (shifts : list Shift.t) (r : TaxSuperRule.t) (req : PayrollReq.t)
      (lines : list PayLine.t) (line : PayLine.t) :
  payroll_calc employees shifts r req = inl lines ->
  In line lines ->
  exists emp,
    dict_get (employees_by_id employees) (PayLine.employee_id line) = Some emp
    /\ PayLine.pay_method line
       = if EmploymentType_eqb (Employee.employment_type emp) ABN
         then PayrollReq.default_pay_method req
         else Employee.pay_preference emp.
Proof.
  intros H Hin.
  destruct (payroll_calc_lines _ _ _ _ _ H) as (hm & _ & HF).
  destruct (Forall2_In_r _ _ _ _ HF Hin) as (item & _ & Hl).
  apply pay_line_ok in Hl as (emp & Hget & Hid & _ & Hpm).
  exists emp. split; [congruence|assumption].
Qed.

(** X21. When every stored international student has pay preference bank
    (as onboarding guarantees), the pay line of an international student
    has pay method bank, whatever the default pay method of the period
    is. *)
Theorem payroll_students_by_bank :
  forall (employees : list Employee.t) (shifts : list Shift.t)
         (r : TaxSuperRule.t) (req : PayrollReq.t)
         (lines : list PayLine.t) (line : PayLine.t) (emp : Employee.t),
    students_by_bank employees ->
    payroll_calc employees shifts r req = inl lines ->
    In line lines ->
    dict_get (employees_by_id employees) (PayLine.employee_id line)
    = Some emp ->
    Employee.employment_type emp = INT_STUDENT ->
    PayLine.pay_method line = bank.
Proof.
  intros employees shifts r req lines line emp Hinv H Hin Hget Hs.
  destruct (payroll_line_employee _ _ _ _ _ _ H Hin) as (emp' & Hget' & Hpm).
  rewrite Hget in Hget'. injection Hget' as <-.
  rewrite Hpm, Hs. simpl.
  apply Hinv; [|assumption].
  now apply employees_by_id_get in Hget.
Qed.

Lemma payroll_students_by_bank_witness :
  PayLine.pay_method (PayLine.mk 1 8 176 8.8 20.24 167.2 bank) = bank.
Proof.
  apply (payroll_students_by_bank
           (create_all [student_in])
           [shift_of 1 (Some 1) "09:00" "17:00"] TaxSuperRule.default
           (PayrollReq.mk "2024-06-01" "2024-06-30" cash)
           [PayLine.mk 1 8 176 8.8 20.24 167.2 bank]
           (PayLine.mk 1 8 176 8.8 20.24 167.2 bank)
           (Employee.mk 1 "Bo" None INT_STUDENT None None 22 None
                        (Some 24%float) bank)).
  - apply create_all_students.
  - vm_compute. reflexivity.
  - now left.
  - reflexivity.
  - reflexivity.
Defined.

(** ** Rule updates, composed *)

Lemma rule_ext (r1 r2 : TaxSuperRule.t) :
  TaxSuperRule.id r1 = TaxSuperRule.id r2 ->
  (forall f, rule_get f r1 = rule_get f r2) ->
  r1 = r2.
Proof.
  intros Hid H.
  pose proof (H f_super_rate). pose proof (H f_int_student_weekly_cap).
  pose proof (H f_bracket1_max). pose proof (H f_bracket1_rate).
  pose proof (H f_bracket2_max). pose proof (H f_bracket2_base).
  pose proof (H f_bracket2_rate). pose proof (H f_bracket3_base).
  pose proof (H f_bracket3_rate). pose proof (H f_abn_withholding_rate).
  destruct r1, r2. simpl in *. congruence.
Qed.

Lemma supplied_merge (f : rule_field) (u1 u2 : RuleUpdate.t) :
  supplied f (merge_update u1 u2)
  = merge_field (supplied f u1) (supplied f u2).
Proof. destruct f; reflexivity. Qed.

(** An update that supplies numbers only is committed. *)
Lemma update_tax_super_rules_committed (r : TaxSuperRule.t)
      (update : RuleUpdate.t) :
  (forall f v, supplied f update = Some v -> not_nan v) ->
  exists r',
    update_tax_super_rules r update = (r', inl r')
    /\ TaxSuperRule.id r' = TaxSuperRule.id r
    /\ forall f, match supplied f update with
                 | Some v => sqlite_real v = Some (rule_get f r')
                 | None => rule_get f r' = rule_get f r
                 end.
Proof.
  intros Hnum.
  destruct (update_tax_super_rules_cases r update)
    as [(_ & f & v & Hs & Hn)|H]; [|exact H].
  specialize (Hnum _ _ Hs). unfold not_nan in Hnum. congruence.
Qed.

(** X22. Two partial updates that supply numbers only, one after the
    other, do what the single update does that supplies every field either
    of them supplies, the second winning where both do; the same update
    twice does what it does once, whether it is committed or refused; an
    update that supplies nothing changes nothing. *)
Theorem update_tax_super_rules_compose :
  forall (r : TaxSuperRule.t) (u1 u2 : RuleUpdate.t),
    ((forall f v, supplied f u1 = Some v -> not_nan v) ->
     (forall f v, supplied f u2 = Some v -> not_nan v) ->
     update_tax_super_rules (fst (update_tax_super_rules r u1)) u2
     = update_tax_super_rules r (merge_update u1 u2))
    /\ update_tax_super_rules (fst (update_tax_super_rules r u1)) u1
       = update_tax_super_rules r u1
    /\ update_tax_super_rules r empty_update = (r, ret r).
Proof.
  intros r u1 u2. split; [|split].
  - intros H1 H2.
    destruct (update_tax_super_rules_committed r u1 H1)
      as (r1 & -> & Hid1 & F1).
    cbn [fst].
    destruct (update_tax_super_rules_committed r1 u2 H2)
      as (r12 & -> & Hid12 & F12).
    destruct (update_tax_super_rules_committed r (merge_update u1 u2))
      as (rm & -> & Hidm & Fm).
    { intros f v. rewrite supplied_merge.
      destruct (supplied f u2) as [v2|] eqn:E2; simpl.
      - intros [= <-]. eauto.
      - apply H1. }
    assert (E : r12 = rm); [|now rewrite E].
    apply rule_ext; [congruence|].
    intros f. specialize (F1 f). specialize (F12 f). specialize (Fm f).
    rewrite supplied_merge in Fm.
    destruct (supplied f u2) as [v2|]; simpl in Fm; [congruence|].
    destruct (supplied f u1) as [v1|]; congruence.
  - destruct (update_tax_super_rules_cases r u1)
      as [(E & _)|(r1 & E & Hid1 & F1)]; rewrite E; cbn [fst];
      [exact E|].
    destruct (update_tax_super_rules_cases r1 u1)
      as [(_ & f & v & Hs & Hn)|(r11 & -> & Hid11 & F11)].
    + specialize (F1 f). rewrite Hs in F1.
      apply sqlite_real_nan in Hn. congruence.
    + assert (E' : r11 = r1); [|now rewrite E'].
      apply rule_ext; [assumption|].
      intros f. specialize (F1 f). specialize (F11 f).
      destruct (supplied f u1) as [v1|]; congruence.
  - destruct r. reflexivity.
Qed.

Lemma update_tax_super_rules_compose_witness :
  update_tax_super_rules
    (fst (update_tax_super_rules TaxSuperRule.default sample_update))
    bracket_update
  = update_tax_super_rules TaxSuperRule.default
                           (merge_update sample_update bracket_update).
Proof.
  apply (proj1 (update_tax_super_rules_compose TaxSuperRule.default
                                               sample_update bracket_update)).
  - intros f v. destruct f; simpl; intros [= <-]. reflexivity.
  - intros f v. destruct f; simpl; intros [= <-]; reflexivity.
Defined.

(** X23. The weekly cap for international students is never used: with
    any other value of it, tax, super, the payroll run and the roster
    generation with its totals are what they were. *)
Theorem int_student_weekly_cap_unused :
  forall (r : TaxSuperRule.t) (x : float),
    (forall emp gross hrs,
        compute_tax emp gross hrs (with_int_student_weekly_cap r x)
        = compute_tax emp gross hrs r)
    /\ (forall gross,
          compute_super gross (with_int_student_weekly_cap r x)
          = compute_super gross r)
    /\ (forall employees shifts req,
          payroll_calc employees shifts (with_int_student_weekly_cap r x) req
          = payroll_calc employees shifts r req)
    /\ (forall employees shifts,
          generate_roster employees shifts (with_int_student_weekly_cap r x)
          = generate_roster employees shifts r).
Proof.
  intros r x. split; [|split; [|split]].
  - intros emp gross hrs. reflexivity.
  - intros gross. reflexivity.
  - intros employees shifts req. reflexivity.
  - intros employees shifts. reflexivity.
Qed.

(** X24. An update changes the tax only through the bracket fields and the
    ABN rate, and the super only through the super rate: an update that
    supplies none of the former leaves every tax as it was, and one that
    does not supply the super rate leaves every super as it was. *)
Theorem update_tax_super_rules_effect :
  forall (r : TaxSuperRule.t) (update : RuleUpdate.t),
    ((forall f, f <> f_super_rate -> f <> f_int_student_weekly_cap ->
                supplied f update = None) ->
     forall emp gross hrs,
       compute_tax emp gross hrs (fst (update_tax_super_rules r update))
       = compute_tax emp gross hrs r)
    /\ (supplied f_super_rate update = None ->
        forall gross,
          compute_super gross (fst (update_tax_super_rules r update))
          = compute_super gross r).
Proof.
  intros r update.
  destruct (update_tax_super_rules_cases r update)
    as [(E & _)|(r' & E & _ & F)]; rewrite E; cbn [fst];
    [split; reflexivity|].
  split.
  - intros Hnone emp gross hrs.
    pose proof (F f_bracket1_max) as H1.
    pose proof (F f_bracket1_rate) as H2.
    pose proof (F f_bracket2_max) as H3.
    pose proof (F f_bracket2_base) as H4.
    pose proof (F f_bracket2_rate) as H5.
    pose proof (F f_bracket3_base) as H6.
    pose proof (F f_bracket3_rate) as H7.
    pose proof (F f_abn_withholding_rate) as H8.
    rewrite Hnone in H1, H2, H3, H4, H5, H6, H7, H8 by discriminate.
    cbn [rule_get] in *.
    unfold compute_tax. now rewrite H1, H2, H3, H4, H5, H6, H7, H8.
  - intros Hnone gross. pose proof (F f_super_rate) as H.
    rewrite Hnone in H. cbn [rule_get] in H.
    unfold compute_super. now rewrite H.
Qed.

Lemma update_tax_super_rules_effect_witness :
  compute_tax (sample_employee TFN) 750 30
              (fst (update_tax_super_rules TaxSuperRule.default sample_update))
  = compute_tax (sample_employee TFN) 750 30 TaxSuperRule.default
  /\ compute_super 750
       (fst (update_tax_super_rules TaxSuperRule.default empty_update))
     = compute_super 750 TaxSuperRule.default.
Proof.
  split.
  - apply (proj1 (update_tax_super_rules_effect TaxSuperRule.default
                                                sample_update)).
    intros f H1 H2. destruct f; try reflexivity; congruence.
  - apply (proj2 (update_tax_super_rules_effect TaxSuperRule.default
                                                empty_update)).
    reflexivity.
Defined.

(** ** Cashflow *)

Section CashflowProperties.
Variable py_sum : list float -> float.

Lemma cashflow_summary_defined (tx : list Transaction.t) :
  exists s, cashflow_summary py_sum tx = inl s.
Proof.
  unfold cashflow_summary, truediv.
  destruct (0 <? sum_amounts py_sum (is_type income) tx)%float eqn:Epos;
    [|eexists; reflexivity].
  destruct (_ =? 0)%float eqn:E; [|eexists; reflexivity].
  apply float_eqb_not_ltb in E. congruence.
Qed.

(** X25. The cashflow summary cannot divide by zero: the quotient of wages
    and income is taken only when income is greater than 0, and the
    percentage is 0 otherwise (no income, negative income, or a sum that
    is not a number). *)
Theorem cashflow_summary_returns :
  forall tx : list Transaction.t,
    exists s,
      cashflow_summary py_sum tx = inl s
      /\ ((0 <? sum_amounts py_sum (is_type income) tx)%float = false ->
          Summary.wages_pct_of_income s = 0%float)
      /\ ((0 <? sum_amounts py_sum (is_type income) tx)%float = true ->
          Summary.wages_pct_of_income s
          = round2 (sum_amounts py_sum is_wages tx
                    / sum_amounts py_sum (is_type income) tx * 100)).
Proof.
  intros tx. unfold cashflow_summary, truediv.
  destruct (0 <? sum_amounts py_sum (is_type income) tx)%float eqn:Epos.
  - assert (Hz : (sum_amounts py_sum (is_type income) tx =? 0)%float = false).
    { destruct (_ =? 0)%float eqn:E; [|reflexivity].
      apply float_eqb_not_ltb in E. congruence. }
    rewrite Hz. eexists. split; [reflexivity|].
    split; [discriminate|reflexivity].
  - eexists. split; [reflexivity|]. split; [|discriminate].
    intros _. vm_compute. reflexivity.
Qed.

(** X26. The dashboard shows the income, expense, estimated profit, cash
    and bank figures of the cashflow summary, and the number of stored
    employees. *)
Theorem dashboard_matches_cashflow :
  forall (employees : list Employee.t) (tx : list Transaction.t),
    exists s,
      cashflow_summary py_sum tx = inl s
      /\ dashboard py_sum employees tx
         = Dashboard.mk (Z.of_nat (List.length employees))
                        (Summary.income s) (Summary.expense s)
                        (Summary.profit_est s) (Summary.cash s)
                        (Summary.bank s).
Proof.
  intros employees tx.
  destruct (cashflow_summary_defined tx) as (s & Hs).
  exists s. split; [assumption|].
  unfold cashflow_summary in Hs.
  destruct (if (0 <? _)%float then _ else _) as [ratio|]; [|discriminate].
  injection Hs as <-. reflexivity.
Qed.

End CashflowProperties.

Lemma cashflow_summary_returns_witness :
  cashflow_summary sum_floats sample_transactions
  = inl (Summary.mk 150 30 120 30 150 33.33)
  /\ cashflow_summary sum_floats [] = inl (Summary.mk 0 0 0 0 0 0).
Proof.
  destruct (cashflow_summary_returns sum_floats sample_transactions)
    as (s & Hs & _ & Hpos).
  destruct (cashflow_summary_returns sum_floats [])
    as (s0 & Hs0 & Hzero & _).
  split.
  - rewrite Hs. f_equal.
    specialize (Hpos eq_refl). vm_compute in Hs. injection Hs as <-.
    reflexivity.
  - rewrite Hs0. f_equal.
    specialize (Hzero eq_refl). vm_compute in Hs0. injection Hs0 as <-.
    reflexivity.
Defined.

Lemma dashboard_matches_cashflow_witness :
  dashboard sum_floats two_employees sample_transactions
  = Dashboard.mk 2 150 30 120 30 150.
Proof.
  destruct (dashboard_matches_cashflow sum_floats two_employees
                                       sample_transactions)
    as (s & Hs & Hd).
  rewrite Hd. vm_compute in Hs. injection Hs as <-. reflexivity.
Defined.

(** ** The strings that [strptime] accepts *)

Lemma digit_inv (c : ascii) (x : Z) :
  Strptime.digit c = Some x -> c = digit_char x /\ 0 <= x <= 9.
Proof.
  intros H. split; [|eauto using digit_range].
  unfold Strptime.digit in H.
  destruct (_ && _) eqn:E; [|discriminate]. injection H as <-.
  apply andb_true_iff in E as [E1 E2]. apply Z.leb_le in E1, E2.
  unfold digit_char.
  replace (48 + (Z.of_N (N_of_ascii c) - 48)) with (Z.of_N (N_of_ascii c))
    by lia.
  now rewrite N2Z.id, ascii_N_embedding.
Qed.

Lemma two_digits_shape (accept : Z -> Z -> bool) (l rest : list ascii)
      (v : Z) :
  Strptime.two_digits accept l = Some (v, rest) ->
  0 <= v <= 99 /\ l = Strptime.chars (two_digit_string v) ++ rest.
Proof.
  unfold Strptime.two_digits.
  destruct l as [|a [|b l]]; try discriminate.
  destruct (Strptime.digit a) as [x|] eqn:Ea; [|discriminate].
  destruct (Strptime.digit b) as [y|] eqn:Eb; [|discriminate].
  destruct (accept x y); [|discriminate]. intros H.
  assert (E1 : v = 10 * x + y) by congruence.
  assert (E2 : rest = l) by congruence. subst v rest. clear H.
  apply digit_inv in Ea as [-> Hx]. apply digit_inv in Eb as [-> Hy].
  split; [lia|]. unfold two_digit_string, Strptime.chars.
  cbn [list_ascii_of_string app].
  replace ((10 * x + y) / 10) with x by (Z.div_mod_to_equations; lia).
  replace ((10 * x + y) mod 10) with y by (Z.div_mod_to_equations; lia).
  reflexivity.
Qed.

Lemma one_digit_shape (accept : Z -> bool) (l rest : list ascii) (v : Z) :
  Strptime.one_digit accept l = Some (v, rest) ->
  0 <= v <= 9 /\ l = Strptime.chars (one_digit_string v) ++ rest.
Proof.
  unfold Strptime.one_digit.
  destruct l as [|a l]; try discriminate.
  destruct (Strptime.digit a) as [x|] eqn:Ea; [|discriminate].
  destruct (accept x); [|discriminate]. intros [= <- <-].
  apply digit_inv in Ea as [-> Hx]. split; [lia|reflexivity].
Qed.

Lemma literal_inv (c : ascii) (l rest : list ascii) :
  Strptime.literal c l = Some rest -> l = c :: rest.
Proof.
  unfold Strptime.literal. destruct l as [|a l]; [discriminate|].
  destruct (Ascii.eqb_spec a c) as [->|]; [|discriminate].
  now intros [= <-].
Qed.

Lemma chars_app (a b : string) :
  Strptime.chars (a ++ b) = Strptime.chars a ++ Strptime.chars b.
Proof.
  unfold Strptime.chars. induction a as [|c a IH]; simpl; [reflexivity|].
  now rewrite IH.
Qed.

Lemma chars_inj (a b : string) :
  Strptime.chars a = Strptime.chars b -> a = b.
Proof.
  unfold Strptime.chars. intros H.
  rewrite <- (string_of_list_ascii_of_string a),
          <- (string_of_list_ascii_of_string b).
  now rewrite H.
Qed.

(** A number read by a one- or two-digit directive was written in one of
    the ways of [writings]. *)
Lemma number_shape (p two one : Strptime.directive) (l rest : list ascii)
      (v : Z) :
  In p [two; one] ->
  (exists accept, two = Strptime.two_digits accept) ->
  (exists accept, one = Strptime.one_digit accept) ->
  p l = Some (v, rest) ->
  exists w, In w (writings v) /\ l = Strptime.chars w ++ rest.
Proof.
  intros [<-|[<-|[]]] [a2 ->] [a1 ->] H.
  - apply two_digits_shape in H as [_ ->].
    exists (two_digit_string v). split; [now left|reflexivity].
  - apply one_digit_shape in H as [Hv ->].
    exists (one_digit_string v). split; [|reflexivity].
    unfold writings. destruct (Z.ltb_spec v 10); [|lia]. right. now left.
Qed.

Lemma time_writings_In (h m : Z) (s : string) :
  In s (time_writings h m) <->
  exists hs ms, In hs (writings h) /\ In ms (writings m)
                /\ s = (hs ++ ":" ++ ms)%string.
Proof.
  unfold time_writings. rewrite in_flat_map. split.
  - intros (hs & Hh & Hin). apply in_map_iff in Hin as (ms & <- & Hm).
    exists hs, ms. auto.
  - intros (hs & ms & Hh & Hm & ->). exists hs. split; [assumption|].
    apply in_map_iff. exists ms. auto.
Qed.

Lemma time_writings_accepted (h m : Z) (s : string) :
  0 <= h <= 23 -> 0 <= m <= 59 -> In s (time_writings h m) ->
  parse_time s = inl (mk 1900 1 1 h m 0).
Proof.
  intros Hh Hm Hin. apply parses_to_spec.
  assert (Hall :
    forallb (fun h =>
      forallb (fun m =>
        forallb (fun s => parses_to parse_time s (mk 1900 1 1 h m 0))
                (time_writings h m))
              (range 60))
            (range 24) = true) by (vm_compute; reflexivity).
  rewrite forallb_forall in Hall.
  specialize (Hall h (in_range 24 h ltac:(lia))).
  rewrite forallb_forall in Hall.
  specialize (Hall m (in_range 60 m ltac:(lia))).
  rewrite forallb_forall in Hall. now apply Hall.
Qed.

(** X27. The strings that [parse_time] accepts are exactly the hour (0 to
    23) and the minute (0 to 59), each written with two digits or, below
    10, with one, and a colon between them; the result is that time of
    1900-01-01.  So "9:5" is 09:05, and "24:00", "12:60" and "12:345" are
    errors. *)
Theorem parse_time_accepts :
  forall (s : string) (d : datetime),
    parse_time s = inl d <->
    exists h m,
      0 <= h <= 23 /\ 0 <= m <= 59
      /\ In s (time_writings h m)
      /\ d = mk 1900 1 1 h m 0.
Proof.
  intros s d. split.
  - intros H. unfold parse_time, Strptime.strptime_HM in H.
    destruct (Strptime.regex_HM _) as [[[h m] [|c rest]]|] eqn:E;
      try discriminate.
    injection H as <-. exists h, m.
    unfold Strptime.regex_HM in E.
    apply alts_inv in E as (p & v & rest & Hp & Hpl & Hk).
    destruct (Strptime.literal ":" rest) as [rest'|] eqn:El; [|discriminate].
    apply alts_inv in Hk as (q & w & rest'' & Hq & Hql & [= <- <- ->]).
    pose proof (H_range _ _ _ _ Hp Hpl) as Hh.
    pose proof (M_range _ _ _ _ Hq Hql) as Hm.
    apply literal_inv in El as ->.
    destruct (number_shape p Strptime.H_two Strptime.H_one _ _ _ Hp
                (ex_intro _ _ eq_refl) (ex_intro _ _ eq_refl) Hpl)
      as (hs & Hhs & Hl).
    destruct (number_shape q Strptime.M_two Strptime.M_one _ _ _ Hq
                (ex_intro _ _ eq_refl) (ex_intro _ _ eq_refl) Hql)
      as (ms & Hms & Hl').
    repeat (split; [assumption|]). split; [|reflexivity].
    apply time_writings_In. exists hs, ms.
    repeat (split; [assumption|]).
    apply chars_inj. rewrite Hl, Hl'.
    rewrite !chars_app, app_nil_r. reflexivity.
  - intros (h & m & Hh & Hm & Hin & ->).
    now apply time_writings_accepted.
Qed.

Lemma parse_time_accepts_witness :
  parse_time "9:5" = inl (mk 1900 1 1 9 5 0).
Proof.
  apply parse_time_accepts. exists 9, 5.
  split; [lia|]. split; [lia|]. split; [|reflexivity].
  vm_compute. right. right. right. now left.
Defined.

Lemma date_tail_writings_In (m d : Z) (s : string) :
  In s (date_tail_writings m d) <->
  exists ms ds, In ms (writings m) /\ In ds (day_writings d)
                /\ s = ("-" ++ ms ++ "-" ++ ds)%string.
Proof.
  unfold date_tail_writings. rewrite in_flat_map. split.
  - intros (ms & Hm & Hin). apply in_map_iff in Hin as (ds & <- & Hd).
    exists ms, ds. auto.
  - intros (ms & ds & Hm & Hd & ->). exists ms. split; [assumption|].
    apply in_map_iff. exists ds. auto.
Qed.

Lemma regex_md_writings (m d : Z) (tail : string) :
  1 <= m <= 12 -> 1 <= d <= 31 -> In tail (date_tail_writings m d) ->
  Strptime.regex_md (Strptime.chars tail) = Some (m, d, []).
Proof.
  intros Hm Hd Hin.
  assert (Hall :
    forallb (fun m =>
      forallb (fun d =>
        forallb (fun tail =>
          match Strptime.regex_md (Strptime.chars tail) with
          | Some (m', d', []) => (m' =? m) && (d' =? d)
          | _ => false
          end) (date_tail_writings m d))
        (map (Z.add 1) (range 31))) (map (Z.add 1) (range 12)) = true)
    by (vm_compute; reflexivity).
  rewrite forallb_forall in Hall.
  assert (Him : In m (map (Z.add 1) (range 12))).
  { apply in_map_iff. exists (m - 1). split; [lia|]. apply in_range. lia. }
  specialize (Hall m Him). rewrite forallb_forall in Hall.
  assert (Hid : In d (map (Z.add 1) (range 31))).
  { apply in_map_iff. exists (d - 1). split; [lia|]. apply in_range. lia. }
  specialize (Hall d Hid). rewrite forallb_forall in Hall.
  specialize (Hall tail Hin).
  destruct (Strptime.regex_md _) as [[[m' d'] [|c r]]|]; try discriminate.
  apply andb_true_iff in Hall as [E1 E2].
  apply Z.eqb_eq in E1, E2. now subst.
Qed.

Lemma valid_date_ranges (y m d : Z) :
  valid_date y m d = true -> 1 <= y <= 9999 /\ 1 <= m <= 12 /\ 1 <= d <= 31.
Proof.
  intros V. split_valid V.
  assert (days_in_month y m <= 31)
    by (unfold days_in_month;
        repeat match goal with |- context [if ?b then _ else _] =>
                                 destruct b end; lia).
  lia.
Qed.

Lemma Y_four_shape (l rest : list ascii) (y : Z) :
  Strptime.Y_four l = Some (y, rest) ->
  0 <= y <= 9999 /\ l = Strptime.chars (four_digit_string y) ++ rest.
Proof.
  unfold Strptime.Y_four.
  destruct l as [|a [|b [|c [|e l]]]]; try discriminate.
  destruct (Strptime.digit a) as [w|] eqn:Ea; [|discriminate].
  destruct (Strptime.digit b) as [x|] eqn:Eb; [|discriminate].
  destruct (Strptime.digit c) as [y0|] eqn:Ec; [|discriminate].
  destruct (Strptime.digit e) as [z|] eqn:Ee; [|discriminate].
  intros H.
  assert (E1 : y = 1000 * w + 100 * x + 10 * y0 + z) by congruence.
  assert (E2 : rest = l) by congruence. subst y rest. clear H.
  apply digit_inv in Ea as [-> Hw]. apply digit_inv in Eb as [-> Hx].
  apply digit_inv in Ec as [-> Hy]. apply digit_inv in Ee as [-> Hz].
  split; [lia|].
  unfold four_digit_string, two_digit_string, Strptime.chars.
  cbn [list_ascii_of_string app].
  set (n := 1000 * w + 100 * x + 10 * y0 + z).
  replace (n / 1000) with w by (subst n; Z.div_mod_to_equations; lia).
  replace (n / 100 mod 10) with x by (subst n; Z.div_mod_to_equations; lia).
  replace (n mod 100 / 10) with y0 by (subst n; Z.div_mod_to_equations; lia).
  replace (n mod 100 mod 10) with z by (subst n; Z.div_mod_to_equations; lia).
  reflexivity.
Qed.

Lemma day_shape (p : Strptime.directive) (l rest : list ascii) (v : Z) :
  In p [Strptime.d_two; Strptime.d_one; Strptime.d_padded] ->
  p l = Some (v, rest) ->
  exists w, In w (day_writings v) /\ l = Strptime.chars w ++ rest.
Proof.
  intros [<-|[<-|[<-|[]]]] H.
  - apply two_digits_shape in H as [_ ->].
    exists (two_digit_string v). split; [now left|reflexivity].
  - apply one_digit_shape in H as [Hv ->].
    exists (one_digit_string v). split; [|reflexivity].
    unfold day_writings, writings.
    destruct (Z.ltb_spec v 10); [|lia]. right. now left.
  - unfold Strptime.d_padded in H. destruct l as [|a l]; [discriminate|].
    destruct (Ascii.eqb_spec a " ") as [->|]; [|discriminate].
    apply one_digit_shape in H as [Hv ->].
    exists (String " " (one_digit_string v)). split; [|reflexivity].
    unfold day_writings, writings.
    destruct (Z.ltb_spec v 10); [|lia]. right. right. now left.
Qed.

(** X28. The strings that [strptime] accepts for "%Y-%m-%d" are exactly
    the valid dates of the years 1 to 9999 written as a four-digit year, a
    month with one or two digits and a day with one or two digits or a
    space and one digit, with hyphens between them; the result is midnight
    of that date.  So "2024-6- 5" is 2024-06-05, and "2023-02-29" and
    "0000-01-01" are errors. *)
Theorem strptime_Ymd_accepts :
  forall (s : string) (dt : datetime),
    Strptime.strptime_Ymd s = inl dt <->
    exists y m d,
      valid_date y m d = true
      /\ In s (date_writings y m d)
      /\ dt = mk y m d 0 0 0.
Proof.
  intros s dt. split.
  - intros H. unfold Strptime.strptime_Ymd in H.
    destruct (Strptime.regex_Ymd _) as [[[[y m] d] [|c rest]]|] eqn:E;
      try discriminate.
    destruct (valid_date y m d) eqn:V; [|discriminate].
    injection H as <-. exists y, m, d.
    split; [assumption|]. split; [|reflexivity].
    unfold Strptime.regex_Ymd in E.
    destruct (Strptime.Y_four _) as [[y' rest0]|] eqn:Ey; [|discriminate].
    destruct (Strptime.regex_md rest0) as [[[m' d'] r]|] eqn:Emd;
      [|discriminate].
    injection E as -> -> -> ->.
    apply Y_four_shape in Ey as [_ Hl].
    unfold Strptime.regex_md in Emd.
    destruct (Strptime.literal "-" rest0) as [rest1|] eqn:L1; [|discriminate].
    apply literal_inv in L1 as ->.
    apply alts_inv in Emd as (p & v & rest2 & Hp & Hpl & Hk).
    destruct (Strptime.literal "-" rest2) as [rest3|] eqn:L2; [|discriminate].
    apply literal_inv in L2 as ->.
    apply alts_inv in Hk as (q & w & rest4 & Hq & Hql & [= <- <- ->]).
    destruct (number_shape p Strptime.m_two Strptime.m_one _ _ _ Hp
                (ex_intro _ _ eq_refl) (ex_intro _ _ eq_refl) Hpl)
      as (ms & Hms & Hl1).
    destruct (day_shape q _ _ _ Hq Hql) as (ds & Hds & Hl2).
    unfold date_writings. apply in_map_iff.
    exists ("-" ++ ms ++ "-" ++ ds)%string. split.
    + apply chars_inj. rewrite Hl, Hl1, Hl2.
      rewrite !chars_app, app_nil_r. reflexivity.
    + apply date_tail_writings_In. exists ms, ds. auto.
  - intros (y & m & d & V & Hin & ->).
    destruct (valid_date_ranges _ _ _ V) as (Hy & Hm & Hd).
    unfold date_writings in Hin. apply in_map_iff in Hin as (tail & <- & Ht).
    unfold Strptime.strptime_Ymd, Strptime.regex_Ymd.
    rewrite Y_four_canonical by lia.
    rewrite (regex_md_writings m d tail Hm Hd Ht).
    now rewrite V.
Qed.

Lemma strptime_Ymd_accepts_witness :
  Strptime.strptime_Ymd "2024-6- 5" = inl (mk 2024 6 5 0 0 0).
Proof.
  apply strptime_Ymd_accepts. exists 2024, 6, 5.
  split; [reflexivity|]. split; [|reflexivity].
  vm_compute. do 5 right. now left.
Defined.

(** ** Every accepted writing *)

(** X29. However the two times are written among the accepted forms, the
    elapsed hours are those between the times they denote: the seconds
    from start to the next occurrence of end, over 3600. *)
Theorem hours_between_any_writing :
  forall (h1 m1 h2 m2 : Z) (a b : string),
    0 <= h1 <= 23 -> 0 <= m1 <= 59 -> 0 <= h2 <= 23 -> 0 <= m2 <= 59 ->
    In a (time_writings h1 m1) -> In b (time_writings h2 m2) ->
    hours_between a b
    = inl (hours_of_seconds
             (elapsed_seconds (3600 * h1 + 60 * m1) (3600 * h2 + 60 * m2))).
Proof.
  intros h1 m1 h2 m2 a b Hh1 Hm1 Hh2 Hm2 Ha Hb.
  apply (hours_between_parsed a b (mk 1900 1 1 h1 m1 0) (mk 1900 1 1 h2 m2 0));
    now apply time_writings_accepted.
Qed.

Lemma hours_between_any_writing_witness :
  hours_between "9:5" "17:05" = inl 8%float.
Proof.
  rewrite (hours_between_any_writing 9 5 17 5 "9:5" "17:05");
    try lia.
  - vm_compute. reflexivity.
  - vm_compute. do 3 right. now left.
  - vm_compute. now left.
Defined.

(** X30. However the three dates are written among the accepted forms,
    [within_period] tells whether the day lies between the start and the
    end of the period as calendar days, both ends included. *)
Theorem within_period_any_writing :
  forall (y m d ys ms ds ye me de : Z) (a b c : string),
    valid_date y m d = true ->
    valid_date ys ms ds = true ->
    valid_date ye me de = true ->
    In a (date_writings y m d) ->
    In b (date_writings ys ms ds) ->
    In c (date_writings ye me de) ->
    within_period a b c
    = inl ((toordinal (mk ys ms ds 0 0 0) <=? toordinal (mk y m d 0 0 0))
           && (toordinal (mk y m d 0 0 0) <=? toordinal (mk ye me de 0 0 0))).
Proof.
  intros y m d ys ms ds ye me de a b c Vd Vs Ve Ha Hb Hc.
  assert (Hread : forall y m d s,
             valid_date y m d = true -> In s (date_writings y m d) ->
             Strptime.strptime_Ymd s = inl (mk y m d 0 0 0)).
  { clear. intros y m d s V Hin.
    destruct (valid_date_ranges _ _ _ V) as (Hy & Hm & Hd).
    unfold date_writings in Hin. apply in_map_iff in Hin as (tail & <- & Ht).
    unfold Strptime.strptime_Ymd, Strptime.regex_Ymd.
    rewrite Y_four_canonical by lia.
    rewrite (regex_md_writings m d tail Hm Hd Ht).
    now rewrite V. }
  apply within_period_parsed; now apply Hread.
Qed.

Lemma within_period_any_writing_witness :
  within_period "2024-6- 5" "2024-06-01" "2024-6-30" = inl true.
Proof.
  rewrite (within_period_any_writing 2024 6 5 2024 6 1 2024 6 30
             "2024-6- 5" "2024-06-01" "2024-6-30");
    try reflexivity.
  - vm_compute. do 5 right. now left.
  - vm_compute. now left.
  - vm_compute. right. now left.
Defined.
